(** * Portfolio study controller: analytics engine

    A shallow embedding of [controllers/portfolio_study_controller.py]
    (class [PortfolioStudyController]) and the properties of its
    field resolution, time alignment, return, delta, zeroing, dividend
    and statistics computations.

    Modelling conventions.
    - A pandas float cell is a [cell]: either [NaN] (missing) or [Val q]
      with [q] a rational.  Arithmetic on cells is exact; the rounding of
      IEEE doubles is not modelled, and a non-finite quotient (division by
      zero) is identified with [NaN].
    - A calendar date is the number of days since 1970-01-01, as a [Z].
    - A long-format frame is the list of its rows, in row order.
    - A raised Python exception is the [Raise] case of [result]. *)

From Stdlib Require Import List String Ascii ZArith QArith Lia Bool Arith.
From Stdlib Require Import Lqa FinFun OrderedTypeEx Permutation Sorted.
Import ListNotations.
Open Scope string_scope.
Open Scope Z_scope.
Open Scope list_scope.

(* ------------------------------------------------------------------ *)
(** ** Cells *)

Inductive cell : Type :=
| NaN : cell
| Val : Q -> cell.

(** [x.fillna(0)] on one cell. *)
Definition fillna0 (v : cell) : Q :=
  match v with
  | NaN => 0%Q
  | Val q => q
  end.

(** Cell arithmetic: a missing operand gives a missing result. *)
Definition cell_lift2 (f : Q -> Q -> Q) (a b : cell) : cell :=
  match a, b with
  | Val x, Val y => Val (f x y)
  | _, _ => NaN
  end.

Definition cell_add : cell -> cell -> cell := cell_lift2 Qplus.
Definition cell_sub : cell -> cell -> cell := cell_lift2 Qminus.
Definition cell_mul : cell -> cell -> cell := cell_lift2 Qmult.

Definition Qis_zero (q : Q) : bool := (Qnum q =? 0)%Z.

Definition cell_div (a b : cell) : cell :=
  match a, b with
  | Val x, Val y => if Qis_zero y then NaN else Val (x / y)%Q
  | _, _ => NaN
  end.

(** Equality of cells up to the representation of a rational. *)
Definition cell_eq (a b : cell) : Prop :=
  match a, b with
  | NaN, NaN => True
  | Val x, Val y => (x == y)%Q
  | _, _ => False
  end.

(** Sum of a list of cells with [skipna=True]: missing cells count as 0
    and the sum of no cell is 0. *)
Definition sum_skipna (vs : list cell) : Q :=
  fold_right (fun v acc => (fillna0 v + acc)%Q) 0%Q vs.

(* ------------------------------------------------------------------ *)
(** ** Exceptions *)

Inductive result (E A : Type) : Type :=
| Ok : A -> result E A
| Raise : E -> result E A.

Arguments Ok {E A} _.
Arguments Raise {E A} _.

Definition bind {E A B} (m : result E A) (k : A -> result E B) : result E B :=
  match m with
  | Ok a => k a
  | Raise e => Raise e
  end.

Notation "'let*' x ':=' m 'in' k" := (bind m (fun x => k))
  (at level 10, x name, m at level 100, k at level 200).

(** The exceptions the embedded code can raise by itself, and those of the
    database collaborator, which are opaque to the controller. *)
Inductive exn : Type :=
| KeyError : string -> exn
| IndexError : exn
| ValueError : string -> exn
| AttributeError : exn
| TypeError : exn
| DbError : string -> exn.

(* ------------------------------------------------------------------ *)
(** ** Sorted label sets

    [unstack], [groupby] and index alignment produce sorted labels without
    repetition.  [sort_uniq] is insertion into a sorted duplicate-free
    list, for any three-way comparison. *)

Section SortUniq.
Variable A : Type.
Variable cmp : A -> A -> comparison.

Fixpoint insert_uniq (x : A) (l : list A) : list A :=
  match l with
  | [] => [x]
  | y :: t =>
      match cmp x y with
      | Lt => x :: y :: t
      | Eq => y :: t
      | Gt => y :: insert_uniq x t
      end
  end.

Definition sort_uniq (l : list A) : list A :=
  fold_right insert_uniq [] l.

End SortUniq.

Arguments insert_uniq {A} cmp x l.
Arguments sort_uniq {A} cmp l.

Definition sort_dates : list Z -> list Z := sort_uniq Z.compare.
Definition sort_labels : list string -> list string := sort_uniq String.compare.

Infix "=s?" := String.eqb (at level 70, no associativity).

(** Membership test on labels. *)
Definition mem_string (s : string) (l : list string) : bool :=
  existsb (String.eqb s) l.

(** Position of the first occurrence of a date in an index. *)
Fixpoint index_pos (d : Z) (l : list Z) : option nat :=
  match l with
  | [] => None
  | x :: t => if x =? d then Some O else option_map S (index_pos d t)
  end.

(** A Python [dict] used for its keys: insertion order is kept and a key
    that is already present keeps its place.  [dict_fromkeys l] is
    [list(dict.fromkeys(l))]; the same order is that of [Series.unique()]. *)
Definition dict_add_key (d : list string) (k : string) : list string :=
  if mem_string k d then d else d ++ [k].

Definition dict_fromkeys (l : list string) : list string :=
  fold_left dict_add_key l [].

(** [s.replace(old, '')] for a non-empty [old]: every non-overlapping
    occurrence of [old], scanning from the left, is removed.  [skip] counts
    the characters of a matched occurrence that remain to be dropped. *)
Fixpoint str_remove_from (old : string) (skip : nat) (s : string) : string :=
  match s with
  | EmptyString => EmptyString
  | String c t =>
      match skip with
      | S k => str_remove_from old k t
      | O =>
          if String.prefix old s
          then str_remove_from old (Nat.pred (String.length old)) t
          else String c (str_remove_from old O t)
      end
  end.

Definition str_remove (old s : string) : string := str_remove_from old O s.

(* ------------------------------------------------------------------ *)
(** ** The [params] dictionary of an analysis

    [params] is a Python dict.  The keys the code reads with
    [params[...]] are fields here; the keys it tests with [in] or reads
    with [.get] are options. *)

Inductive metric_arg : Type :=
| MetricName : string -> metric_arg
| MetricNames : list string -> metric_arg.

Record Params : Type := mkParams {
  study_type : string;
  selected_stocks : list string;
  start_date : Z;
  end_date : Z;
  metric : option metric_arg;
  metrics : option (list string);
  view_type : string;
  chart_type : string;
  calculation_type : string;
  time_period : string;
  display_type : string;
  zero_at_start : option bool
}.

(* ------------------------------------------------------------------ *)
(** ** Rows of [final_metrics] and long-format frames

    One row per stock and date, with the columns of [final_metrics], the
    [stock] tag added by [get_portfolio_data] and the [value] column
    written by [calculate_deltas].  For [self.data], which the plots and
    the statistics read, a column that the query did not select is a
    column of [NaN].  The frame that [calculate_deltas] receives as an
    argument carries the labels of its columns, see [DataFrame] below. *)

Record Row : Type := mkRow {
  date : Z;
  stock : string;
  market_value : cell;
  total_return : cell;
  daily_pl : cell;
  daily_pl_pct : cell;
  total_return_pct : cell;
  cumulative_return_pct : cell;
  cash_dividend : cell;
  cash_dividends_total : cell;
  drp_share : cell;
  drp_shares_total : cell;
  close_price : cell;
  value : cell
}.

Definition Frame : Type := list Row.

Definition set_stock (s : string) (r : Row) : Row :=
  mkRow (date r) s (market_value r) (total_return r) (daily_pl r)
        (daily_pl_pct r) (total_return_pct r) (cumulative_return_pct r)
        (cash_dividend r) (cash_dividends_total r) (drp_share r)
        (drp_shares_total r) (close_price r) (value r).

Definition set_value (v : cell) (r : Row) : Row :=
  mkRow (date r) (stock r) (market_value r) (total_return r) (daily_pl r)
        (daily_pl_pct r) (total_return_pct r) (cumulative_return_pct r)
        (cash_dividend r) (cash_dividends_total r) (drp_share r)
        (drp_shares_total r) (close_price r) v.

(** ** Frames with their column labels

    [calculate_deltas] takes its frame as an argument, and what it does
    depends on the columns that frame has.  A [DataFrame] is the rows
    together with the labels of the columns that exist, in column order; a
    field of [Row] whose label is not listed holds nothing.  [column] lists
    the labels a frame of the model can have: the fields of [Row]. *)

Inductive column : Type :=
| DateCol
| StockCol
| MarketValueCol
| TotalReturnCol
| DailyPlCol
| DailyPlPctCol
| TotalReturnPctCol
| CumulativeReturnPctCol
| CashDividendCol
| CashDividendsTotalCol
| DrpShareCol
| DrpSharesTotalCol
| ClosePriceCol
| ValueCol.

Definition column_name (c : column) : string :=
  match c with
  | DateCol => "date"
  | StockCol => "stock"
  | MarketValueCol => "market_value"
  | TotalReturnCol => "total_return"
  | DailyPlCol => "daily_pl"
  | DailyPlPctCol => "daily_pl_pct"
  | TotalReturnPctCol => "total_return_pct"
  | CumulativeReturnPctCol => "cumulative_return_pct"
  | CashDividendCol => "cash_dividend"
  | CashDividendsTotalCol => "cash_dividends_total"
  | DrpShareCol => "drp_share"
  | DrpSharesTotalCol => "drp_shares_total"
  | ClosePriceCol => "close_price"
  | ValueCol => "value"
  end.

Definition all_columns : list column :=
  [ DateCol; StockCol; MarketValueCol; TotalReturnCol; DailyPlCol;
    DailyPlPctCol; TotalReturnPctCol; CumulativeReturnPctCol;
    CashDividendCol; CashDividendsTotalCol; DrpShareCol; DrpSharesTotalCol;
    ClosePriceCol; ValueCol ].

Definition column_of_name (name : string) : option column :=
  find (fun c => column_name c =s? name) all_columns.

(** The cells of a numeric column.  [date] and [stock] hold text as the
    rows come from the database and from line 112 ([calculate_deltas]
    converts nothing): they have no numeric reader. *)
Definition numeric_column (c : column) : option (Row -> cell) :=
  match c with
  | DateCol => None
  | StockCol => None
  | MarketValueCol => Some market_value
  | TotalReturnCol => Some total_return
  | DailyPlCol => Some daily_pl
  | DailyPlPctCol => Some daily_pl_pct
  | TotalReturnPctCol => Some total_return_pct
  | CumulativeReturnPctCol => Some cumulative_return_pct
  | CashDividendCol => Some cash_dividend
  | CashDividendsTotalCol => Some cash_dividends_total
  | DrpShareCol => Some drp_share
  | DrpSharesTotalCol => Some drp_shares_total
  | ClosePriceCol => Some close_price
  | ValueCol => Some value
  end.

Record DataFrame : Type := mkDataFrame {
  df_columns : list column;
  df_rows : Frame
}.

Definition has_column (c : column) (data : DataFrame) : bool :=
  existsb (fun c' => column_name c' =s? column_name c) (df_columns data).

(** [data[name]] and [data.loc[mask, name]] as far as the label goes: the
    column, or the [KeyError] of pandas when the frame has none of that
    name. *)
Definition get_column (data : DataFrame) (name : string) : result exn column :=
  match column_of_name name with
  | Some c => if has_column c data then Ok c else Raise (KeyError name)
  | None => Raise (KeyError name)
  end.

(* ------------------------------------------------------------------ *)
(** ** [get_portfolio_data]: field resolution (lines 54-83) *)

Definition study_type_mapping : list (string * list string) :=
  [ ("market_value", ["market_value"]);
    ("profitability",
      ["total_return"; "market_value"; "daily_pl"; "daily_pl_pct";
       "total_return_pct"; "cumulative_return_pct"]);
    ("dividend_performance",
      ["cash_dividend"; "cash_dividends_total"; "drp_share";
       "drp_shares_total"; "close_price"]) ].

Fixpoint dict_get {V : Type} (d : list (string * V)) (k : string) : option V :=
  match d with
  | [] => None
  | (k', v) :: t => if k =s? k' then Some v else dict_get t k
  end.

(** The list [fields] just before duplicates are removed. *)
Definition requested_fields (params : Params) : list string :=
  let fields := ["date"] in
  let fields := fields ++ ["market_value"] in
  let fields :=
    match dict_get study_type_mapping (study_type params) with
    | Some study_fields => fields ++ study_fields
    | None => fields
    end in
  let fields :=
    match metric params with
    | Some (MetricNames ms) => fields ++ ms
    | Some (MetricName m) => fields ++ [m]
    | None => fields
    end in
  match metrics params with
  | Some ms => fields ++ ms
  | None => fields
  end.

Definition resolve_fields (params : Params) : list string :=
  dict_fromkeys (requested_fields params).

(* ------------------------------------------------------------------ *)
(** ** Collaborators and the two read paths *)

Record Stock : Type := mkStock {
  stock_id : Z;
  yahoo_symbol : string
}.

(** One row of the active-holdings query: [id], [yahoo_symbol], [name],
    [total_days], [active_days], [max_value]. *)
Record ActivityRow : Type := mkActivityRow {
  act_id : Z;
  act_symbol : string;
  act_name : string;
  act_total_days : Z;
  act_active_days : Z;
  act_max_value : cell
}.

Section Controller.

(** [self.current_portfolio.get_stock] and [self.current_portfolio.id]. *)
Variable get_stock : string -> option Stock.
Variable portfolio_id : Z.

(** [self.db_manager.fetch_all_with_params] on the metrics query built
    from [fields], with [stock_id], [start_date] and [end_date], and on the
    active-holdings query built from [dividend_type], with [start_date],
    [end_date] and [portfolio_id].  Either call may raise. *)
Variable fetch_metrics : list string -> Z -> Z -> Z -> result exn (list Row).
Variable fetch_activity :
  option string -> Z -> Z -> Z -> result exn (list ActivityRow).

(** The loop over [params['selected_stocks']] (lines 97-113): the frames
    appended to [data_frames], or the first exception raised by a read. *)
Fixpoint fetch_frames (fields : list string) (params : Params)
    (symbols : list string) : result exn (list Frame) :=
  match symbols with
  | [] => Ok []
  | yahoo_symbol :: rest =>
      match get_stock yahoo_symbol with
      | Some stock =>
          let* results :=
            fetch_metrics fields (stock_id stock)
                          (start_date params) (end_date params) in
          let* data_frames := fetch_frames fields params rest in
          match results with
          | [] => Ok data_frames
          | _ :: _ => Ok (map (set_stock yahoo_symbol) results :: data_frames)
          end
      | None => fetch_frames fields params rest
      end
  end.

(** [try: ... except Exception as e: logger.error(...); raise]. *)
Definition log_and_reraise {A : Type} (body : result exn A) : result exn A :=
  match body with
  | Ok a => Ok a
  | Raise e => Raise e
  end.

Definition get_portfolio_data (params : Params) : result exn Frame :=
  log_and_reraise
    (let fields := resolve_fields params in
     let* data_frames := fetch_frames fields params (selected_stocks params) in
     Ok (List.concat data_frames)).

(** [get_active_stocks_for_date_range] (lines 849-938). *)
Definition get_active_stocks_for_date_range (start_date end_date : Z)
    (dividend_type : option string) : result exn (list Stock) :=
  match
    (let* results :=
       fetch_activity dividend_type start_date end_date portfolio_id in
     Ok (flat_map
           (fun row =>
              match get_stock (act_symbol row) with
              | Some stock => [stock]
              | None => []
              end)
           results))
  with
  | Ok active_stocks => Ok active_stocks
  | Raise _ => Ok []
  end.

End Controller.

(* ------------------------------------------------------------------ *)
(** ** Wide frames: [unstack], [asfreq('D')], [ffill]

    A wide frame has one row per label of its date index and one column
    per stock; a column is the list of its cells in index order. *)

Record Wide : Type := mkWide {
  w_index : list Z;
  w_columns : list (string * list cell)
}.

Definition has_key (d : Z) (s : string) (r : Row) : bool :=
  (date r =? d) && (stock r =s? s).

Fixpoint has_duplicate_keys (frame : Frame) : bool :=
  match frame with
  | [] => false
  | r :: t => existsb (has_key (date r) (stock r)) t || has_duplicate_keys t
  end.

(** The cell of the row with index [(d, s)], missing when there is none. *)
Definition cell_at (col : Row -> cell) (frame : Frame) (d : Z) (s : string)
  : cell :=
  match find (has_key d s) frame with
  | Some r => col r
  | None => NaN
  end.

(** [frame.set_index(['date', 'stock'])[col].unstack()]: both label sets
    come out sorted; a repeated [(date, stock)] pair cannot be reshaped. *)
Definition unstack (col : Row -> cell) (frame : Frame) : result exn Wide :=
  if has_duplicate_keys frame
  then Raise (ValueError "Index contains duplicate entries, cannot reshape")
  else
    let index := sort_dates (map date frame) in
    Ok (mkWide index
          (map (fun s => (s, map (fun d => cell_at col frame d s) index))
               (sort_labels (map stock frame)))).

Definition day_range (lo hi : Z) : list Z :=
  map (fun i => lo + Z.of_nat i) (seq 0 (Z.to_nat (hi - lo + 1))).

Definition reindex_column (old_index new_index : list Z) (cells : list cell)
  : list cell :=
  map (fun d =>
         match index_pos d old_index with
         | Some i => nth i cells NaN
         | None => NaN
         end)
      new_index.

(** [w.asfreq('D')]: the index becomes every day from the first to the
    last label; a day that was not a label gets missing cells. *)
Definition asfreq_D (w : Wide) : Wide :=
  match w_index w with
  | [] => w
  | d0 :: ds =>
      let new_index :=
        day_range (fold_left Z.min ds d0) (fold_left Z.max ds d0) in
      mkWide new_index
        (map (fun sc => (fst sc, reindex_column (w_index w) new_index (snd sc)))
             (w_columns w))
  end.

(** [ffill] of one column: [last] is the last valid cell seen so far. *)
Fixpoint ffill_from (last : cell) (cells : list cell) : list cell :=
  match cells with
  | [] => []
  | c :: t =>
      let v := match c with NaN => last | Val _ => c end in
      v :: ffill_from v t
  end.

Definition map_columns (f : list cell -> list cell) (w : Wide) : Wide :=
  mkWide (w_index w) (map (fun sc => (fst sc, f (snd sc))) (w_columns w)).

Definition ffill : Wide -> Wide := map_columns (ffill_from NaN).

Definition fillna_wide : Wide -> Wide :=
  map_columns (map (fun c => Val (fillna0 c))).

(** [w.at[d, s]], when both labels exist. *)
Definition wide_at (w : Wide) (d : Z) (s : string) : option cell :=
  match dict_get (w_columns w) s, index_pos d (w_index w) with
  | Some cells, Some i => nth_error cells i
  | _, _ => None
  end.

(** The operand cell pandas uses after aligning two frames: missing when
    the label is absent from this operand. *)
Definition aligned_cell (w : Wide) (d : Z) (s : string) : cell :=
  match wide_at w d s with
  | Some c => c
  | None => NaN
  end.

(** [a + b] on frames: labels are aligned on the sorted union. *)
Definition wide_add (a b : Wide) : Wide :=
  let index := sort_dates (w_index a ++ w_index b) in
  mkWide index
    (map (fun s =>
            (s, map (fun d =>
                       cell_add (aligned_cell a d s) (aligned_cell b d s))
                    index))
         (sort_labels (map fst (w_columns a) ++ map fst (w_columns b)))).

(** A series indexed by date, in index order. *)
Definition Series : Type := list (Z * cell).

Definition row_cells (w : Wide) (i : nat) : list cell :=
  map (fun sc => nth i (snd sc) NaN) (w_columns w).

(** [w.sum(axis=1)]. *)
Definition sum_axis1 (w : Wide) : Series :=
  map (fun id => (snd id, Val (sum_skipna (row_cells w (fst id)))))
      (combine (seq 0 (List.length (w_index w))) (w_index w)).

Definition series_get (s : Series) (d : Z) : cell :=
  match find (fun p => fst p =? d) s with
  | Some p => snd p
  | None => NaN
  end.

(** [a / b] and [a * k] on series; the two operands of every division in
    the controller carry the same index. *)
Definition series_div (a b : Series) : Series :=
  map (fun p => (fst p, cell_div (snd p) (series_get b (fst p)))) a.

Definition series_scale (k : Q) (a : Series) : Series :=
  map (fun p => (fst p, cell_mul (snd p) (Val k))) a.

(** [y_values.iloc[0]] and [y_values - start_value]. *)
Definition iloc0 (s : Series) : result exn cell :=
  match s with
  | [] => Raise IndexError
  | p :: _ => Ok (snd p)
  end.

Definition series_sub_scalar (s : Series) (v : cell) : Series :=
  map (fun p => (fst p, cell_sub (snd p) v)) s.

Definition zero_at_start_date (y_values : Series) : result exn Series :=
  let* start_value := iloc0 y_values in
  Ok (series_sub_scalar y_values start_value).

(** [frame.groupby('date')[col].sum()]. *)
Definition group_sum (col : Row -> cell) (frame : Frame) (d : Z) : Q :=
  sum_skipna (map col (filter (fun r => date r =? d) frame)).

Definition groupby_date_sum (col : Row -> cell) (frame : Frame) : Series :=
  map (fun d => (d, Val (group_sum col frame d))) (sort_dates (map date frame)).

(* ------------------------------------------------------------------ *)
(** ** What a plot routine hands to the axes *)

Inductive artist : Type :=
| Line (label : string) (points : Series)
| StackPlot (index : list Z) (layers : list (string * list cell))
| Pie (day : Z) (wedges : list (string * Q))
| Text (message : string).

Fixpoint map_result {A B : Type} (f : A -> result exn B) (l : list A)
  : result exn (list B) :=
  match l with
  | [] => Ok []
  | x :: t =>
      let* y := f x in
      let* ys := map_result f t in
      Ok (y :: ys)
  end.

Definition Qlt_bool (a b : Q) : bool := negb (Qle_bool b a).

(** ** [plot_market_value] (lines 240-288) *)
Definition plot_market_value (data : Frame) (params : Params)
  : result exn (list artist) :=
  let* unstacked := unstack market_value data in
  let plot_data := ffill (asfreq_D unstacked) in
  if view_type params =s? "individual_stocks" then
    Ok (flat_map
          (fun sym =>
             match dict_get (w_columns plot_data) sym with
             | Some cells => [Line sym (combine (w_index plot_data) cells)]
             | None => []
             end)
          (selected_stocks params))
  else if chart_type params =s? "line_chart" then
    let portfolio_total := sum_axis1 plot_data in
    Ok [Line "Total Portfolio" portfolio_total]
  else if chart_type params =s? "stacked_area" then
    let plot_data := fillna_wide plot_data in
    let sorted_columns := sort_labels (map fst (w_columns plot_data)) in
    Ok [StackPlot (w_index plot_data)
          (map (fun s =>
                  (s, match dict_get (w_columns plot_data) s with
                      | Some cells => cells
                      | None => []
                      end))
               sorted_columns)]
  else Ok [].

(** ** [plot_profitability] (lines 321-457) *)
Definition profitability_metric (chart_type time_period : string)
  : Row -> cell :=
  if chart_type =s? "dollar_value" then
    if time_period =s? "daily" then daily_pl else total_return
  else if chart_type =s? "percentage" then
    if time_period =s? "daily" then daily_pl_pct else total_return_pct
  else cumulative_return_pct.

Definition get_zero_at_start (params : Params) : bool :=
  match zero_at_start params with
  | Some b => b
  | None => false
  end.

Definition plot_profitability (data : Frame) (params : Params)
  : result exn (list artist) :=
  log_and_reraise
    (let view_type := view_type params in
     let time_period := calculation_type params in
     let chart_type := chart_type params in
     let zero_at_start := get_zero_at_start params in
     let metric := profitability_metric chart_type time_period in
     if view_type =s? "individual_stocks" then
       map_result
         (fun sym =>
            let stock_data := filter (fun r => stock r =s? sym) data in
            let y_values := map (fun r => (date r, metric r)) stock_data in
            let* y_values :=
              if zero_at_start && (time_period =s? "cumulative")
              then zero_at_start_date y_values
              else Ok y_values in
            Ok (Line sym y_values))
         (selected_stocks params)
     else if (time_period =s? "cumulative") && (chart_type =s? "dollar_value")
     then
       let* unstacked := unstack metric data in
       let plot_data := ffill (asfreq_D unstacked) in
       let y_values := sum_axis1 plot_data in
       let* y_values :=
         if zero_at_start then zero_at_start_date y_values else Ok y_values in
       Ok [Line "Portfolio Total" y_values]
     else if chart_type =s? "percentage" then
       let* y_values :=
         if time_period =s? "daily" then
           Ok (series_scale 100
                 (series_div (groupby_date_sum daily_pl data)
                             (groupby_date_sum market_value data)))
         else
           let* total_return_data := unstack total_return data in
           let* market_value_data := unstack market_value data in
           let total_return_data := ffill (asfreq_D total_return_data) in
           let market_value_data := ffill (asfreq_D market_value_data) in
           let portfolio_total_return := sum_axis1 total_return_data in
           let portfolio_total_value := sum_axis1 market_value_data in
           Ok (series_scale 100
                 (series_div portfolio_total_return portfolio_total_value)) in
       let* y_values :=
         if zero_at_start && (time_period =s? "cumulative")
         then zero_at_start_date y_values
         else Ok y_values in
       Ok [Line "Portfolio Total" y_values]
     else Ok []).

(** ** [plot_dividends] (lines 477-598) *)
Definition drp_value (r : Row) : cell := cell_mul (drp_share r) (close_price r).

Definition drp_value_total (r : Row) : cell :=
  cell_mul (drp_shares_total r) (close_price r).

(** The frame the routine plots: [plot_data], or [total_dividend_data] for
    the combined view, after the forward fill of cumulative views.  The
    columns [drp_value] and [drp_value_total] exist only for the chart
    types ['drp'] and ['combined']. *)
Definition dividend_frame (data : Frame) (params : Params) : result exn Wide :=
  let has_drp_columns := mem_string (chart_type params) ["drp"; "combined"] in
  let cumulative := time_period params =s? "cumulative" in
  let* plotted :=
    if chart_type params =s? "cash" then
      unstack (if cumulative then cash_dividends_total else cash_dividend) data
    else if chart_type params =s? "drp" then
      unstack (if cumulative then drp_value_total else drp_value) data
    else if has_drp_columns then
      let* cash_data :=
        unstack (if cumulative then cash_dividends_total else cash_dividend)
                data in
      let* drp_data :=
        unstack (if cumulative then drp_value_total else drp_value) data in
      Ok (wide_add (fillna_wide cash_data) (fillna_wide drp_data))
    else
      let* _ :=
        unstack (if cumulative then cash_dividends_total else cash_dividend)
                data in
      Raise (KeyError
               (if cumulative then "drp_value_total" else "drp_value")) in
  Ok (if cumulative then ffill (asfreq_D plotted) else plotted).

Definition plot_dividends (data : Frame) (params : Params)
  : result exn (list artist) :=
  log_and_reraise
    (let* plotted := dividend_frame data params in
     if view_type params =s? "individual_stocks" then
       Ok (map (fun sc => Line (fst sc) (combine (w_index plotted) (snd sc)))
               (w_columns plotted))
     else
       let portfolio_total := sum_axis1 plotted in
       if chart_type params =s? "combined"
       then Ok [Line "Total Dividends" portfolio_total]
       else Ok [Line "Portfolio Total" portfolio_total]).

(** ** [plot_distribution] (lines 609-733)

    The routine looks up the tab of the view whose text is "Charts" and
    adds its slider to the layout of that tab before it draws.  [Tab] is
    what it reads of a tab; the view is given as the tabs of the
    [QTabWidget] that [self.view.findChild(QTabWidget)] returns, or [None]
    when the view has no such child.  The artists are those of the initial
    [update_distribution(0)]; the slider and its label are widgets of the
    view and are left out. *)
Record Tab : Type := mkTab {
  tab_text : string;
  tab_has_layout : bool
}.

(** The loop of lines 632-636: the first tab whose text is "Charts". *)
Definition find_charts_tab (tabs : list Tab) : option Tab :=
  find (fun t => tab_text t =s? "Charts") tabs.

Definition plot_distribution (tab_widget : option (list Tab)) (data : Frame)
  : result exn (list artist) :=
  log_and_reraise
    (let* unstacked := unstack market_value data in
     let plot_data := ffill (asfreq_D unstacked) in
     match w_index plot_data with
     | [] => Ok [Text "No data available for selected date range"]
     | current_date :: _ =>
         let* tabs :=
           match tab_widget with
           | Some tabs => Ok tabs
           | None => Raise AttributeError
           end in
         match find_charts_tab tabs with
         | None => Ok []
         | Some charts_tab =>
             if tab_has_layout charts_tab then
               let positive_sizes :=
                 flat_map
                   (fun sc =>
                      match nth 0 (snd sc) NaN with
                      | Val q => if Qlt_bool 0 q then [(fst sc, q)] else []
                      | NaN => []
                      end)
                   (w_columns plot_data) in
               match positive_sizes with
               | [] => Ok [Text "No positive market values to display"]
               | _ :: _ => Ok [Pie current_date positive_sizes]
               end
             else Raise AttributeError
         end
     end).

(* ------------------------------------------------------------------ *)
(** ** [calculate_portfolio_total_metrics] (lines 126-136) *)

Record GroupedRow : Type := mkGroupedRow {
  g_date : Z;
  g_total_return : Q;
  g_market_value : Q;
  g_value : cell
}.

Inductive total_metrics : Type :=
| DollarTotals (rows : Series)
| PercentTotals (rows : list GroupedRow).

Definition calculate_portfolio_total_metrics (data : Frame) (params : Params)
  : total_metrics :=
  if chart_type params =s? "dollar_value" then
    DollarTotals (groupby_date_sum total_return data)
  else
    PercentTotals
      (map (fun d =>
              let tr := group_sum total_return data d in
              let mv := group_sum market_value data d in
              mkGroupedRow d tr mv
                (cell_mul (cell_div (Val tr) (Val mv)) (Val 100)))
           (sort_dates (map date data))).

(* ------------------------------------------------------------------ *)
(** ** [calculate_deltas] (lines 140-150) *)

Fixpoint diff_from (prev : cell) (cells : list cell) : list cell :=
  match cells with
  | [] => []
  | c :: t => cell_sub c prev :: diff_from c t
  end.

(** [Series.diff()]. *)
Definition diff (cells : list cell) : list cell :=
  match cells with
  | [] => []
  | c :: t => NaN :: diff_from c t
  end.

(** The rows selected by [mask] take the cells of [vals] in order as
    their [value]; the other rows are kept. *)
Fixpoint assign_value (mask : Row -> bool) (data : Frame) (vals : list cell)
  : Frame :=
  match data with
  | [] => []
  | r :: t =>
      if mask r then
        match vals with
        | v :: vs => set_value v r :: assign_value mask t vs
        | [] => r :: assign_value mask t []
        end
      else r :: assign_value mask t vals
  end.

(** [data.loc[mask, 'value'] = vals]: a frame without a [value] column
    gets one, appended and missing outside [mask]. *)
Definition with_value_column (data : DataFrame) : DataFrame :=
  if has_column ValueCol data then data
  else mkDataFrame (df_columns data ++ [ValueCol])
                   (map (set_value NaN) (df_rows data)).

Definition loc_set_value (mask : Row -> bool) (data : DataFrame)
    (vals : list cell) : DataFrame :=
  let data := with_value_column data in
  mkDataFrame (df_columns data) (assign_value mask (df_rows data) vals).

(** [series.diff()] on the cells of column [c] in [rows].  A text column
    has dtype [object]: the subtraction of two strings is a [TypeError],
    and it is attempted between consecutive rows only, so a single row
    gives one missing cell. *)
Definition column_diff (c : column) (rows : list Row)
  : result exn (list cell) :=
  match numeric_column c with
  | Some col => Ok (diff (map col rows))
  | None =>
      match rows with
      | _ :: _ :: _ => Raise TypeError
      | _ => Ok (map (fun _ => NaN) rows)
      end
  end.

(** One turn of the loop over [data['stock'].unique()]. *)
Definition deltas_for_stock (params : Params) (sym : string)
    (data : DataFrame) : result exn DataFrame :=
  let mask := fun r => stock r =s? sym in
  let* name :=
    match metric params with
    | Some (MetricName m) => Ok m
    | Some (MetricNames _) => Raise AttributeError
    | None => Raise (KeyError "metric")
    end in
  let base_col := str_remove "_delta" name in
  let* c := get_column data base_col in
  let* deltas := column_diff c (filter mask (df_rows data)) in
  Ok (loc_set_value mask data deltas).

Fixpoint deltas_per_stock (params : Params) (stocks : list string)
    (data : DataFrame) : result exn DataFrame :=
  match stocks with
  | [] => Ok data
  | sym :: rest =>
      let* data := deltas_for_stock params sym data in
      deltas_per_stock params rest data
  end.

(** The frame is changed in place and returned: the result is the frame
    after the call. *)
Definition calculate_deltas (data : DataFrame) (params : Params)
  : result exn DataFrame :=
  if view_type params =s? "individual_stocks" then
    let* _ := get_column data "stock" in
    deltas_per_stock params (dict_fromkeys (map stock (df_rows data))) data
  else
    let* _ := get_column data "value" in
    Ok (mkDataFrame (df_columns data)
          (assign_value (fun _ => true) (df_rows data)
                        (diff (map value (df_rows data))))).

(* ------------------------------------------------------------------ *)
(** ** [update_statistics_table] (lines 769-835)

    A statistic is kept with the number it displays; the text Python's
    format specification produces from that number is not modelled.
    [Series.std()] is the square root of the sample variance and is kept
    as that variance. *)

Inductive shown : Type :=
| Dollars (x : cell)
| Fixed2 (prefix : string) (x : cell) (suffix : string)
| Fixed2Sqrt (variance : cell) (suffix : string)
| Count (n : nat)
| HoldingDollars (name : string) (x : cell)
| HoldingShare (name : string) (percent : cell).

Definition valid_cells (cells : list cell) : list Q :=
  flat_map (fun c => match c with Val q => [q] | NaN => [] end) cells.

Definition Qmax_bool (a b : Q) : Q := if Qle_bool a b then b else a.
Definition Qmin_bool (a b : Q) : Q := if Qle_bool b a then b else a.

(** [Series.max()], [min()], [mean()], [var()] with [skipna=True]. *)
Definition col_max (cells : list cell) : cell :=
  match valid_cells cells with
  | [] => NaN
  | q :: t => Val (fold_left Qmax_bool t q)
  end.

Definition col_min (cells : list cell) : cell :=
  match valid_cells cells with
  | [] => NaN
  | q :: t => Val (fold_left Qmin_bool t q)
  end.

Definition Qsum (qs : list Q) : Q := fold_right Qplus 0%Q qs.

Definition Qcount (qs : list Q) : Q := inject_Z (Z.of_nat (List.length qs)).

Definition col_mean (cells : list cell) : cell :=
  let qs := valid_cells cells in
  cell_div (Val (Qsum qs)) (Val (Qcount qs)).

Definition col_var (cells : list cell) : cell :=
  let qs := valid_cells cells in
  match col_mean cells with
  | Val m =>
      cell_div (Val (Qsum (map (fun q => (q - m) * (q - m))%Q qs)))
               (Val (Qcount qs - 1)%Q)
  | NaN => NaN
  end.

(** The label of the first largest (smallest) valid cell, as [idxmax]
    ([idxmin]) gives it; no valid cell is a [ValueError]. *)
Fixpoint arg_best (better : Q -> Q -> bool) (best : string * Q)
    (rest : list (string * cell)) : string :=
  match rest with
  | [] => fst best
  | (s, Val q) :: t =>
      if better q (snd best) then arg_best better (s, q) t
      else arg_best better best t
  | (_, NaN) :: t => arg_best better best t
  end.

Fixpoint idx_best (better : Q -> Q -> bool) (s : list (string * cell))
  : result exn string :=
  match s with
  | [] => Raise (ValueError "attempt to get argmax of an empty sequence")
  | (name, Val q) :: t => Ok (arg_best better (name, q) t)
  | (_, NaN) :: t => idx_best better t
  end.

Definition idxmax : list (string * cell) -> result exn string :=
  idx_best (fun q best => Qlt_bool best q).

Definition idxmin : list (string * cell) -> result exn string :=
  idx_best (fun q best => Qlt_bool q best).

Definition stock_rows (sym : string) (data : Frame) : Frame :=
  filter (fun r => stock r =s? sym) data.

(** [data.groupby('stock')[col].last()]: the last valid cell per stock. *)
Definition groupby_stock_last (col : Row -> cell) (data : Frame)
  : list (string * cell) :=
  map (fun sym =>
         (sym, match rev (valid_cells (map col (stock_rows sym data))) with
               | q :: _ => Val q
               | [] => NaN
               end))
      (sort_labels (map stock data)).

(** [data.groupby('stock')[col].sum()]. *)
Definition groupby_stock_sum (col : Row -> cell) (data : Frame)
  : list (string * cell) :=
  map (fun sym => (sym, Val (sum_skipna (map col (stock_rows sym data)))))
      (sort_labels (map stock data)).

Definition Stats : Type := list (string * shown).

(** [self.data[name]] and [self.data.groupby(name)] as far as the label
    goes: when the statistics read [self.data] without rows, it is the
    [pd.DataFrame()] of line 117, which has no column at all. *)
Definition self_data_label (name : string) (data : Frame) : result exn unit :=
  match data with
  | [] => Raise (KeyError name)
  | _ :: _ => Ok tt
  end.

Definition market_value_stats (data : Frame) : result exn Stats :=
  let* _ := self_data_label "stock" data in
  let latest_values := groupby_stock_last market_value data in
  let total_value := sum_skipna (map snd latest_values) in
  let* largest := idxmax latest_values in
  let* smallest := idxmin latest_values in
  Ok [ ("Total Portfolio Value", Dollars (Val total_value));
       ("Number of Holdings", Count (List.length latest_values));
       ("Largest Holding",
          HoldingDollars largest (col_max (map snd latest_values)));
       ("Smallest Holding",
          HoldingDollars smallest (col_min (map snd latest_values))) ].

Definition profitability_stats (data : Frame) (params : Params)
  : result exn Stats :=
  let daily := time_period params =s? "Daily Changes" in
  let percentage := display_type params =s? "Percentage" in
  let metric :=
    if percentage
    then (if daily then daily_pl_pct else total_return_pct)
    else (if daily then daily_pl else total_return) in
  let metric_name :=
    if percentage
    then (if daily then "daily_pl_pct" else "total_return_pct")
    else (if daily then "daily_pl" else "total_return") in
  let suffix := if percentage then "%" else "$" in
  let* _ := self_data_label metric_name data in
  let column := map metric data in
  Ok [ ("Average Return", Fixed2 "" (col_mean column) suffix);
       ("Best Return", Fixed2 "" (col_max column) suffix);
       ("Worst Return", Fixed2 "" (col_min column) suffix);
       ("Volatility", Fixed2Sqrt (col_var column) suffix) ].

Definition is_payment (c : cell) : bool :=
  match c with
  | Val q => Qlt_bool 0 q
  | NaN => false
  end.

Definition dividend_stats (data : Frame) (params : Params)
  : result exn Stats :=
  let cash := view_type params =s? "Cash Dividends" in
  let total_col := if cash then cash_dividends_total else drp_shares_total in
  let period_col := if cash then cash_dividend else drp_share in
  let total_name :=
    if cash then "cash_dividends_total" else "drp_shares_total" in
  let prefix := if cash then "$" else "" in
  let* _ := self_data_label total_name data in
  Ok [ ("Total Received", Fixed2 prefix (col_max (map total_col data)) "");
       ("Average Per Period",
          Fixed2 prefix (col_mean (map period_col data)) "");
       ("Largest Single Payment",
          Fixed2 prefix (col_max (map period_col data)) "");
       ("Number of Payments",
          Count (List.length
                   (filter (fun r => is_payment (period_col r)) data))) ].

Definition latest_date (data : Frame) : option Z :=
  match map date data with
  | [] => None
  | d :: ds => Some (fold_left Z.max ds d)
  end.

Definition distribution_stats (data : Frame) : result exn Stats :=
  let* _ := self_data_label "date" data in
  let latest_values :=
    match latest_date data with
    | Some latest => filter (fun r => date r =? latest) data
    | None => []
    end in
  let holdings := groupby_stock_sum market_value latest_values in
  let total := Val (sum_skipna (map snd holdings)) in
  let share := fun x => cell_mul (cell_div x total) (Val 100) in
  let* largest := idxmax holdings in
  let* smallest := idxmin holdings in
  Ok [ ("Number of Holdings", Count (List.length holdings));
       ("Total Portfolio Value", Dollars total);
       ("Largest Allocation",
          HoldingShare largest (share (col_max (map snd holdings))));
       ("Smallest Allocation",
          HoldingShare smallest (share (col_min (map snd holdings)))) ].

Definition update_statistics_table (data : Frame) (params : Params)
  : result exn Stats :=
  let study_type := study_type params in
  if study_type =s? "Market Value" then market_value_stats data
  else if study_type =s? "Profitability" then profitability_stats data params
  else if study_type =s? "Dividend Performance" then dividend_stats data params
  else distribution_stats data.

(* ------------------------------------------------------------------ *)
(** ** [analyse_portfolio] (lines 159-203) *)

Inductive outcome : Type :=
| NoDataWarning
| AnalysisError (e : exn)
| Updated (chart : list artist) (stats : Stats).

Section Analysis.

Variable get_stock : string -> option Stock.
Variable fetch_metrics : list string -> Z -> Z -> Z -> result exn (list Row).

(** The tabs of the view's [QTabWidget], see [plot_distribution]. *)
Variable tab_widget : option (list Tab).

(** The plot dispatch (lines 179-188). *)
Definition plot_study (data : Frame) (params : Params)
  : result exn (list artist) :=
  let study_type := study_type params in
  if study_type =s? "market_value" then plot_market_value data params
  else if study_type =s? "profitability" then plot_profitability data params
  else if study_type =s? "dividend_performance" then plot_dividends data params
  else plot_distribution tab_widget data.

(** [self_data] is [self.data] on entry; the result is [self.data] on exit
    with what the user gets to see.  The handler of line 197 turns any
    exception into the "Analysis Error" message box. *)
Definition analyse_portfolio (self_data : Frame) (params : Params)
  : Frame * outcome :=
  match get_portfolio_data get_stock fetch_metrics params with
  | Raise e => (self_data, AnalysisError e)
  | Ok data =>
      match data with
      | [] => (data, NoDataWarning)
      | _ :: _ =>
          match
            (let* chart := plot_study data params in
             let* stats := update_statistics_table data params in
             Ok (chart, stats))
          with
          | Ok cs => (data, Updated (fst cs) (snd cs))
          | Raise e => (data, AnalysisError e)
          end
      end
  end.

End Analysis.

(* ------------------------------------------------------------------ *)
(** ** Vocabulary of the properties *)

(** A running total: each cell is at least the one before. *)
Fixpoint nondecreasing (qs : list Q) : Prop :=
  match qs with
  | a :: (b :: _) as t => (a <= b)%Q /\ nondecreasing t
  | _ => True
  end.

(** A symbol whose turn of the fetch loop raises nothing: it has no
    backing stock, or its read returns rows. *)
Definition reads_fine (get_stock : string -> option Stock)
    (fetch_metrics : list string -> Z -> Z -> Z -> result exn (list Row))
    (fields : list string) (p : Params) (sym : string) : Prop :=
  match get_stock sym with
  | None => True
  | Some st =>
      exists rows,
        fetch_metrics fields (stock_id st) (start_date p) (end_date p) = Ok rows
  end.

(** The wide frame whose cell at [(d, s)] is [f d s]. *)
Definition tabulate (index : list Z) (labels : list string)
    (f : Z -> string -> cell) : Wide :=
  mkWide index (map (fun s => (s, map (fun d => f d s) index)) labels).

(** What [unstack], [asfreq('D')] and [ffill] make of a column of a frame
    that can be reshaped. *)
Definition aligned_table (col : Row -> cell) (frame : Frame) : Wide :=
  ffill (asfreq_D (tabulate (sort_dates (map date frame))
                            (sort_labels (map stock frame))
                            (cell_at col frame))).

(** The [n] consecutive days from [lo] on. *)
Definition days (lo : Z) (n : nat) : list Z :=
  map (fun i => lo + Z.of_nat i) (seq 0 n).

(** The last valid cell of [g] over the days [ds], or [last] when there
    is none. *)
Definition carry (g : Z -> cell) (last : cell) (ds : list Z) : cell :=
  fold_left (fun acc d => match g d with NaN => acc | Val _ => g d end) ds last.

(** [params] with the key [zero_at_start] set. *)
Definition with_zero_at_start (b : bool) (p : Params) : Params :=
  mkParams (study_type p) (selected_stocks p) (start_date p) (end_date p)
           (metric p) (metrics p) (view_type p) (chart_type p)
           (calculation_type p) (time_period p) (display_type p) (Some b).

(** A plotted line with its series zeroed at the start date. *)
Definition zero_line (a : artist) : result exn artist :=
  match a with
  | Line label points =>
      let* zeroed := zero_at_start_date points in
      Ok (Line label zeroed)
  | other => Ok other
  end.

(** The labels of the statistics of the distribution branch. *)
Definition distribution_labels : list string :=
  ["Number of Holdings"; "Total Portfolio Value";
   "Largest Allocation"; "Smallest Allocation"].

(* ------------------------------------------------------------------ *)
(** ** Sample inputs

    Day 19723 is 2024-01-01. *)

Definition blank_row (d : Z) (s : string) : Row :=
  mkRow d s NaN NaN NaN NaN NaN NaN NaN NaN NaN NaN NaN NaN.

Definition params_other : Params :=
  mkParams "portfolio_distribution" ["AAA.AX"] 19723 19724 None None
           "portfolio_total" "pie" "cumulative" "cumulative" "" None.

(** One stock over three days: cash dividends 5, 0, 5, one share
    reinvested on the second day at a closing price of 2. *)
Definition dividend_row (d : Z) (cash cash_total drp drp_total : Q) : Row :=
  mkRow d "AAA.AX" NaN NaN NaN NaN NaN NaN
        (Val cash) (Val cash_total) (Val drp) (Val drp_total) (Val 2) NaN.

Definition sample_dividends : Frame :=
  [ dividend_row 19723 5 5 0 0;
    dividend_row 19724 0 5 1 1;
    dividend_row 19725 5 10 0 1 ].

Definition params_dividends : Params :=
  mkParams "dividend_performance" ["AAA.AX"] 19723 19725 None None
           "portfolio_total" "combined" "daily" "daily" "" None.

Definition params_dividend_stats : Params :=
  mkParams "Dividend Performance" ["AAA.AX"] 19723 19725 None None
           "Cash Dividends" "combined" "daily" "daily" "" None.

(** A portfolio holding AAA.AX and BBB.AX, and a database whose reads
    fail. *)
Definition sample_get_stock (sym : string) : option Stock :=
  if sym =s? "AAA.AX" then Some (mkStock 7 "AAA.AX")
  else if sym =s? "BBB.AX" then Some (mkStock 8 "BBB.AX")
  else None.

Definition failing_fetch_metrics (fields : list string) (id start_ end_ : Z)
  : result exn (list Row) :=
  Raise (DbError "database is locked").

Definition failing_fetch_activity (dividend_type : option string)
    (start_ end_ portfolio : Z) : result exn (list ActivityRow) :=
  Raise (DbError "database is locked").

(** Stock AAA.AX is worth 100 then 110 on 2024-01-01 and 2024-01-02;
    stock BBB.AX is worth 50 and has a row on 2024-01-01 only. *)
Definition market_row (d : Z) (s : string) (mv : Q) : Row :=
  mkRow d s (Val mv) NaN NaN NaN NaN NaN NaN NaN NaN NaN NaN NaN.

Definition sample_market : Frame :=
  [ market_row 19723 "AAA.AX" 100;
    market_row 19724 "AAA.AX" 110;
    market_row 19723 "BBB.AX" 50 ].

Definition params_deltas : Params :=
  mkParams "market_value" ["AAA.AX"; "BBB.AX"] 19723 19724
           (Some (MetricName "market_value_delta")) None
           "individual_stocks" "line_chart" "daily" "daily" "" None.

Definition sample_cumulative : Series :=
  [ (19723, Val 10); (19724, Val 15); (19725, Val 20) ].

Definition params_market_stocks : Params :=
  mkParams "market_value" ["AAA.AX"; "BBB.AX"] 19723 19724 None None
           "individual_stocks" "line_chart" "" "" "" None.

Definition params_market_total : Params :=
  mkParams "market_value" ["AAA.AX"; "BBB.AX"] 19723 19724 None None
           "portfolio_total" "line_chart" "" "" "" None.

(** AAA.AX has a return of 10 then 20 on a value of 100; BBB.AX has a
    return of 5 on a value of 50 and a row on the first day only. *)
Definition return_row (d : Z) (s : string) (mv tr pl : Q) : Row :=
  mkRow d s (Val mv) (Val tr) (Val pl) NaN NaN NaN NaN NaN NaN NaN NaN NaN.

Definition sample_returns : Frame :=
  [ return_row 19723 "AAA.AX" 100 10 1;
    return_row 19724 "AAA.AX" 100 20 10;
    return_row 19723 "BBB.AX" 50 5 2 ].

Definition params_returns (chart calculation : string) : Params :=
  mkParams "profitability" ["AAA.AX"; "BBB.AX"] 19723 19724 None None
           "portfolio_total" chart calculation "" "" None.

(** What [get_portfolio_data] returns when the read of the stock [st]
    answers [rows st]: the rows of each selected symbol that has a backing
    stock, tagged with the symbol, in selection order. *)
Definition tagged_rows (get_stock : string -> option Stock)
    (rows : Stock -> list Row) (symbols : list string) : Frame :=
  flat_map
    (fun sym =>
       match get_stock sym with
       | Some st => map (set_stock sym) (rows st)
       | None => []
       end)
    symbols.

(** A database that answers every read with the same two rows. *)
Definition two_rows (st : Stock) : list Row :=
  [ market_row 19723 "" 100; market_row 19724 "" 110 ].

Definition fetch_two_rows (fields : list string) (id start_ end_ : Z)
  : result exn (list Row) :=
  Ok [ market_row 19723 "" 100; market_row 19724 "" 110 ].

Definition params_twice : Params :=
  mkParams "market_value" ["AAA.AX"; "BBB.AX"; "AAA.AX"] 19723 19724
           None None "portfolio_total" "line_chart" "" "" "" None.

Definition params_unknown_symbols : Params :=
  mkParams "market_value" ["ZZZ.AX"; "YYY.AX"] 19723 19724
           None None "portfolio_total" "line_chart" "" "" "" None.

(** The legend label of a plotted line. *)
Definition artist_label (a : artist) : string :=
  match a with
  | Line label _ => label
  | StackPlot _ _ => ""
  | Pie _ _ => ""
  | Text _ => ""
  end.

Definition params_market_stacked : Params :=
  mkParams "market_value" ["AAA.AX"; "BBB.AX"] 19723 19724 None None
           "portfolio_total" "stacked_area" "" "" "" None.

Definition params_market_three : Params :=
  mkParams "market_value" ["BBB.AX"; "CCC.AX"; "AAA.AX"] 19723 19724
           None None "individual_stocks" "line_chart" "" "" "" None.

Definition params_returns_stocks (zero : bool) (symbols : list string)
  : Params :=
  mkParams "profitability" symbols 19723 19724 None None
           "individual_stocks" "dollar_value" "cumulative" "" ""
           (Some zero).

Definition params_dividends_chart (chart period : string) : Params :=
  mkParams "dividend_performance" ["AAA.AX"] 19723 19725 None None
           "portfolio_total" chart "" period "" None.

(** AAA.AX has a cash running total of 5 on 2024-01-01 and no row on
    2024-01-02, a day on which BBB.AX has one. *)
Definition sample_cash_totals : Frame :=
  [ dividend_row 19723 5 5 0 0;
    set_stock "BBB.AX" (dividend_row 19724 7 7 0 0) ].

(** The metric names given beside the study type. *)
Definition extra_metrics (p : Params) : list string :=
  match metric p with
  | Some (MetricNames ms) => ms
  | Some (MetricName m) => [m]
  | None => []
  end
  ++ match metrics p with
     | Some ms => ms
     | None => []
     end.

(** [params] without the keys [metric] and [metrics]. *)
Definition without_metrics (p : Params) : Params :=
  mkParams (study_type p) (selected_stocks p) (start_date p) (end_date p)
           None None (view_type p) (chart_type p)
           (calculation_type p) (time_period p) (display_type p)
           (zero_at_start p).

Definition params_redundant_metrics : Params :=
  mkParams "profitability" ["AAA.AX"] 19723 19724
           (Some (MetricName "daily_pl")) (Some ["date"; "total_return"])
           "portfolio_total" "dollar_value" "daily" "" "" None.


(** The index a row gets from [set_index(['date', 'stock'])]. *)
Definition row_key (r : Row) : Z * string := (date r, stock r).

(** A database that answers every metrics read with the rows of AAA.AX
    in [sample_market], and an activity query with three symbols of which
    the portfolio knows two. *)
Definition activity_row (id : Z) (sym : string) : ActivityRow :=
  mkActivityRow id sym sym 2 2 (Val 100).

Definition fetch_three_active (dividend_type : option string)
    (start_ end_ portfolio : Z) : result exn (list ActivityRow) :=
  Ok [ activity_row 7 "AAA.AX"; activity_row 9 "GONE.AX";
       activity_row 8 "BBB.AX" ].

(** AAA.AX is bought on 2024-01-02: on 2024-01-01 its market value and
    its return are 0, then it is worth 100 with a return of 10, then of
    20. *)
Definition sample_late_start : Frame :=
  [ return_row 19723 "AAA.AX" 0 0 0;
    return_row 19724 "AAA.AX" 100 10 10;
    return_row 19725 "AAA.AX" 100 20 10 ].

(** The frame [calculate_portfolio_total_metrics] returns, with the
    columns it has after [reset_index()], and [value] (line 135) for the
    percentage; it has no [stock] column. *)
Definition totals_row (d : Z) (tr mv v : cell) : Row :=
  mkRow d "" mv tr NaN NaN NaN NaN NaN NaN NaN NaN NaN v.

Definition metrics_frame (m : total_metrics) : DataFrame :=
  match m with
  | DollarTotals rows =>
      mkDataFrame [DateCol; TotalReturnCol]
        (map (fun dv => totals_row (fst dv) (snd dv) NaN NaN) rows)
  | PercentTotals rows =>
      mkDataFrame [DateCol; TotalReturnCol; MarketValueCol; ValueCol]
        (map (fun g => totals_row (g_date g) (Val (g_total_return g))
                                  (Val (g_market_value g)) (g_value g))
             rows)
  end.

(** The columns of a frame built by [get_portfolio_data] (lines 111-112):
    the resolved fields that [Row] carries, then [stock]. *)
Definition fetched_columns (p : Params) : list column :=
  flat_map
    (fun name =>
       match column_of_name name with
       | Some c => [c]
       | None => []
       end)
    (resolve_fields p)
  ++ [StockCol].

(** [sample_market] as the frame fetched for [params_deltas]: its columns
    are [date], [market_value] and [stock]. *)
Definition sample_market_frame : DataFrame :=
  mkDataFrame (fetched_columns params_deltas) sample_market.

(** A view with the tabs "Charts" and "Statistics", each with a layout. *)
Definition sample_tab_widget : option (list Tab) :=
  Some [ mkTab "Charts" true; mkTab "Statistics" true ].

(* ================================================================== *)
(** * Properties *)

(** ** Generic facts *)

Lemma string_compare_eq (a b : string) : String.compare a b = Eq <-> a = b.
Proof.
  split.
  - apply String.compare_eq_iff.
  - intros ->. pose proof (String.compare_antisym b b) as H.
    destruct (String.compare b b); simpl in H; congruence.
Qed.

Section SortUniqFacts.
Variable A : Type.
Variable cmp : A -> A -> comparison.
Hypothesis cmp_eq : forall a b, cmp a b = Eq <-> a = b.

Lemma insert_uniq_In x l z : In z (insert_uniq cmp x l) <-> z = x \/ In z l.
Proof using cmp_eq.
  induction l as [|y t IH]; simpl.
  - intuition.
  - destruct (cmp x y) eqn:E; simpl.
    + apply cmp_eq in E. subst. intuition.
    + intuition.
    + rewrite IH. intuition.
Qed.

Lemma sort_uniq_In l z : In z (sort_uniq cmp l) <-> In z l.
Proof using cmp_eq.
  induction l as [|x t IH]; simpl.
  - reflexivity.
  - unfold sort_uniq in *. rewrite insert_uniq_In, IH. intuition.
Qed.

End SortUniqFacts.

Lemma sort_dates_In l d : In d (sort_dates l) <-> In d l.
Proof. apply sort_uniq_In. intros a b. apply Z.compare_eq_iff. Qed.

Lemma sort_labels_In l s : In s (sort_labels l) <-> In s l.
Proof. apply sort_uniq_In. apply string_compare_eq. Qed.

Lemma mem_string_In k d : mem_string k d = true <-> In k d.
Proof.
  unfold mem_string. rewrite existsb_exists. split.
  - intros (x & Hx & E). apply String.eqb_eq in E. now subst.
  - intros H. exists k. split; [assumption | apply String.eqb_refl].
Qed.

Lemma mem_string_false k d : mem_string k d = false <-> ~ In k d.
Proof.
  rewrite <- mem_string_In. destruct (mem_string k d); intuition congruence.
Qed.

(** ** Field resolution *)

Lemma dict_add_keys_prefix l acc :
  exists rest, fold_left dict_add_key l acc = acc ++ rest.
Proof.
  revert acc. induction l as [|k t IH]; intros acc; simpl.
  - exists []. now rewrite app_nil_r.
  - unfold dict_add_key at 2. destruct (mem_string k acc).
    + apply IH.
    + destruct (IH (acc ++ [k])) as [rest E]. exists (k :: rest).
      rewrite E, <- app_assoc. reflexivity.
Qed.

Lemma dict_add_keys_In l acc z :
  In z (fold_left dict_add_key l acc) <-> In z acc \/ In z l.
Proof.
  revert acc. induction l as [|k t IH]; intros acc; simpl.
  - intuition.
  - rewrite IH. unfold dict_add_key. destruct (mem_string k acc) eqn:M.
    + apply mem_string_In in M. intuition (subst; auto).
    + rewrite in_app_iff. simpl. intuition.
Qed.

Lemma dict_add_keys_NoDup l acc :
  NoDup acc -> NoDup (fold_left dict_add_key l acc).
Proof.
  revert acc. induction l as [|k t IH]; intros acc Hacc; simpl.
  - assumption.
  - apply IH. unfold dict_add_key. destruct (mem_string k acc) eqn:M.
    + assumption.
    + apply mem_string_false in M.
      apply NoDup_app; [assumption | repeat constructor; intros [] |].
      intros x Hx [<-|[]]. contradiction.
Qed.

Lemma dict_fromkeys_In l z : In z (dict_fromkeys l) <-> In z l.
Proof. unfold dict_fromkeys. rewrite dict_add_keys_In. simpl. intuition. Qed.

Lemma dict_fromkeys_NoDup l : NoDup (dict_fromkeys l).
Proof. apply dict_add_keys_NoDup. constructor. Qed.

(** A key is placed right after the keys seen before its first
    occurrence. *)
Lemma dict_fromkeys_first_seen l1 x l2 :
  ~ In x l1 ->
  exists rest, dict_fromkeys (l1 ++ x :: l2) = dict_fromkeys l1 ++ x :: rest.
Proof.
  intros Hx. unfold dict_fromkeys. rewrite fold_left_app. simpl.
  fold (dict_fromkeys l1). unfold dict_add_key at 2.
  replace (mem_string x (dict_fromkeys l1)) with false.
  - destruct (dict_add_keys_prefix l2 (dict_fromkeys l1 ++ [x])) as [rest E].
    exists rest. rewrite E, <- app_assoc. reflexivity.
  - symmetry. apply mem_string_false. now rewrite dict_fromkeys_In.
Qed.

Lemma requested_fields_head p :
  exists rest, requested_fields p = "date" :: "market_value" :: rest.
Proof.
  unfold requested_fields.
  destruct (dict_get study_type_mapping (study_type p));
    destruct (metric p) as [[m|ms]|]; destruct (metrics p);
    simpl; rewrite <- ?app_assoc; simpl; eexists; reflexivity.
Qed.

Lemma study_type_unknown s :
  s <> "market_value" -> s <> "profitability" -> s <> "dividend_performance" ->
  dict_get study_type_mapping s = None.
Proof.
  intros H1 H2 H3. simpl.
  apply String.eqb_neq in H1, H2, H3. now rewrite H1, H2, H3.
Qed.

(** C6.  For every study type and every optional [metric] / [metrics]
    input, the resolved column list starts with [date] then
    [market_value], has no duplicate, holds exactly the requested columns,
    keeps them in first-seen order (a column sits right after the distinct
    columns requested before its first occurrence), and for an
    unrecognised study type without extra metrics it is exactly
    [date; market_value]; the resolution is a total function, so nothing
    is raised. *)
Theorem resolve_fields_ordered_unique (p : Params) :
  (exists rest, resolve_fields p = "date" :: "market_value" :: rest) /\
  NoDup (resolve_fields p) /\
  (forall x, In x (resolve_fields p) <-> In x (requested_fields p)) /\
  (forall l1 x l2,
      requested_fields p = l1 ++ x :: l2 -> ~ In x l1 ->
      (forall z, In z (dict_fromkeys l1) <-> In z l1) /\
      exists rest, resolve_fields p = dict_fromkeys l1 ++ x :: rest) /\
  (study_type p <> "market_value" ->
   study_type p <> "profitability" ->
   study_type p <> "dividend_performance" ->
   metric p = None -> metrics p = None ->
   resolve_fields p = ["date"; "market_value"]).
Proof.
  unfold resolve_fields. repeat split.
  - destruct (requested_fields_head p) as [rest ->].
    destruct (dict_add_keys_prefix rest ["date"; "market_value"]) as [r E].
    exists r. exact E.
  - apply dict_fromkeys_NoDup.
  - apply dict_fromkeys_In.
  - apply dict_fromkeys_In.
  - apply dict_fromkeys_In.
  - apply dict_fromkeys_In.
  - rewrite H. now apply dict_fromkeys_first_seen.
  - intros H1 H2 H3 Hm Hms. unfold requested_fields.
    rewrite (study_type_unknown _ H1 H2 H3), Hm, Hms. reflexivity.
Qed.

Lemma resolve_fields_ordered_unique_witness :
  resolve_fields params_other = ["date"; "market_value"].
Proof.
  apply (proj2 (proj2 (proj2 (proj2
           (resolve_fields_ordered_unique params_other)))));
    try discriminate; reflexivity.
Defined.

(** ** Statistics dispatch *)

Lemma distribution_stats_labels data stats :
  distribution_stats data = Ok stats -> map fst stats = distribution_labels.
Proof.
  unfold distribution_stats.
  destruct data as [|r0 t]; simpl; [discriminate|].
  destruct (idxmax _) as [largest|e]; simpl; [|discriminate].
  destruct (idxmin _) as [smallest|e]; simpl; [|discriminate].
  intros E. injection E as <-. reflexivity.
Qed.

(** C10.  The plot dispatch of [analyse_portfolio] selects on the
    lowercase study types while [update_statistics_table] selects on the
    capitalised labels; so for a [study_type] among [market_value],
    [profitability] and [dividend_performance] the plot is the one of the
    study, no named branch of the statistics matches, and the statistics
    are those of the distribution branch (holding count, total value,
    largest and smallest allocation). *)
Theorem lowercase_study_gets_distribution_stats
    (tab_widget : option (list Tab)) (data : Frame) (p : Params) :
  study_type p = "market_value" \/ study_type p = "profitability" \/
  study_type p = "dividend_performance" ->
  (study_type p = "market_value" ->
     plot_study tab_widget data p = plot_market_value data p) /\
  (study_type p = "profitability" ->
     plot_study tab_widget data p = plot_profitability data p) /\
  (study_type p = "dividend_performance" ->
     plot_study tab_widget data p = plot_dividends data p) /\
  update_statistics_table data p = distribution_stats data /\
  (forall stats, update_statistics_table data p = Ok stats ->
                 map fst stats = distribution_labels).
Proof.
  intros H.
  assert (E : update_statistics_table data p = distribution_stats data).
  { unfold update_statistics_table.
    destruct H as [-> | [-> | ->]]; reflexivity. }
  repeat split.
  - intros E1. unfold plot_study. rewrite E1. reflexivity.
  - intros E1. unfold plot_study. rewrite E1. reflexivity.
  - intros E1. unfold plot_study. rewrite E1. reflexivity.
  - exact E.
  - intros stats Hs. rewrite E in Hs. now apply distribution_stats_labels in Hs.
Qed.

Lemma lowercase_study_gets_distribution_stats_witness :
  update_statistics_table sample_dividends params_dividends
  = distribution_stats sample_dividends.
Proof.
  apply (lowercase_study_gets_distribution_stats
           sample_tab_widget sample_dividends params_dividends).
  right. right. reflexivity.
Defined.

(** ** Dividend-performance statistics *)

Lemma valid_cells_Val qs : valid_cells (map Val qs) = qs.
Proof. induction qs as [|q t IH]; simpl; [reflexivity | now rewrite IH]. Qed.

Lemma Qle_bool_true a b : (a <= b)%Q -> Qle_bool a b = true.
Proof. intros H. now apply Qle_bool_iff. Qed.

(** The maximum of a running total is its last cell. *)
Lemma running_total_max q t :
  nondecreasing (q :: t) -> fold_left Qmax_bool t q = last (q :: t) 0%Q.
Proof.
  revert q. induction t as [|b t IH]; intros q H.
  - reflexivity.
  - destruct H as [Hqb Ht]. simpl fold_left.
    unfold Qmax_bool at 2. rewrite (Qle_bool_true _ _ Hqb).
    rewrite (IH b Ht). reflexivity.
Qed.

Lemma col_max_running_total qs :
  qs <> [] -> nondecreasing qs -> col_max (map Val qs) = Val (last qs 0%Q).
Proof.
  intros Hne Hmono. unfold col_max. rewrite valid_cells_Val.
  destruct qs as [|q t]; [congruence|].
  now rewrite running_total_max.
Qed.

Lemma is_payment_spec c :
  is_payment c = true <-> exists q, c = Val q /\ (0 < q)%Q.
Proof.
  destruct c as [|q]; simpl.
  - split; [discriminate | intros (q & E & _); discriminate].
  - unfold Qlt_bool. rewrite negb_true_iff.
    split.
    + intros H. exists q. split; [reflexivity|].
      apply Qnot_le_lt. intros L. apply Qle_bool_iff in L. congruence.
    + intros (q' & E & L). injection E as <-.
      destruct (Qle_bool q 0) eqn:B; [|reflexivity].
      apply Qle_bool_iff in B. exfalso. apply (Qlt_not_le _ _ L B).
Qed.

(** C9.  In the dividend-performance branch of the statistics, for a frame
    whose cumulative-total column ([cash_dividends_total] for the cash
    view, [drp_shares_total] otherwise) is a non-decreasing running total,
    'Total Received' shows the maximum of that column, which is its last
    cell; and 'Number of Payments' shows the number of rows whose period
    column ([cash_dividend], [drp_share]) is strictly positive. *)
Theorem dividend_statistics_running_total (data : Frame) (p : Params)
    (qs : list Q) :
  let cash := view_type p =s? "Cash Dividends" in
  let total_col := if cash then cash_dividends_total else drp_shares_total in
  let period_col := if cash then cash_dividend else drp_share in
  study_type p = "Dividend Performance" ->
  map total_col data = map Val qs ->
  qs <> [] ->
  nondecreasing qs ->
  exists stats,
    update_statistics_table data p = Ok stats /\
    dict_get stats "Total Received"
      = Some (Fixed2 (if cash then "$" else "")
                     (col_max (map total_col data)) "") /\
    col_max (map total_col data) = Val (last qs 0%Q) /\
    dict_get stats "Number of Payments"
      = Some (Count (List.length
                       (filter (fun r => is_payment (period_col r)) data))) /\
    (forall r, is_payment (period_col r) = true
               <-> exists q, period_col r = Val q /\ (0 < q)%Q).
Proof.
  intros cash total_col period_col Hst Hcol Hne Hmono.
  destruct data as [|r0 t].
  { destruct qs; [congruence | discriminate]. }
  eexists.
  split; [|split; [|split; [|split]]].
  - unfold update_statistics_table. rewrite Hst. reflexivity.
  - fold cash. destruct cash; reflexivity.
  - rewrite Hcol. now apply col_max_running_total.
  - fold cash. destruct cash; reflexivity.
  - intros r. apply is_payment_spec.
Qed.

Lemma dividend_statistics_running_total_witness :
  exists stats,
    update_statistics_table sample_dividends params_dividend_stats = Ok stats /\
    dict_get stats "Total Received" = Some (Fixed2 "$" (Val 10) "") /\
    dict_get stats "Number of Payments" = Some (Count 2).
Proof.
  destruct (dividend_statistics_running_total sample_dividends
              params_dividend_stats [5; 5; 10]%Q)
    as (stats & E & Htot & Hmax & Hnum & _).
  - reflexivity.
  - reflexivity.
  - discriminate.
  - simpl. split; [|split]; [discriminate | discriminate | exact I].
  - exists stats. split; [exact E|]. split.
    + rewrite Htot. reflexivity.
    + rewrite Hnum. reflexivity.
Defined.

(** ** Error propagation *)

Section Propagation.

Variable get_stock : string -> option Stock.
Variable portfolio_id : Z.
Variable fetch_metrics : list string -> Z -> Z -> Z -> result exn (list Row).
Variable fetch_activity :
  option string -> Z -> Z -> Z -> result exn (list ActivityRow).

Lemma fetch_frames_first_failure fields p before sym st rest e :
  Forall (reads_fine get_stock fetch_metrics fields p) before ->
  get_stock sym = Some st ->
  fetch_metrics fields (stock_id st) (start_date p) (end_date p) = Raise e ->
  fetch_frames get_stock fetch_metrics fields p (before ++ sym :: rest)
  = Raise e.
Proof.
  intros Hb Hs Hf. induction Hb as [|s before Hs0 Hb IH]; simpl.
  - rewrite Hs, Hf. reflexivity.
  - unfold reads_fine in Hs0. destruct (get_stock s) as [st0|].
    + destruct Hs0 as [rows ->]. simpl. rewrite IH. reflexivity.
    + exact IH.
Qed.

Lemma get_portfolio_data_propagates p before sym st rest e :
  selected_stocks p = before ++ sym :: rest ->
  Forall (reads_fine get_stock fetch_metrics (resolve_fields p) p) before ->
  get_stock sym = Some st ->
  fetch_metrics (resolve_fields p) (stock_id st) (start_date p) (end_date p)
  = Raise e ->
  get_portfolio_data get_stock fetch_metrics p = Raise e.
Proof.
  intros Hsel Hb Hs Hf. unfold get_portfolio_data. rewrite Hsel.
  rewrite (@fetch_frames_first_failure _ p before sym st rest e Hb Hs Hf).
  reflexivity.
Qed.

Lemma analyse_portfolio_reports tab_widget self_data p e :
  get_portfolio_data get_stock fetch_metrics p = Raise e ->
  analyse_portfolio get_stock fetch_metrics tab_widget self_data p
  = (self_data, AnalysisError e).
Proof. intros H. unfold analyse_portfolio. rewrite H. reflexivity. Qed.

Lemma active_stocks_never_raises start_ end_ dividend_type :
  exists stocks,
    get_active_stocks_for_date_range get_stock portfolio_id fetch_activity
      start_ end_ dividend_type = Ok stocks.
Proof.
  unfold get_active_stocks_for_date_range.
  destruct (fetch_activity dividend_type start_ end_ portfolio_id);
    simpl; eexists; reflexivity.
Qed.

Lemma active_stocks_swallows start_ end_ dividend_type e :
  fetch_activity dividend_type start_ end_ portfolio_id = Raise e ->
  get_active_stocks_for_date_range get_stock portfolio_id fetch_activity
    start_ end_ dividend_type = Ok [].
Proof.
  intros H. unfold get_active_stocks_for_date_range. rewrite H. reflexivity.
Qed.

End Propagation.

(** C8, as amended.  A failure of a read inside [get_portfolio_data]
    leaves it as the same exception (the first failing read of the loop
    decides), and [analyse_portfolio] is where it becomes the
    "Analysis Error" message, with [self.data] left as it was;
    [get_active_stocks_for_date_range] never raises: a failure of its
    query is answered with the empty list. *)
Theorem failure_propagation
    (get_stock : string -> option Stock) (portfolio_id : Z)
    (fetch_metrics : list string -> Z -> Z -> Z -> result exn (list Row))
    (fetch_activity :
       option string -> Z -> Z -> Z -> result exn (list ActivityRow)) :
  (forall p before sym st rest e tab_widget self_data,
      selected_stocks p = before ++ sym :: rest ->
      Forall (reads_fine get_stock fetch_metrics (resolve_fields p) p) before ->
      get_stock sym = Some st ->
      fetch_metrics (resolve_fields p) (stock_id st)
                    (start_date p) (end_date p) = Raise e ->
      get_portfolio_data get_stock fetch_metrics p = Raise e /\
      analyse_portfolio get_stock fetch_metrics tab_widget self_data p
      = (self_data, AnalysisError e)) /\
  (forall start_ end_ dividend_type e,
      fetch_activity dividend_type start_ end_ portfolio_id = Raise e ->
      get_active_stocks_for_date_range get_stock portfolio_id fetch_activity
        start_ end_ dividend_type = Ok []).
Proof.
  split.
  - intros p before sym st rest e tab_widget self_data Hsel Hb Hs Hf.
    assert (E : get_portfolio_data get_stock fetch_metrics p = Raise e)
      by (eapply get_portfolio_data_propagates; eassumption).
    split; [exact E | now apply analyse_portfolio_reports].
  - intros start_ end_ dividend_type e H.
    now apply active_stocks_swallows with (e := e).
Qed.

Lemma failure_propagation_witness :
  analyse_portfolio sample_get_stock failing_fetch_metrics sample_tab_widget
    [] params_dividends
  = ([], AnalysisError (DbError "database is locked")) /\
  get_active_stocks_for_date_range sample_get_stock 1 failing_fetch_activity
    19723 19725 None = Ok [].
Proof.
  split.
  - apply (proj1 (failure_propagation sample_get_stock 1
                    failing_fetch_metrics failing_fetch_activity)
             params_dividends [] "AAA.AX" (mkStock 7 "AAA.AX") []
             (DbError "database is locked") sample_tab_widget []).
    + reflexivity.
    + constructor.
    + reflexivity.
    + reflexivity.
  - apply (proj2 (failure_propagation sample_get_stock 1
                    failing_fetch_metrics failing_fetch_activity)
             19723 19725 None (DbError "database is locked")).
    reflexivity.
Defined.

(** C8 as stated fails: the active-holdings query does not let a failure
    of its read through. *)
Lemma active_stocks_failure_not_propagated :
  ~ (forall get_stock portfolio_id fetch_activity start_ end_ dividend_type e,
        fetch_activity dividend_type start_ end_ portfolio_id = Raise e ->
        get_active_stocks_for_date_range get_stock portfolio_id fetch_activity
          start_ end_ dividend_type = Raise e).
Proof.
  intros H.
  specialize (H sample_get_stock 1 failing_fetch_activity 19723 19725 None
                (DbError "database is locked") eq_refl).
  discriminate H.
Qed.

(** ** Delta transform *)

Lemma diff_from_length prev xs :
  List.length (diff_from prev xs) = List.length xs.
Proof.
  revert prev. induction xs as [|x t IH]; intros prev; simpl;
    [reflexivity | now rewrite IH].
Qed.

Lemma diff_length xs : List.length (diff xs) = List.length xs.
Proof. destruct xs; simpl; [reflexivity | now rewrite diff_from_length]. Qed.

Lemma diff_from_nth prev xs i b :
  nth_error xs i = Some b ->
  nth_error (diff_from prev xs) i
  = Some (cell_sub b (match i with
                      | O => prev
                      | S j => nth j xs NaN
                      end)).
Proof.
  revert prev i. induction xs as [|x t IH]; intros prev i H.
  - destruct i; discriminate.
  - destruct i as [|i]; simpl in *.
    + now injection H as ->.
    + rewrite (IH x i H). destruct i; reflexivity.
Qed.

(** Each delta after the first is the difference with the cell just
    before. *)
Lemma diff_nth_succ xs i a b :
  nth_error xs i = Some a -> nth_error xs (S i) = Some b ->
  nth_error (diff xs) (S i) = Some (cell_sub b a).
Proof.
  destruct xs as [|x t]; [destruct i; discriminate|].
  intros Ha Hb. simpl in Hb. simpl.
  rewrite (diff_from_nth x t i b Hb).
  destruct i as [|i]; simpl in Ha.
  - now injection Ha as ->.
  - now rewrite (nth_error_nth _ _ NaN Ha).
Qed.

Lemma diff_nth_first xs : xs <> [] -> nth_error (diff xs) 0 = Some NaN.
Proof. destruct xs; [congruence | reflexivity]. Qed.

Lemma assign_value_stock mask data vals :
  map stock (assign_value mask data vals) = map stock data.
Proof.
  revert vals. induction data as [|r t IH]; intros vals; simpl.
  - reflexivity.
  - destruct (mask r); [destruct vals as [|v vs]|]; simpl; now rewrite IH.
Qed.

Lemma assign_value_length mask data vals :
  List.length (assign_value mask data vals) = List.length data.
Proof.
  rewrite <- (length_map stock), assign_value_stock. apply length_map.
Qed.

Lemma assign_value_selected sym data vals :
  List.length vals = List.length (stock_rows sym data) ->
  map value (stock_rows sym
               (assign_value (fun r => stock r =s? sym) data vals))
  = vals.
Proof.
  unfold stock_rows. revert vals.
  induction data as [|r t IH]; intros vals H; simpl in *.
  - destruct vals; [reflexivity | discriminate].
  - destruct (stock r =s? sym) eqn:E.
    + destruct vals as [|v vs]; [discriminate|]. simpl in *.
      rewrite E. simpl. f_equal. apply IH. now injection H.
    + simpl. rewrite E. now apply IH.
Qed.

Lemma assign_value_others sym s data vals :
  s <> sym ->
  stock_rows s (assign_value (fun r => stock r =s? sym) data vals)
  = stock_rows s data.
Proof.
  intros Hne. unfold stock_rows. revert vals.
  induction data as [|r t IH]; intros vals; simpl.
  - reflexivity.
  - destruct (stock r =s? sym) eqn:E.
    + apply String.eqb_eq in E.
      assert (N : (stock r =s? s) = false)
        by (apply String.eqb_neq; congruence).
      destruct vals as [|v vs]; simpl; rewrite N; apply IH.
    + simpl. destruct (stock r =s? s); [f_equal|]; apply IH.
Qed.


Lemma has_column_value_added data :
  has_column ValueCol (with_value_column data) = true.
Proof.
  unfold with_value_column.
  destruct (has_column ValueCol data) eqn:E; [exact E|].
  unfold has_column. cbn [df_columns]. rewrite existsb_app. simpl.
  apply orb_true_r.
Qed.

Lemma has_column_kept c data :
  has_column c data = true -> has_column c (with_value_column data) = true.
Proof.
  intros H. unfold with_value_column.
  destruct (has_column ValueCol data); [exact H|].
  unfold has_column in *. cbn [df_columns]. rewrite existsb_app, H.
  reflexivity.
Qed.

Lemma with_value_column_fixed data :
  has_column ValueCol data = true -> with_value_column data = data.
Proof. intros H. unfold with_value_column. now rewrite H. Qed.

(** A numeric column other than [value] is not touched by a write to
    [value]. *)
Lemma numeric_column_untouched c col data :
  numeric_column c = Some col -> has_column c data = true ->
  has_column ValueCol data = false -> forall v r, col (set_value v r) = col r.
Proof.
  intros Hn Hc Hv v r.
  destruct c; simpl in Hn; try discriminate;
    try (injection Hn as <-; reflexivity).
  congruence.
Qed.

Lemma filter_stock_set_value sym v rows :
  filter (fun r => stock r =s? sym) (map (set_value v) rows)
  = map (set_value v) (filter (fun r => stock r =s? sym) rows).
Proof.
  induction rows as [|r t IH]; simpl; [reflexivity|].
  destruct (stock r =s? sym); simpl; now rewrite IH.
Qed.

Lemma with_value_column_reads c col data s :
  numeric_column c = Some col -> has_column c data = true ->
  map col (stock_rows s (df_rows (with_value_column data)))
  = map col (stock_rows s (df_rows data)).
Proof.
  intros Hn Hc. unfold with_value_column.
  destruct (has_column ValueCol data) eqn:Hv; [reflexivity|].
  cbn [df_rows]. unfold stock_rows. rewrite filter_stock_set_value, map_map.
  apply map_ext. intros r. apply (numeric_column_untouched c col data Hn Hc Hv).
Qed.

Lemma with_value_column_stock data :
  map stock (df_rows (with_value_column data)) = map stock (df_rows data).
Proof.
  unfold with_value_column.
  destruct (has_column ValueCol data); [reflexivity|].
  cbn [df_rows]. rewrite map_map. reflexivity.
Qed.

(** One turn of the loop on a numeric column that the frame has. *)
Lemma deltas_for_stock_numeric p m c col sym cur :
  metric p = Some (MetricName m) ->
  column_of_name (str_remove "_delta" m) = Some c ->
  numeric_column c = Some col -> has_column c cur = true ->
  deltas_for_stock p sym cur
  = Ok (loc_set_value (fun r => stock r =s? sym) cur
          (diff (map col (stock_rows sym (df_rows cur))))).
Proof.
  intros Hm Hc Hn Hh. unfold deltas_for_stock, get_column, column_diff.
  rewrite Hm. cbn [bind]. rewrite Hc, Hh. cbn [bind]. rewrite Hn.
  reflexivity.
Qed.

Lemma deltas_per_stock_spec p m c col :
  metric p = Some (MetricName m) ->
  column_of_name (str_remove "_delta" m) = Some c ->
  numeric_column c = Some col ->
  forall stocks cur,
    NoDup stocks ->
    has_column c cur = true -> has_column ValueCol cur = true ->
    exists out,
      deltas_per_stock p stocks cur = Ok out /\
      df_columns out = df_columns cur /\
      map stock (df_rows out) = map stock (df_rows cur) /\
      (forall s, In s stocks ->
                 map value (stock_rows s (df_rows out))
                 = diff (map col (stock_rows s (df_rows cur)))) /\
      (forall s, ~ In s stocks ->
                 stock_rows s (df_rows out) = stock_rows s (df_rows cur)).
Proof.
  intros Hm Hc Hn stocks.
  induction stocks as [|sym rest IH]; intros cur Hnd Hh Hv.
  - exists cur. simpl. repeat split; intros s []; reflexivity.
  - inversion Hnd as [|? ? Hnotin Hrest]; subst.
    cbn [deltas_per_stock].
    rewrite (deltas_for_stock_numeric p m c col sym cur Hm Hc Hn Hh).
    cbn [bind]. unfold loc_set_value.
    rewrite (with_value_column_fixed cur Hv).
    set (cur1 := mkDataFrame (df_columns cur)
                   (assign_value (fun r => stock r =s? sym) (df_rows cur)
                      (diff (map col (stock_rows sym (df_rows cur)))))).
    destruct (IH cur1 Hrest Hh Hv) as (out & E & Hcols & Hst & Hin & Hout).
    exists out. split; [exact E|]. split; [exact Hcols|]. split; [|split].
    + rewrite Hst. apply assign_value_stock.
    + intros s [<-|Hs].
      * rewrite (Hout sym Hnotin). unfold cur1. cbn [df_rows].
        apply assign_value_selected.
        now rewrite diff_length, length_map.
      * rewrite (Hin s Hs). unfold cur1. cbn [df_rows].
        rewrite assign_value_others; [reflexivity|].
        intros ->. contradiction.
    + intros s Hs. rewrite Hout by (intros H; apply Hs; now right).
      unfold cur1. cbn [df_rows]. apply assign_value_others.
      intros ->. apply Hs. now left.
Qed.

(** The first turn of the loop adds the [value] column when the frame
    has none; what it reads is not changed by that. *)
Lemma deltas_per_stock_adds_value p m c col stocks cur :
  stocks <> [] ->
  metric p = Some (MetricName m) ->
  column_of_name (str_remove "_delta" m) = Some c ->
  numeric_column c = Some col -> has_column c cur = true ->
  deltas_per_stock p stocks cur
  = deltas_per_stock p stocks (with_value_column cur).
Proof.
  destruct stocks as [|sym rest]; [congruence|]. intros _ Hm Hc Hn Hh.
  cbn [deltas_per_stock].
  rewrite (deltas_for_stock_numeric p m c col sym cur Hm Hc Hn Hh).
  rewrite (deltas_for_stock_numeric p m c col sym (with_value_column cur)
             Hm Hc Hn (has_column_kept c cur Hh)).
  cbn [bind]. unfold loc_set_value.
  rewrite (with_value_column_fixed (with_value_column cur)
             (has_column_value_added cur)).
  now rewrite (with_value_column_reads c col cur sym Hn Hh).
Qed.

Lemma stock_rows_absent s data :
  ~ In s (map stock data) -> stock_rows s data = [].
Proof.
  unfold stock_rows. induction data as [|r t IH]; intros H; simpl.
  - reflexivity.
  - destruct (stock r =s? s) eqn:E.
    + apply String.eqb_eq in E. exfalso. apply H. now left.
    + apply IH. intros H'. apply H. now right.
Qed.

Lemma assign_value_all data vals :
  List.length vals = List.length data ->
  map value (assign_value (fun _ => true) data vals) = vals.
Proof.
  revert vals. induction data as [|r t IH]; intros vals H.
  - destruct vals; [reflexivity | discriminate].
  - destruct vals as [|v vs]; [discriminate|]. simpl.
    f_equal. apply IH. now injection H.
Qed.

Lemma diff_from_constant c n i :
  (i < n)%nat ->
  nth_error (diff_from (Val c) (repeat (Val c) n)) i = Some (Val (c - c)%Q).
Proof.
  revert i. induction n as [|n IH]; intros i Hi; [lia|].
  destruct i as [|i]; simpl; [reflexivity|]. apply IH. lia.
Qed.

Lemma calculate_deltas_total data p :
  view_type p <> "individual_stocks" ->
  has_column ValueCol data = true ->
  calculate_deltas data p
  = Ok (mkDataFrame (df_columns data)
          (assign_value (fun _ => true) (df_rows data)
                        (diff (map value (df_rows data))))).
Proof.
  intros Hv Hc. unfold calculate_deltas, get_column.
  apply String.eqb_neq in Hv. rewrite Hv.
  change (column_of_name "value") with (Some ValueCol). cbv iota.
  now rewrite Hc.
Qed.

(** C3, as amended.  On a frame that carries the series it reads,
    [calculate_deltas] writes into [value] the difference of each cell
    with the cell just before it in the same series: the series of one
    stock, read from the numeric column that the metric names, in the
    individual-stocks view (the frame has that column and [stock]); the
    [value] series of the whole frame otherwise (the frame has [value], as
    the percentage aggregate of [calculate_portfolio_total_metrics] does).
    No row is dropped; the first delta of a series is missing; the deltas
    of a constant series of length N >= 2 are zero from the second on; the
    only delta of a series of length 1 is missing. *)
Theorem calculate_deltas_strict_difference :
  (forall data p,
      view_type p <> "individual_stocks" ->
      has_column ValueCol data = true ->
      exists out,
        calculate_deltas data p = Ok out /\
        df_columns out = df_columns data /\
        List.length (df_rows out) = List.length (df_rows data) /\
        map value (df_rows out) = diff (map value (df_rows data))) /\
  (forall data p m c col,
      view_type p = "individual_stocks" ->
      has_column StockCol data = true ->
      metric p = Some (MetricName m) ->
      column_of_name (str_remove "_delta" m) = Some c ->
      has_column c data = true ->
      numeric_column c = Some col ->
      exists out,
        calculate_deltas data p = Ok out /\
        map stock (df_rows out) = map stock (df_rows data) /\
        (df_rows data <> [] -> has_column ValueCol out = true) /\
        forall s, map value (stock_rows s (df_rows out))
                  = diff (map col (stock_rows s (df_rows data)))) /\
  (forall frame q p,
      chart_type q <> "dollar_value" ->
      view_type p <> "individual_stocks" ->
      exists rows out,
        calculate_portfolio_total_metrics frame q = PercentTotals rows /\
        calculate_deltas (metrics_frame (PercentTotals rows)) p = Ok out /\
        map value (df_rows out) = diff (map g_value rows)) /\
  (forall xs,
      List.length (diff xs) = List.length xs /\
      (xs <> [] -> nth_error (diff xs) 0 = Some NaN) /\
      (forall i a b,
          nth_error xs i = Some a -> nth_error xs (S i) = Some b ->
          nth_error (diff xs) (S i) = Some (cell_sub b a))) /\
  (forall c N i,
      (2 <= N)%nat -> (1 <= i < N)%nat ->
      exists z, nth_error (diff (repeat (Val c) N)) i = Some (Val z) /\
                (z == 0)%Q) /\
  (forall x, diff [x] = [NaN]).
Proof.
  split; [|split; [|split; [|split; [|split]]]].
  - intros data p Hv Hc. rewrite (calculate_deltas_total data p Hv Hc).
    eexists. split; [reflexivity|]. split; [reflexivity|]. split.
    + apply assign_value_length.
    + apply assign_value_all. now rewrite diff_length, length_map.
  - intros data p m c col Hv Hs Hm Hc Hh Hn.
    unfold calculate_deltas, get_column.
    rewrite Hv. change (column_of_name "stock") with (Some StockCol).
    cbv iota. rewrite Hs. cbn [String.eqb bind].
    destruct (df_rows data) as [|r0 t] eqn:R.
    + exists data. cbn [map dict_fromkeys fold_left deltas_per_stock].
      rewrite R. split; [reflexivity|]. split; [reflexivity|].
      split; [congruence|]. intros s. reflexivity.
    + rewrite <- R.
      assert (Hne : dict_fromkeys (map stock (df_rows data)) <> []).
      { rewrite R. intros E.
        assert (H : In (stock r0) (dict_fromkeys (map stock (r0 :: t))))
          by (apply dict_fromkeys_In; now left).
        rewrite E in H. destruct H. }
      rewrite (deltas_per_stock_adds_value p m c col _ data Hne Hm Hc Hn Hh).
      destruct (deltas_per_stock_spec p m c col Hm Hc Hn
                  (dict_fromkeys (map stock (df_rows data)))
                  (with_value_column data)
                  (dict_fromkeys_NoDup _)
                  (has_column_kept c data Hh)
                  (has_column_value_added data))
        as (out & E & Hcols & Hst & Hin & Hout).
      exists out. split; [exact E|]. split; [|split].
      * rewrite Hst. apply with_value_column_stock.
      * intros _. unfold has_column. rewrite Hcols.
        apply has_column_value_added.
      * intros s.
        rewrite <- (with_value_column_reads c col data s Hn Hh).
        destruct (in_dec string_dec s
                    (dict_fromkeys (map stock (df_rows data)))) as [Hs'|Hs'].
        -- now apply Hin.
        -- rewrite (Hout s Hs'). rewrite dict_fromkeys_In in Hs'.
           rewrite <- with_value_column_stock in Hs'.
           now rewrite (stock_rows_absent s _ Hs').
  - intros frame q p Hq Hv. unfold calculate_portfolio_total_metrics.
    apply String.eqb_neq in Hq. rewrite Hq.
    eexists. eexists. split; [reflexivity|].
    match goal with
    | |- calculate_deltas ?d p = _ /\ _ =>
        rewrite (calculate_deltas_total d p Hv eq_refl)
    end.
    split; [reflexivity|]. cbn [df_rows metrics_frame].
    rewrite assign_value_all.
    + rewrite map_map. reflexivity.
    + now rewrite diff_length, !length_map.
  - intros xs. split; [apply diff_length|]. split.
    + apply diff_nth_first.
    + intros i a b. apply diff_nth_succ.
  - intros c N i HN Hi. exists (c - c)%Q. split; [|ring].
    destruct N as [|N]; [lia|]. destruct i as [|i]; [lia|].
    simpl. apply diff_from_constant. lia.
  - reflexivity.
Qed.

Lemma calculate_deltas_strict_difference_witness :
  (exists out,
      calculate_deltas sample_market_frame params_deltas = Ok out /\
      map value (stock_rows "AAA.AX" (df_rows out)) = [NaN; Val 10] /\
      map value (stock_rows "BBB.AX" (df_rows out)) = [NaN]) /\
  (exists out,
      calculate_deltas
        (metrics_frame
           (calculate_portfolio_total_metrics sample_returns
              (params_returns "percentage" "cumulative")))
        params_market_total
      = Ok out /\
      Forall2 cell_eq (map value (df_rows out)) [NaN; Val 10]).
Proof.
  split.
  - destruct (proj1 (proj2 calculate_deltas_strict_difference)
                sample_market_frame params_deltas "market_value_delta"
                MarketValueCol market_value)
      as (out & E & _ & _ & H).
    + reflexivity.
    + reflexivity.
    + reflexivity.
    + reflexivity.
    + reflexivity.
    + reflexivity.
    + exists out. split; [exact E|]. split; rewrite H; reflexivity.
  - destruct (proj1 (proj2 (proj2 calculate_deltas_strict_difference))
                sample_returns (params_returns "percentage" "cumulative")
                params_market_total)
      as (rows & out & E1 & E2 & H).
    + discriminate.
    + discriminate.
    + exists out. rewrite E1. split; [exact E2|]. rewrite H.
      vm_compute in E1. injection E1 as <-.
      constructor; [exact I|]. constructor; [|constructor].
      vm_compute. reflexivity.
Defined.

(** C3 as stated fails: the dollar aggregate of
    [calculate_portfolio_total_metrics] is an aggregated portfolio series
    under the name [total_return]; the frame has no [value] column, and
    [calculate_deltas] raises [KeyError] where the claim has it compute
    the differences.  It does the same on a frame as fetched, which has no
    [value] column either. *)
Lemma deltas_of_dollar_aggregate_fail :
  calculate_deltas
    (metrics_frame
       (calculate_portfolio_total_metrics sample_returns
          (params_returns "dollar_value" "cumulative")))
    params_market_total
  = Raise (KeyError "value") /\
  calculate_deltas sample_market_frame params_market_total
  = Raise (KeyError "value") /\
  ~ (forall data p,
        view_type p <> "individual_stocks" ->
        exists out,
          calculate_deltas data p = Ok out /\
          map value (df_rows out) = diff (map value (df_rows data))).
Proof.
  split; [reflexivity|]. split; [reflexivity|]. intros H.
  destruct (H (metrics_frame
                 (calculate_portfolio_total_metrics sample_returns
                    (params_returns "dollar_value" "cumulative")))
              params_market_total)
    as (out & E & _); [discriminate|].
  vm_compute in E. discriminate E.
Qed.

(** ** Zero-at-start transform *)

Lemma cell_sub_shift a b v :
  cell_eq (cell_sub (cell_sub b (Val v)) (cell_sub a (Val v))) (cell_sub b a).
Proof. destruct a, b; simpl; try exact I. ring. Qed.

Lemma diff_from_shift v prev ys :
  Forall2 cell_eq
    (diff_from (cell_sub prev (Val v)) (map (fun y => cell_sub y (Val v)) ys))
    (diff_from prev ys).
Proof.
  revert prev. induction ys as [|y t IH]; intros prev; simpl.
  - constructor.
  - constructor; [apply cell_sub_shift | apply IH].
Qed.

Lemma diff_shift v ys :
  Forall2 cell_eq (diff (map (fun y => cell_sub y (Val v)) ys)) (diff ys).
Proof.
  destruct ys as [|y t]; simpl; constructor;
    [exact I | apply diff_from_shift].
Qed.

Lemma series_sub_scalar_values s v :
  map snd (series_sub_scalar s v) = map (fun y => cell_sub y v) (map snd s).
Proof. unfold series_sub_scalar. rewrite !map_map. reflexivity. Qed.

Lemma series_sub_scalar_index s v : map fst (series_sub_scalar s v) = map fst s.
Proof. unfold series_sub_scalar. rewrite map_map. reflexivity. Qed.

Lemma map_result_images {A B : Type} (f : A -> result exn B) (k : A -> B) l :
  (forall x, f x = Ok (k x)) -> map_result f l = Ok (map k l).
Proof.
  intros H. induction l as [|x t IH]; simpl.
  - reflexivity.
  - now rewrite H, IH.
Qed.

Lemma map_result_after {A B : Type} (g : A -> result exn B)
    (h : B -> result exn B) (k : A -> B) l :
  (forall x, g x = h (k x)) -> map_result g l = map_result h (map k l).
Proof.
  intros H. induction l as [|x t IH]; simpl.
  - reflexivity.
  - now rewrite H, IH.
Qed.

Lemma zeroing_needs_cumulative data p :
  get_zero_at_start p = false \/ calculation_type p <> "cumulative" ->
  plot_profitability data p
  = plot_profitability data (with_zero_at_start false p).
Proof.
  intros H. unfold plot_profitability, get_zero_at_start. simpl.
  destruct H as [H | H].
  - unfold get_zero_at_start in H. rewrite H. reflexivity.
  - apply String.eqb_neq in H. rewrite H.
    rewrite !andb_false_r. simpl. reflexivity.
Qed.

Lemma zeroing_when_cumulative data p lines :
  calculation_type p = "cumulative" ->
  plot_profitability data (with_zero_at_start false p) = Ok lines ->
  plot_profitability data (with_zero_at_start true p)
  = map_result zero_line lines.
Proof.
  intros Hc. unfold plot_profitability, get_zero_at_start. simpl.
  rewrite Hc. simpl.
  destruct (view_type p =s? "individual_stocks").
  - set (k := fun sym =>
                Line sym (map (fun r => (date r,
                                         profitability_metric (chart_type p)
                                           "cumulative" r))
                              (filter (fun r => stock r =s? sym) data))).
    rewrite (map_result_images _ k) by reflexivity.
    simpl. intros E. injection E as <-.
    rewrite (map_result_after _ zero_line k) by reflexivity.
    destruct (map_result zero_line (map k (selected_stocks p))); reflexivity.
  - destruct (chart_type p =s? "dollar_value").
    + destruct (unstack _ data) as [w|e]; simpl; [|discriminate].
      intros E. injection E as <-. simpl.
      destruct (zero_at_start_date _); reflexivity.
    + destruct (chart_type p =s? "percentage").
      * destruct (unstack total_return data) as [w|e]; simpl; [|discriminate].
        destruct (unstack market_value data) as [w'|e]; simpl; [|discriminate].
        intros E. injection E as <-. simpl.
        destruct (zero_at_start_date _); reflexivity.
      * simpl. intros E. injection E as <-. reflexivity.
Qed.

Lemma zeroing_missing_start ys :
  iloc0 ys = Ok NaN ->
  zero_at_start_date ys = Ok (map (fun p => (fst p, NaN)) ys).
Proof.
  intros H. unfold zero_at_start_date. rewrite H. cbn [bind].
  unfold series_sub_scalar. f_equal. apply map_ext.
  intros [d y]. destruct y; reflexivity.
Qed.

(** C4, as amended.  Zeroing a series whose first point is a number
    subtracts that number from every point: the index is kept, the first
    point becomes 0 and the differences between consecutive points are
    those of the original series; [10, 15, 20] becomes [0, 5, 10].  A
    series whose first point is missing becomes missing at every point,
    and the empty series cannot be zeroed ([IndexError]).  In
    [plot_profitability] the flag [zero_at_start] has no effect unless the
    time period is cumulative, and when both hold every plotted series is
    the zeroed one. *)
Theorem zero_at_start_shape :
  (forall ys v0,
      iloc0 ys = Ok (Val v0) ->
      exists out,
        zero_at_start_date ys = Ok out /\
        map fst out = map fst ys /\
        (exists z, nth_error (map snd out) 0 = Some (Val z) /\ (z == 0)%Q) /\
        Forall2 cell_eq (diff (map snd out)) (diff (map snd ys))) /\
  (forall ys,
      iloc0 ys = Ok NaN ->
      zero_at_start_date ys = Ok (map (fun p => (fst p, NaN)) ys)) /\
  zero_at_start_date [] = Raise IndexError /\
  zero_at_start_date sample_cumulative
  = Ok [ (19723, Val 0); (19724, Val 5); (19725, Val 10) ] /\
  (forall data p,
      get_zero_at_start p = false \/ calculation_type p <> "cumulative" ->
      plot_profitability data p
      = plot_profitability data (with_zero_at_start false p)) /\
  (forall data p lines,
      calculation_type p = "cumulative" ->
      plot_profitability data (with_zero_at_start false p) = Ok lines ->
      plot_profitability data (with_zero_at_start true p)
      = map_result zero_line lines).
Proof.
  split; [|split; [|split; [|split; [|split]]]].
  - intros ys v0 H. unfold zero_at_start_date. rewrite H. simpl.
    eexists. split; [reflexivity|]. split; [|split].
    + apply series_sub_scalar_index.
    + destruct ys as [|[d y] t]; [discriminate|].
      simpl in H. injection H as ->.
      exists (v0 - v0)%Q. split; [reflexivity | ring].
    + rewrite series_sub_scalar_values. apply diff_shift.
  - apply zeroing_missing_start.
  - reflexivity.
  - reflexivity.
  - apply zeroing_needs_cumulative.
  - apply zeroing_when_cumulative.
Qed.

Lemma zero_at_start_shape_witness :
  exists out,
    zero_at_start_date sample_cumulative = Ok out /\
    map fst out = [19723; 19724; 19725].
Proof.
  destruct (proj1 zero_at_start_shape sample_cumulative 10%Q eq_refl)
    as (out & E & Hidx & _).
  exists out. split; [exact E | exact Hidx].
Defined.

(** C4 as stated fails: a cumulative series need not start with a number.
    For a stock bought after the start date the percentage return of the
    first day is 0 / 0, which is missing; zeroing then leaves no point at
    0 and no difference between points. *)
Lemma zeroed_series_starts_missing :
  (exists a b,
      plot_profitability sample_late_start
        (with_zero_at_start false (params_returns "percentage" "cumulative"))
      = Ok [Line "Portfolio Total"
              [(19723, NaN); (19724, Val a); (19725, Val b)]] /\
      (a == 10)%Q /\ (b == 20)%Q) /\
  plot_profitability sample_late_start
    (with_zero_at_start true (params_returns "percentage" "cumulative"))
  = Ok [Line "Portfolio Total" [(19723, NaN); (19724, NaN); (19725, NaN)]] /\
  ~ (forall ys,
        ys <> [] ->
        exists out z,
          zero_at_start_date ys = Ok out /\
          nth_error (map snd out) 0 = Some (Val z) /\ (z == 0)%Q /\
          Forall2 cell_eq (diff (map snd out)) (diff (map snd ys))).
Proof.
  split; [|split].
  - eexists. eexists. split; [vm_compute; reflexivity|].
    split; vm_compute; reflexivity.
  - vm_compute. reflexivity.
  - intros H.
    destruct (H [(19723, NaN); (19724, Val 10); (19725, Val 20)])
      as (out & z & E & Hz & _); [discriminate|].
    injection E as <-. discriminate Hz.
Qed.

(** ** Wide frames as tables *)

Lemma dict_get_tabulated {V : Type} (F : string -> V) labels s :
  In s labels -> dict_get (map (fun s => (s, F s)) labels) s = Some (F s).
Proof.
  induction labels as [|l t IH]; intros H; simpl.
  - destruct H.
  - destruct (s =s? l) eqn:E.
    + apply String.eqb_eq in E. now subst.
    + apply IH. destruct H as [->|H]; [|assumption].
      rewrite String.eqb_refl in E. discriminate.
Qed.

Lemma dict_get_tabulated_absent {V : Type} (F : string -> V) labels s :
  ~ In s labels -> dict_get (map (fun s => (s, F s)) labels) s = None.
Proof.
  induction labels as [|l t IH]; intros H; simpl.
  - reflexivity.
  - destruct (s =s? l) eqn:E.
    + apply String.eqb_eq in E. exfalso. apply H. now left.
    + apply IH. intros H'. apply H. now right.
Qed.

Lemma index_pos_In d l :
  In d l -> exists i, index_pos d l = Some i /\ nth_error l i = Some d.
Proof.
  induction l as [|x t IH]; intros H; simpl.
  - destruct H.
  - destruct (x =? d) eqn:E.
    + apply Z.eqb_eq in E. subst. now exists O.
    + destruct H as [->|H]; [rewrite Z.eqb_refl in E; discriminate|].
      destruct (IH H) as (i & -> & Hn). now exists (S i).
Qed.

Lemma index_pos_absent d l : ~ In d l -> index_pos d l = None.
Proof.
  induction l as [|x t IH]; intros H; simpl.
  - reflexivity.
  - destruct (x =? d) eqn:E.
    + apply Z.eqb_eq in E. exfalso. apply H. now left.
    + rewrite IH; [reflexivity|]. intros H'. apply H. now right.
Qed.

Lemma index_pos_nth d l i : index_pos d l = Some i -> nth_error l i = Some d.
Proof.
  revert i. induction l as [|x t IH]; intros i H; simpl in H.
  - discriminate.
  - destruct (x =? d) eqn:E.
    + injection H as <-. apply Z.eqb_eq in E. now subst.
    + destruct (index_pos d t) as [j|]; [|discriminate].
      injection H as <-. now apply IH.
Qed.

Lemma wide_at_tabulate index labels f d s :
  In d index -> In s labels ->
  wide_at (tabulate index labels f) d s = Some (f d s).
Proof.
  intros Hd Hs. unfold wide_at, tabulate. simpl.
  rewrite (dict_get_tabulated (fun s => map (fun d => f d s) index) _ _ Hs).
  destruct (index_pos_In d index Hd) as (i & -> & Hn).
  now rewrite nth_error_map, Hn.
Qed.

Lemma aligned_cell_tabulate index labels f d s :
  aligned_cell (tabulate index labels f) d s
  = if in_dec Z.eq_dec d index
    then if in_dec string_dec s labels then f d s else NaN
    else NaN.
Proof.
  unfold aligned_cell.
  destruct (in_dec Z.eq_dec d index) as [Hd|Hd];
    destruct (in_dec string_dec s labels) as [Hs|Hs].
  - now rewrite wide_at_tabulate.
  - unfold wide_at, tabulate. simpl.
    now rewrite dict_get_tabulated_absent.
  - unfold wide_at, tabulate. simpl.
    rewrite (index_pos_absent d index Hd).
    now destruct (dict_get _ s).
  - unfold wide_at, tabulate. simpl.
    now rewrite dict_get_tabulated_absent.
Qed.

Lemma map_columns_tabulate h index labels f :
  map_columns (map h) (tabulate index labels f)
  = tabulate index labels (fun d s => h (f d s)).
Proof.
  unfold map_columns, tabulate. simpl. f_equal.
  rewrite map_map. apply map_ext. intros s. simpl. now rewrite map_map.
Qed.

Lemma unstack_tabulate col frame :
  has_duplicate_keys frame = false ->
  unstack col frame
  = Ok (tabulate (sort_dates (map date frame)) (sort_labels (map stock frame))
          (cell_at col frame)).
Proof. intros H. unfold unstack. now rewrite H. Qed.

Lemma wide_add_tabulate a b :
  wide_add a b
  = tabulate (sort_dates (w_index a ++ w_index b))
      (sort_labels (map fst (w_columns a) ++ map fst (w_columns b)))
      (fun d s => cell_add (aligned_cell a d s) (aligned_cell b d s)).
Proof. reflexivity. Qed.

Lemma tabulate_labels index labels f :
  map fst (w_columns (tabulate index labels f)) = labels.
Proof.
  unfold tabulate. simpl. rewrite map_map. simpl. apply map_id.
Qed.

(** ** Time alignment *)

Lemma find_unique frame r :
  has_duplicate_keys frame = false -> In r frame ->
  find (has_key (date r) (stock r)) frame = Some r.
Proof.
  induction frame as [|x t IH]; intros Hnd Hin; simpl in *.
  - destruct Hin.
  - apply orb_false_iff in Hnd. destruct Hnd as [Hx Ht].
    destruct Hin as [->|Hin].
    + unfold has_key. now rewrite Z.eqb_refl, String.eqb_refl.
    + destruct (has_key (date r) (stock r) x) eqn:K.
      * exfalso. unfold has_key in K. apply andb_true_iff in K.
        destruct K as [Kd Ks].
        apply Z.eqb_eq in Kd. apply String.eqb_eq in Ks.
        assert (E : existsb (has_key (date x) (stock x)) t = true).
        { apply existsb_exists. exists r. split; [assumption|].
          unfold has_key. rewrite Kd, Ks.
          now rewrite Z.eqb_refl, String.eqb_refl. }
        congruence.
      * now apply IH.
Qed.

Lemma cell_at_row col frame r :
  has_duplicate_keys frame = false -> In r frame ->
  cell_at col frame (date r) (stock r) = col r.
Proof. intros Hnd Hin. unfold cell_at. now rewrite find_unique. Qed.

Lemma cell_at_missing col frame d s :
  (forall r, In r frame -> date r = d -> stock r = s -> col r = NaN) ->
  cell_at col frame d s = NaN.
Proof.
  intros H. unfold cell_at.
  destruct (find (has_key d s) frame) as [r|] eqn:F; [|reflexivity].
  apply find_some in F. destruct F as [Hin Hk].
  unfold has_key in Hk. apply andb_true_iff in Hk. destruct Hk as [Hd Hs].
  apply Z.eqb_eq in Hd. apply String.eqb_eq in Hs. now apply H.
Qed.

Lemma cell_at_no_date col frame d s :
  ~ In d (map date frame) -> cell_at col frame d s = NaN.
Proof.
  intros H. apply cell_at_missing. intros r Hin Hd _.
  exfalso. apply H. rewrite <- Hd. now apply in_map.
Qed.

Lemma fold_min_spec ds d0 :
  In (fold_left Z.min ds d0) (d0 :: ds) /\
  forall x, In x (d0 :: ds) -> fold_left Z.min ds d0 <= x.
Proof.
  revert d0. induction ds as [|d t IH]; intros d0; simpl.
  - split; [now left | intros x [<-|[]]; lia].
  - destruct (IH (Z.min d0 d)) as [Hin Hle]. split.
    + destruct Hin as [E|Hin]; [|now right; right].
      rewrite <- E. destruct (Z.min_spec d0 d) as [[_ ->]|[_ ->]]; auto.
    + intros x Hx.
      assert (M : fold_left Z.min t (Z.min d0 d) <= Z.min d0 d)
        by (apply Hle; now left).
      destruct Hx as [<-|[<-|Hx]]; [lia | lia |].
      apply Hle. now right.
Qed.

Lemma fold_max_spec ds d0 :
  In (fold_left Z.max ds d0) (d0 :: ds) /\
  forall x, In x (d0 :: ds) -> x <= fold_left Z.max ds d0.
Proof.
  revert d0. induction ds as [|d t IH]; intros d0; simpl.
  - split; [now left | intros x [<-|[]]; lia].
  - destruct (IH (Z.max d0 d)) as [Hin Hle]. split.
    + destruct Hin as [E|Hin]; [|now right; right].
      rewrite <- E. destruct (Z.max_spec d0 d) as [[_ ->]|[_ ->]]; auto.
    + intros x Hx.
      assert (M : Z.max d0 d <= fold_left Z.max t (Z.max d0 d))
        by (apply Hle; now left).
      destruct Hx as [<-|[<-|Hx]]; [lia | lia |].
      apply Hle. now right.
Qed.

Lemma days_In lo n D : In D (days lo n) <-> lo <= D < lo + Z.of_nat n.
Proof.
  unfold days. rewrite in_map_iff. split.
  - intros (i & <- & Hi). apply in_seq in Hi. lia.
  - intros H. exists (Z.to_nat (D - lo)). split; [lia|].
    apply in_seq. lia.
Qed.

Lemma days_NoDup lo n : NoDup (days lo n).
Proof.
  unfold days. apply Injective_map_NoDup; [|apply seq_NoDup].
  intros i j H. lia.
Qed.

Lemma days_succ lo n : days lo (S n) = days lo n ++ [lo + Z.of_nat n].
Proof. unfold days. now rewrite seq_S, map_app. Qed.

Lemma days_nth lo n i D :
  nth_error (days lo n) i = Some D -> D = lo + Z.of_nat i /\ (i < n)%nat.
Proof.
  unfold days. intros H.
  assert (Hi : (i < n)%nat).
  { assert (N : nth_error (map (fun i => lo + Z.of_nat i) (seq 0 n)) i <> None)
      by congruence.
    apply nth_error_Some in N. now rewrite length_map, length_seq in N. }
  split; [|assumption].
  rewrite nth_error_map, nth_error_seq in H.
  apply Nat.ltb_lt in Hi. rewrite Hi in H. simpl in H. now injection H.
Qed.

Lemma firstn_seq_le a n i : (i <= n)%nat -> firstn i (seq a n) = seq a i.
Proof.
  revert a n. induction i as [|i IH]; intros a n H; [reflexivity|].
  destruct n as [|n]; [lia|]. simpl. f_equal. apply IH. lia.
Qed.

Lemma days_firstn lo n i : (i <= n)%nat -> firstn i (days lo n) = days lo i.
Proof.
  intros H. unfold days. now rewrite firstn_map, firstn_seq_le.
Qed.

Lemma ffill_from_nth g last ds i :
  (i < List.length ds)%nat ->
  nth_error (ffill_from last (map g ds)) i
  = Some (carry g last (firstn (S i) ds)).
Proof.
  unfold carry. revert last i. induction ds as [|d t IH]; intros last i H.
  - simpl in H. lia.
  - simpl map. simpl ffill_from. destruct i as [|i].
    + simpl. destruct (g d); reflexivity.
    + simpl in H. simpl nth_error. rewrite IH by lia.
      simpl. destruct (g d); reflexivity.
Qed.

(** The value carried to the end of a run of days is the last valid one. *)
Lemma carry_last_observation g last lo n d0 v :
  lo <= d0 < lo + Z.of_nat n ->
  g d0 = Val v ->
  (forall d, d0 < d < lo + Z.of_nat n -> g d = NaN) ->
  carry g last (days lo n) = Val v.
Proof.
  induction n as [|n IH]; intros Hr Hv Hn; [lia|].
  rewrite days_succ. unfold carry. rewrite fold_left_app. simpl.
  destruct (Z.eq_dec d0 (lo + Z.of_nat n)) as [<-|Hne].
  - now rewrite Hv.
  - rewrite (Hn (lo + Z.of_nat n)) by lia.
    apply IH; [lia | assumption | intros d Hd; apply Hn; lia].
Qed.

Lemma carry_no_observation g last lo n :
  (forall d, lo <= d < lo + Z.of_nat n -> g d = NaN) ->
  carry g last (days lo n) = last.
Proof.
  induction n as [|n IH]; intros Hn; [reflexivity|].
  rewrite days_succ. unfold carry. rewrite fold_left_app. simpl.
  rewrite (Hn (lo + Z.of_nat n)) by lia.
  apply IH. intros d Hd. apply Hn. lia.
Qed.

Lemma day_range_days lo hi : day_range lo hi = days lo (Z.to_nat (hi - lo + 1)).
Proof. reflexivity. Qed.

(** The aligned frame: the index is the run of days from the first to the
    last date and each column is the forward fill of the stock's cells. *)
Lemma aligned_frame col frame labels d0 ds :
  sort_dates (map date frame) = d0 :: ds ->
  let lo := fold_left Z.min ds d0 in
  let hi := fold_left Z.max ds d0 in
  ffill (asfreq_D (tabulate (d0 :: ds) labels (cell_at col frame)))
  = mkWide (day_range lo hi)
      (map (fun s =>
              (s, ffill_from NaN
                    (map (fun d => cell_at col frame d s) (day_range lo hi))))
           labels).
Proof.
  intros Hidx lo hi. unfold ffill, map_columns, asfreq_D, tabulate. simpl.
  fold lo hi. f_equal. rewrite !map_map. apply map_ext. intros s. simpl.
  f_equal. f_equal. unfold reindex_column. apply map_ext. intros d.
  destruct (index_pos d (d0 :: ds)) as [i|] eqn:P.
  - apply index_pos_nth in P.
    apply (map_nth_error (fun d => cell_at col frame d s)) in P.
    exact (nth_error_nth _ _ NaN P).
  - symmetry. apply cell_at_no_date. intros H.
    apply sort_dates_In in H. rewrite Hidx in H.
    destruct (index_pos_In d _ H) as (i & E & _). congruence.
Qed.

Lemma map_columns_labels g w :
  map fst (w_columns (map_columns g w)) = map fst (w_columns w).
Proof. unfold map_columns. simpl. now rewrite map_map. Qed.

Lemma asfreq_D_labels w :
  map fst (w_columns (asfreq_D w)) = map fst (w_columns w).
Proof.
  unfold asfreq_D. destruct (w_index w); [reflexivity|].
  simpl. now rewrite map_map.
Qed.

Lemma aligned_cell_carry col frame labels d0 ds D s :
  sort_dates (map date frame) = d0 :: ds ->
  let lo := fold_left Z.min ds d0 in
  let hi := fold_left Z.max ds d0 in
  In s labels -> lo <= D <= hi ->
  wide_at (ffill (asfreq_D (tabulate (d0 :: ds) labels (cell_at col frame))))
          D s
  = Some (carry (fun d => cell_at col frame d s) NaN
                (days lo (S (Z.to_nat (D - lo))))).
Proof.
  intros Hidx lo hi Hs HD.
  rewrite (aligned_frame col frame labels d0 ds Hidx). fold lo hi.
  unfold wide_at. simpl.
  rewrite (dict_get_tabulated
             (fun s => ffill_from NaN
                         (map (fun d => cell_at col frame d s)
                              (day_range lo hi))) _ _ Hs).
  rewrite day_range_days.
  assert (HIn : In D (days lo (Z.to_nat (hi - lo + 1))))
    by (apply days_In; lia).
  destruct (index_pos_In D _ HIn) as (i & -> & Hn).
  destruct (days_nth _ _ _ _ Hn) as [HDi Hi].
  rewrite ffill_from_nth.
  2:{ unfold days. now rewrite length_map, length_seq. }
  rewrite days_firstn by lia.
  replace (Z.to_nat (D - lo)) with i by lia. reflexivity.
Qed.

Section ForwardFill.

Variable col : Row -> cell.
Variable frame : Frame.
Hypothesis unique_keys : has_duplicate_keys frame = false.

Lemma aligned_index D :
  In D (w_index (aligned_table col frame)) <->
  exists r1 r2, In r1 frame /\ In r2 frame /\ date r1 <= D <= date r2.
Proof using Type.
  unfold aligned_table.
  destruct (sort_dates (map date frame)) as [|d0 ds] eqn:Hidx.
  - simpl. split; [intros []|].
    intros (r1 & _ & H1 & _). apply (in_map date) in H1.
    apply sort_dates_In in H1. rewrite Hidx in H1. destruct H1.
  - rewrite (aligned_frame col frame _ d0 ds Hidx). simpl.
    destruct (fold_min_spec ds d0) as [Hlo Hmin].
    destruct (fold_max_spec ds d0) as [Hhi Hmax].
    rewrite day_range_days, days_In. rewrite <- Hidx in *.
    split.
    + intros H.
      apply sort_dates_In, in_map_iff in Hlo. destruct Hlo as (r1 & E1 & H1).
      apply sort_dates_In, in_map_iff in Hhi. destruct Hhi as (r2 & E2 & H2).
      exists r1, r2. repeat split; try assumption; lia.
    + intros (r1 & r2 & H1 & H2 & H).
      assert (L1 := Hmin (date r1)
                      (proj2 (sort_dates_In _ _) (in_map date _ _ H1))).
      assert (L2 := Hmax (date r2)
                      (proj2 (sort_dates_In _ _) (in_map date _ _ H2))).
      lia.
Qed.

Lemma aligned_index_NoDup : NoDup (w_index (aligned_table col frame)).
Proof using Type.
  unfold aligned_table.
  destruct (sort_dates (map date frame)) as [|d0 ds] eqn:Hidx.
  - simpl. constructor.
  - rewrite (aligned_frame col frame _ d0 ds Hidx). simpl.
    rewrite day_range_days. apply days_NoDup.
Qed.

Lemma aligned_columns s :
  In s (map fst (w_columns (aligned_table col frame)))
  <-> In s (map stock frame).
Proof using Type.
  unfold aligned_table, ffill.
  rewrite map_columns_labels, asfreq_D_labels, tabulate_labels.
  apply sort_labels_In.
Qed.

Lemma aligned_cell_value D s :
  In D (w_index (aligned_table col frame)) -> In s (map stock frame) ->
  exists lo,
    (forall r, In r frame -> lo <= date r) /\ lo <= D /\
    wide_at (aligned_table col frame) D s
    = Some (carry (fun d => cell_at col frame d s) NaN
                  (days lo (S (Z.to_nat (D - lo))))).
Proof using Type.
  intros HD Hs. unfold aligned_table in *.
  destruct (sort_dates (map date frame)) as [|d0 ds] eqn:Hidx.
  - destruct HD.
  - destruct (fold_min_spec ds d0) as [Hlo Hmin].
    exists (fold_left Z.min ds d0).
    assert (R : fold_left Z.min ds d0 <= D <= fold_left Z.max ds d0).
    { rewrite (aligned_frame col frame _ d0 ds Hidx) in HD. simpl in HD.
      rewrite day_range_days in HD. apply days_In in HD. lia. }
    split; [|split; [lia|]].
    + intros r Hr. apply Hmin. rewrite <- Hidx.
      apply sort_dates_In. now apply in_map.
    + apply aligned_cell_carry; [assumption | | assumption].
      now apply sort_labels_In.
Qed.

(** A day on or after an observation shows the most recent one. *)
Lemma aligned_most_recent D r v :
  In D (w_index (aligned_table col frame)) -> In r frame -> date r <= D ->
  col r = Val v ->
  (forall r', In r' frame -> stock r' = stock r -> date r < date r' <= D ->
              col r' = NaN) ->
  wide_at (aligned_table col frame) D (stock r) = Some (Val v).
Proof using unique_keys.
  intros HD Hr Hle Hv Hlater.
  destruct (aligned_cell_value D (stock r) HD (in_map stock _ _ Hr))
    as (lo & Hlo & HloD & ->).
  f_equal. apply carry_last_observation with (d0 := date r).
  - specialize (Hlo r Hr). lia.
  - now rewrite cell_at_row.
  - intros d Hd. apply cell_at_missing. intros r' Hr' Hd' Hs'.
    apply Hlater; [assumption | assumption | lia].
Qed.

(** A day before the first observation of a stock stays unset. *)
Lemma aligned_unset D s :
  In D (w_index (aligned_table col frame)) -> In s (map stock frame) ->
  (forall r, In r frame -> stock r = s -> date r <= D -> col r = NaN) ->
  wide_at (aligned_table col frame) D s = Some NaN.
Proof using Type.
  intros HD Hs Hnone.
  destruct (aligned_cell_value D s HD Hs) as (lo & Hlo & HloD & ->).
  f_equal. apply carry_no_observation.
  intros d Hd. apply cell_at_missing. intros r Hr Hd' Hs'.
  apply Hnone; [assumption | assumption | lia].
Qed.

End ForwardFill.

(** ** Dividend combination *)

(** C5.  The DRP dollar value of a row is [drp_share * close_price] for
    the period and [drp_shares_total * close_price] for the running
    value, and these are the cells the DRP chart plots; the combined frame
    has, at every date and stock present in the cash frame or in the DRP
    frame, the cash cell plus the DRP cell, a missing cell counting as
    zero (cumulative views are forward-filled after that); cash
    [5, 0, 5] with DRP value [0, 2, 0] gives [5, 2, 5]. *)
Theorem dividend_combination :
  (forall r,
      drp_value r = cell_mul (drp_share r) (close_price r) /\
      drp_value_total r = cell_mul (drp_shares_total r) (close_price r)) /\
  (forall data p,
      has_duplicate_keys data = false ->
      chart_type p = "drp" ->
      let cumulative := time_period p =s? "cumulative" in
      exists drp,
        unstack (if cumulative then drp_value_total else drp_value) data
        = Ok drp /\
        dividend_frame data p
        = Ok (if cumulative then ffill (asfreq_D drp) else drp) /\
        forall r, In r data ->
          wide_at drp (date r) (stock r)
          = Some (cell_mul (if cumulative then drp_shares_total r
                            else drp_share r)
                           (close_price r))) /\
  (forall data p,
      has_duplicate_keys data = false ->
      chart_type p = "combined" ->
      let cumulative := time_period p =s? "cumulative" in
      exists cash drp total,
        unstack (if cumulative then cash_dividends_total else cash_dividend)
                data = Ok cash /\
        unstack (if cumulative then drp_value_total else drp_value) data
        = Ok drp /\
        dividend_frame data p
        = Ok (if cumulative then ffill (asfreq_D total) else total) /\
        forall d s,
          In d (w_index cash) \/ In d (w_index drp) ->
          In s (map fst (w_columns cash)) \/ In s (map fst (w_columns drp)) ->
          wide_at total d s
          = Some (Val (fillna0 (aligned_cell cash d s)
                       + fillna0 (aligned_cell drp d s))%Q)) /\
  dividend_frame sample_dividends params_dividends
  = Ok (mkWide [19723; 19724; 19725] [("AAA.AX", [Val 5; Val 2; Val 5])]).
Proof.
  split; [|split; [|split]].
  - intros r. split; reflexivity.
  - intros data p Hnd Hc cumulative.
    eexists. split; [apply (unstack_tabulate _ _ Hnd)|]. split.
    + unfold dividend_frame. rewrite Hc. simpl. fold cumulative.
      rewrite (unstack_tabulate _ _ Hnd). reflexivity.
    + intros r Hr.
      rewrite wide_at_tabulate.
      2:{ apply sort_dates_In. now apply in_map. }
      2:{ apply sort_labels_In. now apply in_map. }
      rewrite (cell_at_row _ _ _ Hnd Hr).
      destruct cumulative; reflexivity.
  - intros data p Hnd Hc cumulative.
    eexists. eexists. eexists.
    split; [apply (unstack_tabulate _ _ Hnd)|].
    split; [apply (unstack_tabulate _ _ Hnd)|]. split.
    + unfold dividend_frame. rewrite Hc. simpl. fold cumulative.
      rewrite !(unstack_tabulate _ _ Hnd). simpl. reflexivity.
    + intros d s Hd Hs.
      unfold fillna_wide. rewrite !map_columns_tabulate, wide_add_tabulate.
      rewrite !tabulate_labels in *. simpl w_index in *.
      assert (Hd' : In d (sort_dates (map date data))) by tauto.
      assert (Hs' : In s (sort_labels (map stock data))) by tauto.
      rewrite wide_at_tabulate.
      2:{ apply sort_dates_In. apply in_or_app. now left. }
      2:{ apply sort_labels_In. apply in_or_app. now left. }
      rewrite !aligned_cell_tabulate.
      destruct (in_dec Z.eq_dec d _) as [_|N]; [|contradiction].
      destruct (in_dec string_dec s _) as [_|N]; [|contradiction].
      reflexivity.
  - reflexivity.
Qed.

Lemma dividend_combination_witness :
  exists cash drp total,
    unstack cash_dividend sample_dividends = Ok cash /\
    unstack drp_value sample_dividends = Ok drp /\
    dividend_frame sample_dividends params_dividends = Ok total /\
    wide_at total 19724 "AAA.AX"
    = Some (Val (fillna0 (aligned_cell cash 19724 "AAA.AX")
                 + fillna0 (aligned_cell drp 19724 "AAA.AX"))%Q).
Proof.
  destruct (proj1 (proj2 (proj2 dividend_combination))
              sample_dividends params_dividends eq_refl eq_refl)
    as (cash & drp & total & Hc & Hd & Hf & Hcell).
  exists cash, drp, total. repeat split; try assumption.
  apply Hcell.
  - left. injection Hc as <-. simpl. tauto.
  - left. injection Hc as <-. simpl. tauto.
Defined.

(** C1.  For a frame without repeated [(date, stock)] pairs, the
    market-value columns aligned by [plot_market_value] have one row for
    every calendar day from the smallest to the largest date of the frame
    (each once) and one column per stock; on day D the column of a stock
    holds the most recent value observed for it on or before D, and is
    unset while nothing has been observed.  For AAA.AX worth [100, 110] on
    two consecutive days and BBB.AX worth [50] on the first only, the
    columns are [100, 110] and [50, 50] and the total is [150, 160]. *)
Theorem market_value_time_alignment :
  (forall frame,
      has_duplicate_keys frame = false ->
      exists w,
        unstack market_value frame = Ok w /\
        let aligned := ffill (asfreq_D w) in
        NoDup (w_index aligned) /\
        (forall D,
            In D (w_index aligned) <->
            exists r1 r2,
              In r1 frame /\ In r2 frame /\ date r1 <= D <= date r2) /\
        (forall s, In s (map fst (w_columns aligned))
                   <-> In s (map stock frame)) /\
        (forall D r v,
            In D (w_index aligned) -> In r frame -> date r <= D ->
            market_value r = Val v ->
            (forall r', In r' frame -> stock r' = stock r ->
                        date r < date r' <= D -> market_value r' = NaN) ->
            wide_at aligned D (stock r) = Some (Val v)) /\
        (forall D s,
            In D (w_index aligned) -> In s (map stock frame) ->
            (forall r, In r frame -> stock r = s -> date r <= D ->
                       market_value r = NaN) ->
            wide_at aligned D s = Some NaN)) /\
  plot_market_value sample_market params_market_stocks
  = Ok [ Line "AAA.AX" [ (19723, Val 100); (19724, Val 110) ];
         Line "BBB.AX" [ (19723, Val 50); (19724, Val 50) ] ] /\
  plot_market_value sample_market params_market_total
  = Ok [ Line "Total Portfolio" [ (19723, Val 150); (19724, Val 160) ] ].
Proof.
  split; [|split; reflexivity].
  intros frame Hnd. eexists. split; [apply (unstack_tabulate _ _ Hnd)|].
  intros aligned. unfold aligned. split; [|split; [|split; [|split]]].
  - apply aligned_index_NoDup.
  - apply aligned_index.
  - apply aligned_columns.
  - intros D r v. now apply aligned_most_recent.
  - apply aligned_unset.
Qed.

Lemma market_value_time_alignment_witness :
  exists w,
    unstack market_value sample_market = Ok w /\
    wide_at (ffill (asfreq_D w)) 19724 "BBB.AX" = Some (Val 50).
Proof.
  destruct (proj1 market_value_time_alignment sample_market eq_refl)
    as (w & E & _ & Hidx & _ & Hrecent & _).
  exists w. split; [exact E|].
  apply (Hrecent 19724 (market_row 19723 "BBB.AX" 50) 50%Q).
  - apply Hidx.
    exists (market_row 19723 "AAA.AX" 100), (market_row 19724 "AAA.AX" 110).
    simpl. repeat split; try tauto; lia.
  - simpl. tauto.
  - simpl. lia.
  - reflexivity.
  - intros r' [<-|[<-|[<-|[]]]] Hs Hd; simpl in *; try discriminate; lia.
Defined.

(** ** Profitability of the whole portfolio, in dollars *)

(** C7.  In the portfolio-total view with the dollar-value chart,
    [plot_profitability] plots the per-day sum of the forward-filled
    [total_return] columns when the calculation is cumulative, and
    [calculate_portfolio_total_metrics] sums [total_return] per date
    without any weighting; when the calculation is daily no branch of
    [plot_profitability] applies and no series is computed at all. *)
Theorem dollar_total_daily_plots_nothing :
  (forall data p,
      view_type p <> "individual_stocks" ->
      chart_type p = "dollar_value" ->
      calculation_type p = "daily" ->
      plot_profitability data p = Ok []) /\
  (forall data p w,
      view_type p <> "individual_stocks" ->
      chart_type p = "dollar_value" ->
      calculation_type p = "cumulative" ->
      get_zero_at_start p = false ->
      unstack total_return data = Ok w ->
      plot_profitability data p
      = Ok [Line "Portfolio Total" (sum_axis1 (ffill (asfreq_D w)))]) /\
  (forall data p,
      chart_type p = "dollar_value" ->
      calculate_portfolio_total_metrics data p
      = DollarTotals (groupby_date_sum total_return data)) /\
  plot_profitability sample_returns (params_returns "dollar_value" "daily")
  = Ok [].
Proof.
  split; [|split; [|split]].
  - intros data p Hv Hc Ht. unfold plot_profitability.
    apply String.eqb_neq in Hv. rewrite Hv, Hc, Ht. reflexivity.
  - intros data p w Hv Hc Ht Hz Hw. unfold plot_profitability.
    apply String.eqb_neq in Hv. rewrite Hv, Hc, Ht, Hz.
    change (profitability_metric "dollar_value" "cumulative")
      with total_return.
    rewrite Hw. reflexivity.
  - intros data p Hc. unfold calculate_portfolio_total_metrics.
    now rewrite Hc.
  - reflexivity.
Qed.

Lemma dollar_total_daily_plots_nothing_witness :
  plot_profitability sample_returns (params_returns "dollar_value" "daily")
  = Ok [] /\
  plot_profitability sample_returns (params_returns "dollar_value" "cumulative")
  = Ok [Line "Portfolio Total" [ (19723, Val 15); (19724, Val 25) ]].
Proof.
  split.
  - apply (proj1 dollar_total_daily_plots_nothing).
    + discriminate.
    + reflexivity.
    + reflexivity.
  - eapply eq_trans.
    + apply (proj1 (proj2 dollar_total_daily_plots_nothing) sample_returns
               (params_returns "dollar_value" "cumulative")
               (tabulate [19723; 19724] ["AAA.AX"; "BBB.AX"]
                         (cell_at total_return sample_returns)));
        try reflexivity.
      discriminate.
    + reflexivity.
Defined.

(** ** Percentage return of the whole portfolio *)

Lemma find_map_values (G : Z * cell -> cell) (s : Series) D :
  find (fun p => fst p =? D) (map (fun p => (fst p, G p)) s)
  = option_map (fun p => (fst p, G p)) (find (fun p => fst p =? D) s).
Proof.
  induction s as [|p t IH]; simpl; [reflexivity|].
  destruct (fst p =? D); [reflexivity | exact IH].
Qed.

Lemma find_tabulated (F : Z -> cell) idx D :
  In D idx ->
  find (fun p => fst p =? D) (map (fun d => (d, F d)) idx) = Some (D, F D).
Proof.
  induction idx as [|d t IH]; intros H; simpl.
  - destruct H.
  - destruct (d =? D) eqn:E.
    + apply Z.eqb_eq in E. now subst.
    + apply IH. destruct H as [->|H]; [|assumption].
      rewrite Z.eqb_refl in E. discriminate.
Qed.

Lemma sum_axis1_find_from w D idx a i :
  index_pos D idx = Some i ->
  find (fun p => fst p =? D)
       (map (fun id : nat * Z =>
               (snd id, Val (sum_skipna (row_cells w (fst id)))))
            (combine (seq a (List.length idx)) idx))
  = Some (D, Val (sum_skipna (row_cells w (a + i)))).
Proof.
  revert a i. induction idx as [|d t IH]; intros a i H; simpl in H.
  - discriminate.
  - simpl. destruct (d =? D) eqn:E.
    + injection H as <-. apply Z.eqb_eq in E. subst.
      now rewrite Nat.add_0_r.
    + destruct (index_pos D t) as [j|]; [|discriminate].
      injection H as <-. rewrite (IH (S a) j eq_refl).
      now rewrite Nat.add_succ_r.
Qed.

Lemma sum_axis1_find w D i :
  index_pos D (w_index w) = Some i ->
  find (fun p => fst p =? D) (sum_axis1 w)
  = Some (D, Val (sum_skipna (row_cells w i))).
Proof.
  intros H. unfold sum_axis1.
  now rewrite (sum_axis1_find_from w D (w_index w) 0 i H).
Qed.

Lemma row_cells_aligned w (C : string -> list cell) labels D i :
  w_columns w = map (fun s => (s, C s)) labels ->
  index_pos D (w_index w) = Some i ->
  row_cells w i = map (fun s => aligned_cell w D s) labels.
Proof.
  intros Hc Hi. unfold row_cells. rewrite Hc, map_map. simpl.
  apply map_ext_in. intros s Hs.
  unfold aligned_cell, wide_at. rewrite Hc, Hi.
  rewrite (dict_get_tabulated C _ _ Hs).
  rewrite <- nth_default_eq. reflexivity.
Qed.

Lemma aligned_columns_shape idx labels f :
  exists C,
    w_columns (ffill (asfreq_D (tabulate idx labels f)))
    = map (fun s => (s, C s)) labels.
Proof.
  unfold ffill, map_columns, asfreq_D, tabulate. simpl.
  destruct idx as [|d0 ds]; simpl; rewrite !map_map; simpl;
    eexists (fun s => _); reflexivity.
Qed.

Lemma aligned_index_same idx labels f g :
  w_index (ffill (asfreq_D (tabulate idx labels f)))
  = w_index (ffill (asfreq_D (tabulate idx labels g))).
Proof. destruct idx; reflexivity. Qed.

Lemma Qis_zero_positive b : (0 < b)%Q -> Qis_zero b = false.
Proof.
  unfold Qlt, Qis_zero. simpl. intros H. apply Z.eqb_neq. lia.
Qed.

Lemma percent_of a b :
  (0 < b)%Q ->
  cell_mul (cell_div (Val a) (Val b)) (Val 100) = Val (a / b * 100)%Q.
Proof. intros H. simpl. now rewrite (Qis_zero_positive b H). Qed.

Lemma series_ratio_get (A B : Series) D a b :
  find (fun p => fst p =? D) A = Some (D, Val a) ->
  find (fun p => fst p =? D) B = Some (D, Val b) ->
  (0 < b)%Q ->
  series_get (series_scale 100 (series_div A B)) D = Val (a / b * 100)%Q.
Proof.
  intros HA HB Hb. unfold series_get, series_scale, series_div.
  rewrite !find_map_values, HA. simpl.
  unfold series_get. rewrite HB. simpl.
  now rewrite (Qis_zero_positive b Hb).
Qed.

Lemma daily_percentage_total data p :
  view_type p <> "individual_stocks" ->
  chart_type p = "percentage" ->
  calculation_type p = "daily" ->
  exists ys,
    plot_profitability data p = Ok [Line "Portfolio Total" ys] /\
    forall d,
      In d (map date data) ->
      (0 < group_sum market_value data d)%Q ->
      series_get ys d
      = Val (group_sum daily_pl data d / group_sum market_value data d
             * 100)%Q.
Proof.
  intros Hv Hc Ht. eexists. split.
  - unfold plot_profitability. apply String.eqb_neq in Hv.
    rewrite Hv, Hc, Ht. simpl. rewrite andb_false_r. reflexivity.
  - intros d Hd Hpos. apply series_ratio_get; [| |assumption];
      unfold groupby_date_sum;
      apply (find_tabulated (fun d => Val (group_sum _ data d)));
      now apply sort_dates_In.
Qed.

Lemma metrics_percentage_total data p :
  chart_type p <> "dollar_value" ->
  exists rows,
    calculate_portfolio_total_metrics data p = PercentTotals rows /\
    map g_date rows = sort_dates (map date data) /\
    forall row,
      In row rows ->
      g_total_return row = group_sum total_return data (g_date row) /\
      g_market_value row = group_sum market_value data (g_date row) /\
      ((0 < g_market_value row)%Q ->
       g_value row
       = Val (g_total_return row / g_market_value row * 100)%Q).
Proof.
  intros Hc. apply String.eqb_neq in Hc.
  unfold calculate_portfolio_total_metrics. rewrite Hc.
  eexists. split; [reflexivity|]. split.
  - rewrite map_map. simpl. apply map_id.
  - intros row Hr. apply in_map_iff in Hr. destruct Hr as (d & <- & _).
    simpl. repeat split. apply percent_of.
Qed.

Lemma unstack_aligned col data w :
  unstack col data = Ok w -> ffill (asfreq_D w) = aligned_table col data.
Proof.
  unfold unstack, aligned_table.
  destruct (has_duplicate_keys data); [discriminate|].
  intros E. injection E as <-. reflexivity.
Qed.

Lemma cumulative_percentage_total data p :
  has_duplicate_keys data = false ->
  view_type p <> "individual_stocks" ->
  chart_type p = "percentage" ->
  calculation_type p = "cumulative" ->
  get_zero_at_start p = false ->
  exists ys,
    plot_profitability data p = Ok [Line "Portfolio Total" ys] /\
    forall D,
      In D (w_index (aligned_table market_value data)) ->
      let filled_return :=
        sum_skipna (map (aligned_cell (aligned_table total_return data) D)
                        (sort_labels (map stock data))) in
      let filled_value :=
        sum_skipna (map (aligned_cell (aligned_table market_value data) D)
                        (sort_labels (map stock data))) in
      (0 < filled_value)%Q ->
      series_get ys D = Val (filled_return / filled_value * 100)%Q.
Proof.
  intros Hnd Hv Hc Ht Hz. eexists. split.
  - unfold plot_profitability. apply String.eqb_neq in Hv.
    rewrite Hv, Hc, Ht, Hz. simpl.
    rewrite !(unstack_tabulate _ _ Hnd). reflexivity.
  - fold (aligned_table total_return data).
    fold (aligned_table market_value data).
    intros D HD filled_return filled_value Hpos.
    destruct (index_pos_In D _ HD) as (i & Hi & _).
    assert (Hi' : index_pos D (w_index (aligned_table total_return data))
                  = Some i).
    { unfold aligned_table in *.
      now rewrite (aligned_index_same _ _ _ (cell_at market_value data)). }
    destruct (aligned_columns_shape (sort_dates (map date data))
                (sort_labels (map stock data)) (cell_at total_return data))
      as [Ctr Htr].
    destruct (aligned_columns_shape (sort_dates (map date data))
                (sort_labels (map stock data)) (cell_at market_value data))
      as [Cmv Hmv].
    fold (aligned_table total_return data) in Htr.
    fold (aligned_table market_value data) in Hmv.
    apply series_ratio_get; [| |exact Hpos].
    + rewrite (sum_axis1_find _ _ _ Hi').
      now rewrite (row_cells_aligned (aligned_table total_return data)
                     Ctr _ D i Htr Hi').
    + rewrite (sum_axis1_find _ _ _ Hi).
      now rewrite (row_cells_aligned (aligned_table market_value data)
                     Cmv _ D i Hmv Hi).
Qed.

(** *** Label sets have no repetition *)

Section SortUniqSorted.
Variable A : Type.
Variable cmp : A -> A -> comparison.
Hypothesis cmp_eq : forall a b, cmp a b = Eq <-> a = b.
Hypothesis cmp_trans :
  forall a b c, cmp a b = Lt -> cmp b c = Lt -> cmp a c = Lt.
Hypothesis cmp_gt : forall a b, cmp a b = Gt -> cmp b a = Lt.

Lemma insert_uniq_sorted x l :
  StronglySorted (fun a b => cmp a b = Lt) l ->
  StronglySorted (fun a b => cmp a b = Lt) (insert_uniq cmp x l).
Proof using cmp_eq cmp_trans cmp_gt.
  induction l as [|y t IH]; intros Hs; simpl.
  - repeat constructor.
  - inversion Hs as [|? ? Ht Hy]; subst.
    destruct (cmp x y) eqn:E.
    + assumption.
    + constructor; [assumption|]. constructor; [assumption|].
      rewrite Forall_forall in *. intros z Hz. eauto.
    + constructor; [now apply IH|].
      rewrite Forall_forall in *. intros z Hz.
      apply (@insert_uniq_In A cmp cmp_eq) in Hz. destruct Hz as [->|Hz]; auto.
Qed.

Lemma sort_uniq_sorted l :
  StronglySorted (fun a b => cmp a b = Lt) (sort_uniq cmp l).
Proof using cmp_eq cmp_trans cmp_gt.
  induction l as [|x t IH]; simpl.
  - constructor.
  - now apply insert_uniq_sorted.
Qed.

Lemma sort_uniq_NoDup l : NoDup (sort_uniq cmp l).
Proof using cmp_eq cmp_trans cmp_gt.
  induction (sort_uniq_sorted l) as [|x t Ht IH Hx]; constructor.
  - intros Hin. rewrite Forall_forall in Hx. specialize (Hx x Hin).
    assert (E : cmp x x = Eq) by now apply cmp_eq. congruence.
  - exact IH.
Qed.

End SortUniqSorted.

Lemma sort_labels_NoDup l : NoDup (sort_labels l).
Proof.
  apply sort_uniq_NoDup.
  - apply string_compare_eq.
  - intros a b c Hab Hbc.
    apply String_as_OT.cmp_lt. apply String_as_OT.cmp_lt in Hab, Hbc.
    eapply String_as_OT.lt_trans; eassumption.
  - intros a b H. rewrite String.compare_antisym, H. reflexivity.
Qed.

(** *** A day on which every stock has a row *)

Lemma sum_skipna_perm (F : string -> cell) l l' :
  Permutation l l' ->
  (sum_skipna (map F l) == sum_skipna (map F l'))%Q.
Proof.
  induction 1 as [|x l l' _ IH|x y l|l l' l'' _ IH1 _ IH2]; simpl.
  - reflexivity.
  - now rewrite IH.
  - ring.
  - now rewrite IH1.
Qed.

Lemma day_stocks_NoDup data d :
  has_duplicate_keys data = false ->
  NoDup (map stock (filter (fun r => date r =? d) data)).
Proof.
  induction data as [|x t IH]; intros Hnd; simpl in *.
  - constructor.
  - apply orb_false_iff in Hnd. destruct Hnd as [Hx Ht].
    destruct (date x =? d) eqn:E; [|now apply IH].
    simpl. constructor; [|now apply IH].
    intros Hin. apply in_map_iff in Hin. destruct Hin as (r & Hs & Hr).
    apply filter_In in Hr. destruct Hr as [Hr Hd].
    apply Z.eqb_eq in E, Hd.
    assert (K : existsb (has_key (date x) (stock x)) t = true).
    { apply existsb_exists. exists r. split; [assumption|].
      unfold has_key. rewrite Hs, Hd, E.
      now rewrite Z.eqb_refl, String.eqb_refl. }
    congruence.
Qed.

(** On a day on which every stock of the frame has a row with a valid
    cell, the sum of the forward-filled column is the sum over the rows of
    the day. *)
Lemma filled_sum_full_day col data d :
  has_duplicate_keys data = false ->
  In d (map date data) ->
  (forall s, In s (map stock data) ->
             exists r v, In r data /\ date r = d /\ stock r = s /\
                         col r = Val v) ->
  (sum_skipna (map (aligned_cell (aligned_table col data) d)
                   (sort_labels (map stock data)))
   == group_sum col data d)%Q.
Proof.
  intros Hnd Hd Hfull.
  assert (HD : In d (w_index (aligned_table col data))).
  { apply aligned_index. apply in_map_iff in Hd.
    destruct Hd as (r & <- & Hr). exists r, r. repeat split; trivial; lia. }
  assert (Hcell : forall s, In s (sort_labels (map stock data)) ->
                            aligned_cell (aligned_table col data) d s
                            = cell_at col data d s).
  { intros s Hs. apply (proj1 (sort_labels_In _ _)) in Hs.
    destruct (Hfull s Hs) as (r & v & Hr & <- & <- & Hv).
    unfold aligned_cell.
    rewrite (aligned_most_recent col data Hnd (date r) r v HD Hr
               (Z.le_refl _) Hv).
    - now rewrite cell_at_row.
    - intros r' _ _ Hlt. lia. }
  rewrite (map_ext_in _ _ _ Hcell).
  rewrite (sum_skipna_perm (cell_at col data d) (sort_labels (map stock data))
             (map stock (filter (fun r => date r =? d) data))).
  - unfold group_sum. rewrite map_map.
    erewrite map_ext_in; [reflexivity|].
    intros r Hr. apply filter_In in Hr. destruct Hr as [Hr E].
    apply Z.eqb_eq in E. rewrite <- E. now apply cell_at_row.
  - apply NoDup_Permutation.
    + apply sort_labels_NoDup.
    + now apply day_stocks_NoDup.
    + intros s. rewrite sort_labels_In. split.
      * intros Hs. destruct (Hfull s Hs) as (r & v & Hr & Hdr & Hsr & _).
        apply in_map_iff. exists r. split; [assumption|].
        apply filter_In. split; [assumption | now apply Z.eqb_eq].
      * intros Hs. apply in_map_iff in Hs. destruct Hs as (r & <- & Hr).
        apply filter_In in Hr. apply in_map. tauto.
Qed.

Lemma cumulative_percentage_full_day data p d :
  has_duplicate_keys data = false ->
  view_type p <> "individual_stocks" ->
  chart_type p = "percentage" ->
  calculation_type p = "cumulative" ->
  get_zero_at_start p = false ->
  In d (map date data) ->
  (forall s, In s (map stock data) ->
             exists r v1 v2,
               In r data /\ date r = d /\ stock r = s /\
               total_return r = Val v1 /\ market_value r = Val v2) ->
  (0 < group_sum market_value data d)%Q ->
  exists ys,
    plot_profitability data p = Ok [Line "Portfolio Total" ys] /\
    cell_eq (series_get ys d)
            (Val (group_sum total_return data d
                  / group_sum market_value data d * 100)%Q).
Proof.
  intros Hnd Hv Hc Ht Hz Hd Hfull Hpos.
  destruct (cumulative_percentage_total data p Hnd Hv Hc Ht Hz)
    as (ys & Hplot & H).
  exists ys. split; [exact Hplot|].
  assert (Etr := filled_sum_full_day total_return data d Hnd Hd).
  assert (Emv := filled_sum_full_day market_value data d Hnd Hd).
  rewrite H.
  - simpl. rewrite Etr, Emv; [reflexivity | |].
    + intros s Hs. destruct (Hfull s Hs) as (r & v1 & v2 & ? & ? & ? & ? & ?).
      exists r, v2. tauto.
    + intros s Hs. destruct (Hfull s Hs) as (r & v1 & v2 & ? & ? & ? & ? & ?).
      exists r, v1. tauto.
  - apply aligned_index. apply in_map_iff in Hd.
    destruct Hd as (r & <- & Hr). exists r, r. repeat split; trivial; lia.
  - rewrite Emv; [exact Hpos|].
    intros s Hs. destruct (Hfull s Hs) as (r & v1 & v2 & ? & ? & ? & ? & ?).
    exists r, v2. tauto.
Qed.

(** C2, as amended.  The percentage series of the whole portfolio is a
    value-weighted aggregate, sum of the return metric over sum of the
    market value times 100, never a sum or mean of per-stock percentages.
    In daily mode, and in [calculate_portfolio_total_metrics], the two
    sums are those of [daily_pl] (respectively [total_return]) and
    [market_value] over the rows of the date.  In cumulative mode the two
    sums are taken, for every calendar day of the aligned index, over the
    forward-filled [total_return] and [market_value] columns, so a stock
    without a row on a day enters with its most recent values; on a day
    on which every stock has a row with both values the result is again
    the ratio of the sums over the rows of that date. *)
Theorem percentage_total_value_weighted :
  (forall data p,
      view_type p <> "individual_stocks" ->
      chart_type p = "percentage" ->
      calculation_type p = "daily" ->
      exists ys,
        plot_profitability data p = Ok [Line "Portfolio Total" ys] /\
        forall d,
          In d (map date data) ->
          (0 < group_sum market_value data d)%Q ->
          series_get ys d
          = Val (group_sum daily_pl data d / group_sum market_value data d
                 * 100)%Q) /\
  (forall data p,
      chart_type p <> "dollar_value" ->
      exists rows,
        calculate_portfolio_total_metrics data p = PercentTotals rows /\
        map g_date rows = sort_dates (map date data) /\
        forall row,
          In row rows ->
          g_total_return row = group_sum total_return data (g_date row) /\
          g_market_value row = group_sum market_value data (g_date row) /\
          ((0 < g_market_value row)%Q ->
           g_value row
           = Val (g_total_return row / g_market_value row * 100)%Q)) /\
  (forall data p,
      has_duplicate_keys data = false ->
      view_type p <> "individual_stocks" ->
      chart_type p = "percentage" ->
      calculation_type p = "cumulative" ->
      get_zero_at_start p = false ->
      exists ys,
        plot_profitability data p = Ok [Line "Portfolio Total" ys] /\
        (forall D,
            In D (w_index (aligned_table market_value data)) ->
            let filled_return :=
              sum_skipna (map (aligned_cell (aligned_table total_return data) D)
                              (sort_labels (map stock data))) in
            let filled_value :=
              sum_skipna (map (aligned_cell (aligned_table market_value data) D)
                              (sort_labels (map stock data))) in
            (0 < filled_value)%Q ->
            series_get ys D = Val (filled_return / filled_value * 100)%Q) /\
        (forall d,
            In d (map date data) ->
            (forall s, In s (map stock data) ->
                       exists r v1 v2,
                         In r data /\ date r = d /\ stock r = s /\
                         total_return r = Val v1 /\ market_value r = Val v2) ->
            (0 < group_sum market_value data d)%Q ->
            cell_eq (series_get ys d)
                    (Val (group_sum total_return data d
                          / group_sum market_value data d * 100)%Q))) /\
  (forall col data D r v,
      has_duplicate_keys data = false ->
      In D (w_index (aligned_table col data)) ->
      In r data -> date r <= D -> col r = Val v ->
      (forall r', In r' data -> stock r' = stock r -> date r < date r' <= D ->
                  col r' = NaN) ->
      aligned_cell (aligned_table col data) D (stock r) = Val v).
Proof.
  split; [|split; [|split]].
  - apply daily_percentage_total.
  - apply metrics_percentage_total.
  - intros data p Hnd Hv Hc Ht Hz.
    destruct (cumulative_percentage_total data p Hnd Hv Hc Ht Hz)
      as (ys & Hplot & H).
    exists ys. split; [exact Hplot|]. split; [exact H|].
    intros d Hd Hfull Hpos.
    destruct (cumulative_percentage_full_day data p d Hnd Hv Hc Ht Hz Hd
                Hfull Hpos) as (ys' & Hplot' & H').
    rewrite Hplot in Hplot'. injection Hplot' as <-. exact H'.
  - intros col data D r v Hnd HD Hr Hle Hv Hlater. unfold aligned_cell.
    now rewrite (aligned_most_recent col data Hnd D r v HD Hr Hle Hv Hlater).
Qed.

Lemma percentage_total_value_weighted_witness :
  (exists ys,
      plot_profitability sample_returns (params_returns "percentage" "daily")
      = Ok [Line "Portfolio Total" ys] /\
      series_get ys 19723 = Val ((1 + (2 + 0)) / (100 + (50 + 0)) * 100)%Q) /\
  (exists ys,
      plot_profitability sample_returns
                         (params_returns "percentage" "cumulative")
      = Ok [Line "Portfolio Total" ys] /\
      cell_eq (series_get ys 19723) (Val 10)).
Proof.
  split.
  - destruct (proj1 percentage_total_value_weighted sample_returns
                (params_returns "percentage" "daily"))
      as (ys & E & H).
    + discriminate.
    + reflexivity.
    + reflexivity.
    + exists ys. split; [exact E|].
      apply (H 19723).
      * simpl. tauto.
      * reflexivity.
  - destruct (proj1 (proj2 (proj2 percentage_total_value_weighted))
                sample_returns (params_returns "percentage" "cumulative"))
      as (ys & E & _ & H).
    + reflexivity.
    + discriminate.
    + reflexivity.
    + reflexivity.
    + reflexivity.
    + exists ys. split; [exact E|].
      assert (G : cell_eq (series_get ys 19723)
                    (Val (group_sum total_return sample_returns 19723
                          / group_sum market_value sample_returns 19723
                          * 100)%Q)).
      { apply H.
        - simpl. tauto.
        - intros s [<-|[<-|[<-|[]]]].
          + exists (return_row 19723 "AAA.AX" 100 10 1), 10%Q, 100%Q.
            simpl. tauto.
          + exists (return_row 19723 "AAA.AX" 100 10 1), 10%Q, 100%Q.
            simpl. tauto.
          + exists (return_row 19723 "BBB.AX" 50 5 2), 5%Q, 50%Q.
            simpl. tauto.
        - reflexivity. }
      destruct (series_get ys 19723) as [|q]; [exact G|].
      simpl in G |- *. rewrite G. reflexivity.
Defined.

(** C2 as stated fails in cumulative mode: on 2024-01-02 only AAA.AX has
    a row, with a return of 20 on a value of 100, yet the plotted
    percentage is (20 + 5) / (100 + 50) * 100, because BBB.AX is carried
    forward from the day before. *)
Lemma cumulative_percentage_not_per_date_sums :
  ~ (forall data p ys d,
        view_type p = "portfolio_total" ->
        chart_type p = "percentage" ->
        plot_profitability data p = Ok [Line "Portfolio Total" ys] ->
        In d (map date data) ->
        (0 < group_sum market_value data d)%Q ->
        cell_eq (series_get ys d)
                (Val (group_sum (if calculation_type p =s? "daily"
                                 then daily_pl else total_return) data d
                      / group_sum market_value data d * 100)%Q)).
Proof.
  intros H.
  specialize (H sample_returns (params_returns "percentage" "cumulative")
                _ 19724 eq_refl eq_refl eq_refl).
  assert (Hd : In 19724 (map date sample_returns)) by (simpl; tauto).
  specialize (H Hd eq_refl).
  vm_compute in H. discriminate H.
Qed.

(* ================================================================== *)
(** * Further properties of the controller *)

(** ** Forward fill and daily reindexing *)

Lemma ffill_from_length last cells :
  List.length (ffill_from last cells) = List.length cells.
Proof.
  revert last. induction cells as [|c t IH]; intros last; simpl;
    [reflexivity | now rewrite IH].
Qed.

Lemma ffill_from_keeps_valid last cells i q :
  nth_error cells i = Some (Val q) ->
  nth_error (ffill_from last cells) i = Some (Val q).
Proof.
  revert last i. induction cells as [|c t IH]; intros last i H.
  - destruct i; discriminate.
  - destruct i as [|i]; simpl in *.
    + injection H as ->. reflexivity.
    + now apply IH.
Qed.

Lemma ffill_from_leading last cells i :
  (i < List.length cells)%nat ->
  (forall j, (j <= i)%nat -> nth_error cells j = Some NaN) ->
  nth_error (ffill_from last cells) i = Some last.
Proof.
  revert last i. induction cells as [|c t IH]; intros last i Hi H.
  - simpl in Hi. lia.
  - assert (H0 := H O (Nat.le_0_l _)). simpl in H0. injection H0 as ->.
    destruct i as [|i]; simpl.
    + reflexivity.
    + apply IH; [simpl in Hi; lia|].
      intros j Hj. apply (H (S j)). lia.
Qed.

Lemma ffill_from_after_valid q cells i :
  (i < List.length cells)%nat ->
  exists q', nth_error (ffill_from (Val q) cells) i = Some (Val q').
Proof.
  revert q i. induction cells as [|c t IH]; intros q i Hi.
  - simpl in Hi. lia.
  - destruct i as [|i]; simpl.
    + destruct c as [|q0]; eexists; reflexivity.
    + simpl in Hi. destruct c as [|q0]; apply IH; lia.
Qed.

Lemma ffill_from_no_gap last cells i j q :
  (i <= j)%nat -> (j < List.length cells)%nat ->
  nth_error (ffill_from last cells) i = Some (Val q) ->
  exists q', nth_error (ffill_from last cells) j = Some (Val q').
Proof.
  revert last i j. induction cells as [|c t IH]; intros last i j Hij Hj H.
  - simpl in Hj. lia.
  - destruct i as [|i].
    + destruct j as [|j]; [now exists q|].
      simpl in H |- *. injection H as H. rewrite H.
      apply ffill_from_after_valid. simpl in Hj. lia.
    + destruct j as [|j]; [lia|]. simpl in *.
      apply (IH _ i j); [lia | lia | exact H].
Qed.

Lemma ffill_from_idempotent last cells :
  ffill_from last (ffill_from last cells) = ffill_from last cells.
Proof.
  revert last. induction cells as [|c t IH]; intros last; simpl.
  - reflexivity.
  - destruct c as [|q]; simpl.
    + destruct last as [|q0]; simpl; now rewrite IH.
    + now rewrite IH.
Qed.

(** X1.  Forward fill of a column keeps its length, never changes a cell
    that holds a number, leaves the cells before the first number
    missing, and leaves no missing cell after a filled one. *)
Theorem ffill_column_behaviour (cells : list cell) :
  List.length (ffill_from NaN cells) = List.length cells /\
  (forall i q, nth_error cells i = Some (Val q) ->
               nth_error (ffill_from NaN cells) i = Some (Val q)) /\
  (forall i, (i < List.length cells)%nat ->
             (forall j, (j <= i)%nat -> nth_error cells j = Some NaN) ->
             nth_error (ffill_from NaN cells) i = Some NaN) /\
  (forall i j q, (i <= j)%nat -> (j < List.length cells)%nat ->
                 nth_error (ffill_from NaN cells) i = Some (Val q) ->
                 exists q', nth_error (ffill_from NaN cells) j
                            = Some (Val q')).
Proof.
  split; [apply ffill_from_length|]. split; [|split].
  - intros i q. apply ffill_from_keeps_valid.
  - intros i. apply ffill_from_leading.
  - intros i j q. apply ffill_from_no_gap.
Qed.

Lemma ffill_column_behaviour_witness :
  exists q', nth_error (ffill_from NaN [NaN; Val 3; NaN; NaN]) 3
             = Some (Val q').
Proof.
  apply (proj2 (proj2 (proj2 (ffill_column_behaviour
                                [NaN; Val 3; NaN; NaN]))) 1%nat 3%nat 3%Q).
  - lia.
  - simpl. lia.
  - reflexivity.
Defined.

Lemma index_pos_NoDup idx k d :
  NoDup idx -> nth_error idx k = Some d -> index_pos d idx = Some k.
Proof.
  revert k. induction idx as [|x t IH]; intros k Hnd H.
  - destruct k; discriminate.
  - inversion Hnd as [|? ? Hx Ht]; subst. destruct k as [|k]; simpl in *.
    + injection H as ->. now rewrite Z.eqb_refl.
    + destruct (x =? d) eqn:E.
      * apply Z.eqb_eq in E. subst. exfalso. apply Hx.
        eapply nth_error_In. exact H.
      * now rewrite (IH k Ht H).
Qed.

Lemma reindex_same idx cells :
  NoDup idx -> List.length cells = List.length idx ->
  reindex_column idx idx cells = cells.
Proof.
  intros Hnd Hlen. unfold reindex_column.
  apply nth_ext with (d := NaN) (d' := NaN).
  - now rewrite length_map.
  - intros k Hk. rewrite length_map in Hk.
    destruct (nth_error idx k) as [d|] eqn:E.
    2:{ apply nth_error_None in E. lia. }
    rewrite (nth_error_nth _ _ NaN
               (map_nth_error
                  (fun d => match index_pos d idx with
                            | Some i => nth i cells NaN
                            | None => NaN
                            end) _ _ E)).
    now rewrite (index_pos_NoDup idx k d Hnd E).
Qed.

Lemma days_bounds lo n :
  fold_left Z.min (tl (days lo (S n))) (hd 0 (days lo (S n))) = lo /\
  fold_left Z.max (tl (days lo (S n))) (hd 0 (days lo (S n)))
  = lo + Z.of_nat n.
Proof.
  assert (E : days lo (S n) = hd 0 (days lo (S n)) :: tl (days lo (S n)))
    by reflexivity.
  destruct (fold_min_spec (tl (days lo (S n))) (hd 0 (days lo (S n))))
    as [Hmin_in Hmin].
  destruct (fold_max_spec (tl (days lo (S n))) (hd 0 (days lo (S n))))
    as [Hmax_in Hmax].
  rewrite <- E in *.
  apply days_In in Hmin_in, Hmax_in.
  assert (L : In lo (days lo (S n))) by (apply days_In; lia).
  assert (U : In (lo + Z.of_nat n) (days lo (S n))) by (apply days_In; lia).
  specialize (Hmin _ L). specialize (Hmax _ U). lia.
Qed.

(** A frame whose index is a run of days and whose columns have the
    length of the index is left as it is by [asfreq('D')]. *)
Lemma asfreq_D_on_days lo n columns :
  Forall (fun sc => List.length (snd sc) = S n) columns ->
  asfreq_D (mkWide (days lo (S n)) columns) = mkWide (days lo (S n)) columns.
Proof.
  intros Hlen. unfold asfreq_D. simpl w_index.
  change (map (fun i => lo + Z.of_nat i) (seq 0 (S n))) with (days lo (S n)).
  destruct (days_bounds lo n) as [Hmin Hmax].
  destruct (days lo (S n)) as [|d0 ds] eqn:E; [discriminate|].
  simpl in Hmin, Hmax. rewrite Hmin, Hmax. rewrite day_range_days.
  replace (Z.to_nat (lo + Z.of_nat n - lo + 1)) with (S n) by lia.
  rewrite E. f_equal. simpl w_columns.
  rewrite <- (map_id columns) at 2. apply map_ext_in.
  intros [s cells] Hin. cbn [fst snd]. f_equal.
  rewrite Forall_forall in Hlen. specialize (Hlen _ Hin). simpl in Hlen.
  apply reindex_same.
  - rewrite <- E. apply days_NoDup.
  - rewrite Hlen, <- E. unfold days. now rewrite length_map, length_seq.
Qed.

Lemma ffill_idempotent w : ffill (ffill w) = ffill w.
Proof.
  unfold ffill, map_columns. simpl. f_equal. rewrite map_map.
  apply map_ext. intros sc. simpl. now rewrite ffill_from_idempotent.
Qed.

(** X2.  Aligning is idempotent: reindexing to daily frequency and
    forward-filling a frame that was already reindexed and forward-filled
    gives the same frame. *)
Theorem alignment_idempotent (w : Wide) :
  ffill (asfreq_D (ffill (asfreq_D w))) = ffill (asfreq_D w).
Proof.
  destruct (w_index w) as [|d0 ds] eqn:E.
  - assert (A : asfreq_D w = w) by (unfold asfreq_D; now rewrite E).
    rewrite A.
    assert (B : asfreq_D (ffill w) = ffill w)
      by (unfold asfreq_D, ffill, map_columns; simpl; now rewrite E).
    rewrite B. apply ffill_idempotent.
  - destruct (fold_min_spec ds d0) as [_ Hmin].
    destruct (fold_max_spec ds d0) as [_ Hmax].
    assert (Hlo := Hmin d0 (or_introl eq_refl)).
    assert (Hhi := Hmax d0 (or_introl eq_refl)).
    set (lo := fold_left Z.min ds d0) in *.
    set (hi := fold_left Z.max ds d0) in *.
    assert (A : ffill (asfreq_D w)
                = mkWide (days lo (S (Z.to_nat (hi - lo))))
                    (w_columns (ffill (asfreq_D w)))).
    { unfold asfreq_D. rewrite E. fold lo hi.
      unfold ffill, map_columns. simpl. f_equal.
      rewrite day_range_days. f_equal. lia. }
    rewrite A at 1. rewrite asfreq_D_on_days.
    + rewrite <- A. apply ffill_idempotent.
    + unfold asfreq_D. rewrite E. fold lo hi.
      unfold ffill, map_columns. simpl.
      rewrite Forall_forall. intros sc Hin.
      rewrite map_map in Hin. apply in_map_iff in Hin.
      destruct Hin as (sc0 & <- & _). simpl.
      rewrite ffill_from_length. unfold reindex_column.
      rewrite length_map, day_range_days.
      unfold days. rewrite length_map, length_seq. lia.
Qed.

(** ** The series fetcher and the analysis entry point *)

Section Fetching.

Variable get_stock : string -> option Stock.
Variable fetch_metrics : list string -> Z -> Z -> Z -> result exn (list Row).

Lemma fetch_frames_all_read fields p rows symbols :
  (forall sym st, In sym symbols -> get_stock sym = Some st ->
                  fetch_metrics fields (stock_id st)
                                (start_date p) (end_date p) = Ok (rows st)) ->
  exists frames,
    fetch_frames get_stock fetch_metrics fields p symbols = Ok frames /\
    List.concat frames = tagged_rows get_stock rows symbols.
Proof.
  induction symbols as [|sym rest IH]; intros H; simpl.
  - exists []. split; reflexivity.
  - destruct IH as (frames & E & C).
    { intros s st Hs. apply H. now right. }
    unfold tagged_rows in *. simpl.
    destruct (get_stock sym) as [st|] eqn:G.
    + rewrite (H sym st (or_introl eq_refl) G). simpl. rewrite E. simpl.
      destruct (rows st) as [|r rs].
      * exists frames. split; [reflexivity | exact C].
      * eexists. split; [reflexivity|]. simpl. now rewrite C.
    + exists frames. split; [exact E | exact C].
Qed.

Lemma get_portfolio_data_all_read p rows :
  (forall sym st, In sym (selected_stocks p) -> get_stock sym = Some st ->
                  fetch_metrics (resolve_fields p) (stock_id st)
                                (start_date p) (end_date p) = Ok (rows st)) ->
  get_portfolio_data get_stock fetch_metrics p
  = Ok (tagged_rows get_stock rows (selected_stocks p)).
Proof.
  intros H. unfold get_portfolio_data.
  destruct (fetch_frames_all_read (resolve_fields p) p rows
              (selected_stocks p) H) as (frames & E & C).
  rewrite E. simpl. now rewrite C.
Qed.

Lemma tagged_rows_In rows symbols r :
  In r (tagged_rows get_stock rows symbols) ->
  In (stock r) symbols /\ get_stock (stock r) <> None.
Proof.
  unfold tagged_rows. rewrite in_flat_map. intros (sym & Hsym & Hr).
  destruct (get_stock sym) as [st|] eqn:G; [|destruct Hr].
  apply in_map_iff in Hr. destruct Hr as (r0 & <- & _). simpl.
  split; [assumption | congruence].
Qed.

Lemma tagged_rows_nil rows symbols :
  (forall sym st, In sym symbols -> get_stock sym = Some st -> rows st = []) ->
  tagged_rows get_stock rows symbols = [].
Proof.
  unfold tagged_rows. induction symbols as [|sym rest IH]; intros H; simpl.
  - reflexivity.
  - rewrite IH by (intros s st Hs; apply H; now right).
    destruct (get_stock sym) as [st|] eqn:G; [|reflexivity].
    now rewrite (H sym st (or_introl eq_refl) G).
Qed.

End Fetching.

(** X3.  When every read succeeds, [get_portfolio_data] returns the rows
    of the selected symbols that have a backing stock, each tagged with
    its symbol, in selection order and in the order of the read; a symbol
    without a backing stock or without rows adds nothing, so every row of
    the frame carries a selected symbol of the portfolio. *)
Theorem get_portfolio_data_concatenates
    (get_stock : string -> option Stock)
    (fetch_metrics : list string -> Z -> Z -> Z -> result exn (list Row))
    (p : Params) (rows : Stock -> list Row) :
  (forall sym st, In sym (selected_stocks p) -> get_stock sym = Some st ->
                  fetch_metrics (resolve_fields p) (stock_id st)
                                (start_date p) (end_date p) = Ok (rows st)) ->
  get_portfolio_data get_stock fetch_metrics p
  = Ok (tagged_rows get_stock rows (selected_stocks p)) /\
  forall data r,
    get_portfolio_data get_stock fetch_metrics p = Ok data -> In r data ->
    In (stock r) (selected_stocks p) /\ get_stock (stock r) <> None.
Proof.
  intros H.
  assert (E := get_portfolio_data_all_read get_stock fetch_metrics p rows H).
  split; [exact E|].
  intros data r Hd Hr. rewrite E in Hd. injection Hd as <-.
  now apply tagged_rows_In in Hr.
Qed.

Lemma get_portfolio_data_concatenates_witness :
  get_portfolio_data sample_get_stock fetch_two_rows params_market_stocks
  = Ok [ market_row 19723 "AAA.AX" 100; market_row 19724 "AAA.AX" 110;
         market_row 19723 "BBB.AX" 100; market_row 19724 "BBB.AX" 110 ].
Proof.
  apply (proj1 (get_portfolio_data_concatenates sample_get_stock
                  fetch_two_rows params_market_stocks two_rows
                  (fun _ _ _ _ => eq_refl))).
Defined.

(** X4.  When no selected symbol yields a row (it has no backing stock,
    or its read returns nothing; the empty selection is one case),
    [get_portfolio_data] returns the empty frame, and [analyse_portfolio]
    stores it in [self.data], shows the "No Data" warning and draws
    nothing.  Symbols without a backing stock are never read. *)
Theorem no_rows_no_data
    (get_stock : string -> option Stock)
    (fetch_metrics : list string -> Z -> Z -> Z -> result exn (list Row))
    (tab_widget : option (list Tab)) (p : Params) (self_data : Frame) :
  (forall sym st, In sym (selected_stocks p) -> get_stock sym = Some st ->
                  fetch_metrics (resolve_fields p) (stock_id st)
                                (start_date p) (end_date p) = Ok []) ->
  get_portfolio_data get_stock fetch_metrics p = Ok [] /\
  analyse_portfolio get_stock fetch_metrics tab_widget self_data p
  = ([], NoDataWarning).
Proof.
  intros H.
  assert (E : get_portfolio_data get_stock fetch_metrics p = Ok []).
  { rewrite (get_portfolio_data_all_read get_stock fetch_metrics p
               (fun _ => []) H).
    now rewrite tagged_rows_nil. }
  split; [exact E|]. unfold analyse_portfolio. now rewrite E.
Qed.

Lemma no_rows_no_data_witness :
  analyse_portfolio sample_get_stock failing_fetch_metrics sample_tab_widget
                    sample_market params_unknown_symbols
  = ([], NoDataWarning).
Proof.
  apply (no_rows_no_data sample_get_stock failing_fetch_metrics
           sample_tab_widget params_unknown_symbols sample_market).
  intros sym st [<-|[<-|[]]]; discriminate.
Defined.

Lemma has_duplicate_keys_repeat a r b r' c :
  date r = date r' -> stock r = stock r' ->
  has_duplicate_keys (a ++ r :: b ++ r' :: c) = true.
Proof.
  intros Hd Hs. induction a as [|x a IH]; simpl.
  - apply orb_true_iff. left. apply existsb_exists. exists r'. split.
    + apply in_or_app. right. now left.
    + unfold has_key. rewrite Hd, Hs.
      now rewrite Z.eqb_refl, String.eqb_refl.
  - rewrite IH. apply orb_true_r.
Qed.

Lemma tagged_rows_app get_stock rows l1 l2 :
  tagged_rows get_stock rows (l1 ++ l2)
  = tagged_rows get_stock rows l1 ++ tagged_rows get_stock rows l2.
Proof. unfold tagged_rows. apply flat_map_app. Qed.

(** X5.  A symbol selected twice, with at least one row, makes the frame
    hold the same [(date, stock)] pair twice; the market-value plot then
    fails to reshape it, and [analyse_portfolio] ends with the
    "Analysis Error" message after [self.data] has been replaced by the
    fetched frame. *)
Theorem repeated_symbol_is_an_analysis_error
    (get_stock : string -> option Stock)
    (fetch_metrics : list string -> Z -> Z -> Z -> result exn (list Row))
    (tab_widget : option (list Tab))
    (p : Params) (rows : Stock -> list Row) (self_data : Frame)
    (l1 l2 l3 : list string) (sym : string) (st : Stock) :
  (forall s st, In s (selected_stocks p) -> get_stock s = Some st ->
                fetch_metrics (resolve_fields p) (stock_id st)
                              (start_date p) (end_date p) = Ok (rows st)) ->
  selected_stocks p = l1 ++ sym :: l2 ++ sym :: l3 ->
  get_stock sym = Some st ->
  rows st <> [] ->
  study_type p = "market_value" ->
  analyse_portfolio get_stock fetch_metrics tab_widget self_data p
  = (tagged_rows get_stock rows (selected_stocks p),
     AnalysisError
       (ValueError "Index contains duplicate entries, cannot reshape")).
Proof.
  intros Hread Hsel Hst Hrows Hstudy.
  unfold analyse_portfolio.
  rewrite (get_portfolio_data_all_read get_stock fetch_metrics p rows Hread).
  assert (D : has_duplicate_keys
                (tagged_rows get_stock rows (selected_stocks p))
              = true).
  { assert (S1 : tagged_rows get_stock rows [sym]
                 = map (set_stock sym) (rows st)).
    { unfold tagged_rows. simpl. rewrite Hst. apply app_nil_r. }
    rewrite Hsel.
    change (sym :: l2 ++ sym :: l3) with ([sym] ++ l2 ++ [sym] ++ l3).
    rewrite !tagged_rows_app, S1.
    destruct (rows st) as [|r rs]; [congruence|]. simpl map.
    set (a := tagged_rows get_stock rows l1).
    set (b := tagged_rows get_stock rows l2).
    set (c := tagged_rows get_stock rows l3).
    set (r' := set_stock sym r). set (rs' := map (set_stock sym) rs).
    change ((r' :: rs') ++ b ++ (r' :: rs') ++ c)
      with (r' :: (rs' ++ b ++ r' :: (rs' ++ c))).
    rewrite (app_assoc rs' b).
    apply has_duplicate_keys_repeat; reflexivity. }
  destruct (tagged_rows get_stock rows (selected_stocks p)) as [|r0 data] eqn:T.
  - discriminate D.
  - unfold plot_study. rewrite Hstudy. simpl String.eqb.
    unfold plot_market_value, unstack. rewrite D. reflexivity.
Qed.

Lemma repeated_symbol_is_an_analysis_error_witness :
  snd (analyse_portfolio sample_get_stock fetch_two_rows sample_tab_widget
         [] params_twice)
  = AnalysisError
      (ValueError "Index contains duplicate entries, cannot reshape").
Proof.
  rewrite (repeated_symbol_is_an_analysis_error sample_get_stock
             fetch_two_rows sample_tab_widget params_twice two_rows []
             [] ["BBB.AX"] [] "AAA.AX" (mkStock 7 "AAA.AX")).
  - reflexivity.
  - intros s st _ _. reflexivity.
  - reflexivity.
  - reflexivity.
  - discriminate.
  - reflexivity.
Defined.

(** ** The market-value plot *)

Section SortUniqFixpoint.
Variable A : Type.
Variable cmp : A -> A -> comparison.

Lemma sort_uniq_of_sorted l :
  StronglySorted (fun a b => cmp a b = Lt) l -> sort_uniq cmp l = l.
Proof using Type.
  induction 1 as [|x t Ht IH Hx].
  - reflexivity.
  - change (sort_uniq cmp (x :: t)) with (insert_uniq cmp x (sort_uniq cmp t)).
    rewrite IH.
    destruct t as [|y t']; [reflexivity|]. simpl.
    rewrite Forall_forall in Hx. now rewrite (Hx y (or_introl eq_refl)).
Qed.

End SortUniqFixpoint.

Lemma sort_labels_idempotent l : sort_labels (sort_labels l) = sort_labels l.
Proof.
  apply sort_uniq_of_sorted. apply sort_uniq_sorted.
  - apply string_compare_eq.
  - intros a b c Hab Hbc.
    apply String_as_OT.cmp_lt. apply String_as_OT.cmp_lt in Hab, Hbc.
    eapply String_as_OT.lt_trans; eassumption.
  - intros a b H. rewrite String.compare_antisym, H. reflexivity.
Qed.

(** The aligned frame has one column per stock, as long as the index. *)
Lemma aligned_table_shape col data :
  exists C,
    w_columns (aligned_table col data)
    = map (fun s => (s, C s)) (sort_labels (map stock data)) /\
    forall s, List.length (C s)
              = List.length (w_index (aligned_table col data)).
Proof.
  unfold aligned_table.
  destruct (sort_dates (map date data)) as [|d0 ds] eqn:Hidx.
  - exists (fun _ => []). split; [|reflexivity].
    unfold ffill, map_columns, asfreq_D, tabulate. simpl.
    rewrite map_map. reflexivity.
  - rewrite (aligned_frame col data _ d0 ds Hidx). simpl.
    eexists (fun s => _). split; [reflexivity|].
    intros s. simpl. now rewrite ffill_from_length, length_map.
Qed.

Lemma combine_index (idx : list Z) (cells : list cell) :
  List.length cells = List.length idx -> map fst (combine idx cells) = idx.
Proof.
  revert cells. induction idx as [|d t IH]; intros cells H.
  - reflexivity.
  - destruct cells as [|c cs]; [discriminate|]. simpl.
    f_equal. apply IH. now injection H.
Qed.

Lemma sum_axis1_nth_from w idx a i :
  (i < List.length idx)%nat ->
  nth_error
    (map (fun id : nat * Z =>
            (snd id, Val (sum_skipna (row_cells w (fst id)))))
         (combine (seq a (List.length idx)) idx)) i
  = Some (nth i idx 0, Val (sum_skipna (row_cells w (a + i)))).
Proof.
  revert a i. induction idx as [|d t IH]; intros a i H; simpl in H.
  - lia.
  - destruct i as [|i]; simpl.
    + now rewrite Nat.add_0_r.
    + rewrite IH by lia. now rewrite Nat.add_succ_r.
Qed.

Lemma sum_axis1_index w : map fst (sum_axis1 w) = w_index w.
Proof.
  unfold sum_axis1. rewrite map_map. simpl.
  generalize 0%nat. induction (w_index w) as [|d t IH]; intros a; simpl.
  - reflexivity.
  - now rewrite IH.
Qed.

Lemma sum_skipna_ext {X : Type} (f g : X -> cell) l :
  (forall x, In x l -> fillna0 (f x) = fillna0 (g x)) ->
  sum_skipna (map f l) = sum_skipna (map g l).
Proof.
  induction l as [|x t IH]; intros H; simpl.
  - reflexivity.
  - rewrite (H x (or_introl eq_refl)), IH; [reflexivity|].
    intros y Hy. apply H. now right.
Qed.

Lemma fillna0_nth_filled i cells :
  fillna0 (nth i (map (fun c => Val (fillna0 c)) cells) NaN)
  = fillna0 (nth i cells NaN).
Proof.
  revert i. induction cells as [|c t IH]; intros i; simpl.
  - now destruct i.
  - destruct i as [|i]; [reflexivity | apply IH].
Qed.

Lemma plot_market_value_aligned data p :
  has_duplicate_keys data = false ->
  plot_market_value data p
  = let plot_data := aligned_table market_value data in
    if view_type p =s? "individual_stocks" then
      Ok (flat_map
            (fun sym =>
               match dict_get (w_columns plot_data) sym with
               | Some cells => [Line sym (combine (w_index plot_data) cells)]
               | None => []
               end)
            (selected_stocks p))
    else if chart_type p =s? "line_chart" then
      Ok [Line "Total Portfolio" (sum_axis1 plot_data)]
    else if chart_type p =s? "stacked_area" then
      Ok [StackPlot (w_index (fillna_wide plot_data))
            (map (fun s =>
                    (s, match dict_get (w_columns (fillna_wide plot_data)) s
                        with
                        | Some cells => cells
                        | None => []
                        end))
                 (sort_labels (map fst (w_columns (fillna_wide plot_data)))))]
    else Ok [].
Proof.
  intros Hnd. unfold plot_market_value.
  rewrite (unstack_tabulate _ _ Hnd). reflexivity.
Qed.

Lemma fillna_wide_columns w (C : string -> list cell) labels :
  w_columns w = map (fun s => (s, C s)) labels ->
  w_columns (fillna_wide w)
  = map (fun s => (s, map (fun c => Val (fillna0 c)) (C s))) labels.
Proof.
  intros H. unfold fillna_wide, map_columns. simpl.
  rewrite H, map_map. reflexivity.
Qed.

(** X6.  In the individual-stocks view of the market-value plot there is
    one line per selected symbol that has rows in the frame, in selection
    order; a selected symbol without rows is skipped.  Each line runs
    over the whole aligned calendar. *)
Theorem market_value_lines_follow_selection (data : Frame) (p : Params) :
  has_duplicate_keys data = false ->
  view_type p = "individual_stocks" ->
  exists lines,
    plot_market_value data p = Ok lines /\
    map artist_label lines
    = filter (fun sym => mem_string sym (map stock data)) (selected_stocks p) /\
    forall label points,
      In (Line label points) lines ->
      map fst points = w_index (aligned_table market_value data).
Proof.
  intros Hnd Hv. rewrite (plot_market_value_aligned data p Hnd).
  cbv zeta. rewrite Hv. simpl String.eqb. cbv iota.
  destruct (aligned_table_shape market_value data) as (C & Hcols & Hlen).
  rewrite Hcols.
  set (idx := w_index (aligned_table market_value data)) in *.
  eexists. split; [reflexivity|].
  induction (selected_stocks p) as [|sym rest IH]; simpl.
  - split; [reflexivity | intros ? ? []].
  - destruct IH as [IHl IHp].
    destruct (mem_string sym (map stock data)) eqn:M.
    + apply mem_string_In in M.
      rewrite (dict_get_tabulated C _ _
                 (proj2 (sort_labels_In _ _) M)). simpl.
      split; [now rewrite IHl|].
      intros label points [E|Hin].
      * injection E as _ <-. apply combine_index. apply Hlen.
      * now apply (IHp label).
    + apply mem_string_false in M.
      rewrite (dict_get_tabulated_absent C).
      2:{ intros H. apply M. now apply sort_labels_In. }
      simpl. split; [exact IHl | exact IHp].
Qed.

Lemma market_value_lines_follow_selection_witness :
  exists lines,
    plot_market_value sample_market params_market_three = Ok lines /\
    map artist_label lines = ["BBB.AX"; "AAA.AX"].
Proof.
  destruct (market_value_lines_follow_selection sample_market
              params_market_three eq_refl eq_refl) as (lines & E & L & _).
  exists lines. split; [exact E | exact L].
Defined.

(** X7.  The stacked-area chart has one layer per stock, in sorted order
    of the symbols, each as long as the calendar and without any missing
    cell (an unset leading period counts as 0); on every day the layers
    add up to the value the line chart shows as the portfolio total. *)
Theorem stacked_layers_add_up_to_total (data : Frame) (p p' : Params) :
  has_duplicate_keys data = false ->
  view_type p <> "individual_stocks" -> chart_type p = "stacked_area" ->
  view_type p' <> "individual_stocks" -> chart_type p' = "line_chart" ->
  let idx := w_index (aligned_table market_value data) in
  exists layers total,
    plot_market_value data p = Ok [StackPlot idx layers] /\
    plot_market_value data p' = Ok [Line "Total Portfolio" total] /\
    map fst layers = sort_labels (map stock data) /\
    map fst total = idx /\
    (forall s cells, In (s, cells) layers ->
                     List.length cells = List.length idx /\
                     forall c, In c cells -> c <> NaN) /\
    (forall i, (i < List.length idx)%nat ->
               nth i (map snd total) NaN
               = Val (sum_skipna (map (fun l => nth i (snd l) NaN) layers))).
Proof.
  intros Hnd Hv Hc Hv' Hc' idx.
  destruct (aligned_table_shape market_value data) as (C & Hcols & Hlen).
  fold idx in Hlen.
  exists (map (fun s => (s, map (fun c => Val (fillna0 c)) (C s)))
              (sort_labels (map stock data))).
  exists (sum_axis1 (aligned_table market_value data)).
  apply String.eqb_neq in Hv, Hv'.
  split; [|split; [|split; [|split; [|split]]]].
  - rewrite (plot_market_value_aligned data p Hnd).
    cbv zeta. rewrite Hv, Hc. simpl String.eqb. cbv iota.
    rewrite (fillna_wide_columns _ C _ Hcols).
    change (w_index (fillna_wide (aligned_table market_value data)))
      with idx.
    rewrite map_map. simpl fst. rewrite map_id.
    rewrite sort_labels_idempotent. do 3 f_equal.
    apply map_ext_in. intros s Hs.
    now rewrite (dict_get_tabulated
                   (fun s => map (fun c => Val (fillna0 c)) (C s)) _ _ Hs).
  - rewrite (plot_market_value_aligned data p' Hnd).
    cbv zeta. rewrite Hv', Hc'. reflexivity.
  - rewrite map_map. simpl. apply map_id.
  - apply sum_axis1_index.
  - intros s cells Hin. apply in_map_iff in Hin.
    destruct Hin as (s0 & E & _). injection E as <- <-. split.
    + now rewrite length_map.
    + intros c Hin. apply in_map_iff in Hin.
      destruct Hin as (c0 & <- & _). discriminate.
  - intros i Hi. fold idx in Hi.
    assert (N : nth_error (sum_axis1 (aligned_table market_value data)) i
                = Some (nth i idx 0,
                        Val (sum_skipna
                               (row_cells (aligned_table market_value data)
                                          i)))).
    { unfold sum_axis1. fold idx.
      now rewrite (sum_axis1_nth_from _ idx 0 i Hi). }
    rewrite (nth_error_nth _ _ NaN (map_nth_error snd _ _ N)). simpl.
    f_equal. unfold row_cells. rewrite Hcols, !map_map. simpl.
    apply sum_skipna_ext. intros s _. symmetry. apply fillna0_nth_filled.
Qed.

Lemma stacked_layers_add_up_to_total_witness :
  exists layers total,
    plot_market_value sample_market params_market_stacked
    = Ok [StackPlot [19723; 19724] layers] /\
    plot_market_value sample_market params_market_total
    = Ok [Line "Total Portfolio" total] /\
    nth 1 (map snd total) NaN
    = Val (sum_skipna (map (fun l => nth 1 (snd l) NaN) layers)).
Proof.
  destruct (stacked_layers_add_up_to_total sample_market
              params_market_stacked params_market_total eq_refl)
    as (layers & total & E1 & E2 & _ & _ & _ & H); try discriminate;
    try reflexivity.
  exists layers, total. split; [exact E1|]. split; [exact E2|].
  apply H. simpl. lia.
Defined.

(** ** The profitability plot, one line per stock *)

Lemma map_result_first_raise {A B : Type} (f : A -> result exn B) e l :
  (forall x, In x l -> f x = Raise e \/ exists y, f x = Ok y) ->
  (exists x, In x l /\ f x = Raise e) ->
  map_result f l = Raise e.
Proof.
  induction l as [|x t IH]; intros Hall (x0 & Hin & Hx0).
  - destruct Hin.
  - simpl. destruct (Hall x (or_introl eq_refl)) as [E|[y E]]; rewrite E.
    + reflexivity.
    + simpl. rewrite IH; [reflexivity | |].
      * intros z Hz. apply Hall. now right.
      * destruct Hin as [<-|Hin]; [congruence|]. now exists x0.
Qed.

Lemma stock_rows_present sym data :
  In sym (map stock data) -> stock_rows sym data <> [].
Proof.
  unfold stock_rows. intros H. apply in_map_iff in H.
  destruct H as (r & Hs & Hr).
  assert (Hf : In r (filter (fun r => stock r =s? sym) data)).
  { apply filter_In. split; [assumption | now apply String.eqb_eq]. }
  intros E. rewrite E in Hf. destruct Hf.
Qed.

Lemma zero_at_start_date_nonempty (ys : Series) :
  ys <> [] -> exists out, zero_at_start_date ys = Ok out.
Proof.
  destruct ys as [|y t]; [congruence|]. intros _.
  unfold zero_at_start_date. simpl. eexists. reflexivity.
Qed.

(** X8.  In the individual-stocks view of the profitability plot there
    is one line per selected symbol, in selection order, also for a symbol
    without rows (its line is empty).  When the series are zeroed at the
    start date (cumulative period with [zero_at_start]), a selected symbol
    without rows makes the whole plot fail with [IndexError], since its
    series has no first value; when every selected symbol has rows the
    plot succeeds. *)
Theorem profitability_lines_per_selected_stock (data : Frame) (p : Params) :
  view_type p = "individual_stocks" ->
  (get_zero_at_start p = false \/ calculation_type p <> "cumulative" ->
   exists lines,
     plot_profitability data p = Ok lines /\
     map artist_label lines = selected_stocks p) /\
  (get_zero_at_start p = true -> calculation_type p = "cumulative" ->
   (exists sym, In sym (selected_stocks p) /\ ~ In sym (map stock data)) ->
   plot_profitability data p = Raise IndexError) /\
  (get_zero_at_start p = true -> calculation_type p = "cumulative" ->
   (forall sym, In sym (selected_stocks p) -> In sym (map stock data)) ->
   exists lines,
     plot_profitability data p = Ok lines /\
     map artist_label lines = selected_stocks p).
Proof.
  intros Hv. unfold plot_profitability. rewrite Hv. simpl String.eqb.
  cbv iota zeta. split; [|split].
  - intros H.
    assert (Z : get_zero_at_start p && (calculation_type p =s? "cumulative")
                = false).
    { destruct H as [->|H]; [reflexivity|].
      apply String.eqb_neq in H. rewrite H. apply andb_false_r. }
    rewrite Z.
    induction (selected_stocks p) as [|sym rest IH]; simpl.
    + exists []. split; reflexivity.
    + destruct IH as (lines & E & L).
      destruct (map_result _ rest) as [ls|e] eqn:M; [|discriminate].
      simpl in E. injection E as <-.
      eexists. split; [reflexivity|]. simpl. now rewrite L.
  - intros Hz Hc (sym & Hsel & Hno). rewrite Hz, Hc. simpl andb.
    assert (R : map_result
                  (fun sym =>
                     let* y_values :=
                       zero_at_start_date
                         (map (fun r =>
                                 (date r,
                                  profitability_metric (chart_type p)
                                    "cumulative" r))
                              (filter (fun r => stock r =s? sym) data)) in
                     Ok (Line sym y_values))
                  (selected_stocks p) = Raise IndexError).
    { apply map_result_first_raise.
      - intros x _.
        destruct (filter (fun r => stock r =s? x) data) as [|r rs];
          [now left | right; eexists; reflexivity].
      - exists sym. split; [assumption|].
        fold (stock_rows sym data).
        now rewrite (stock_rows_absent sym data Hno). }
    simpl in R |- *. rewrite R. reflexivity.
  - intros Hz Hc Hall. rewrite Hz, Hc. simpl andb. cbv iota.
    induction (selected_stocks p) as [|sym rest IH]; simpl.
    + exists []. split; reflexivity.
    + destruct IH as (lines & E & L).
      { intros s Hs. apply Hall. now right. }
      destruct (map_result _ rest) as [ls|e] eqn:M; [|discriminate].
      simpl in E. injection E as <-.
      pose proof (stock_rows_present sym data (Hall sym (or_introl eq_refl)))
        as Hne.
      unfold stock_rows in Hne.
      destruct (filter (fun r => stock r =s? sym) data) as [|r rs];
        [congruence|].
      eexists. split; [reflexivity|]. simpl. now rewrite L.
Qed.

Lemma profitability_lines_per_selected_stock_witness :
  plot_profitability sample_returns
    (params_returns_stocks true ["AAA.AX"; "CCC.AX"])
  = Raise IndexError /\
  (exists lines,
      plot_profitability sample_returns
        (params_returns_stocks false ["AAA.AX"; "CCC.AX"]) = Ok lines /\
      map artist_label lines = ["AAA.AX"; "CCC.AX"]).
Proof.
  split.
  - apply (proj1 (proj2 (profitability_lines_per_selected_stock
                           sample_returns
                           (params_returns_stocks true ["AAA.AX"; "CCC.AX"])
                           eq_refl))).
    + reflexivity.
    + reflexivity.
    + exists "CCC.AX". split; [simpl; tauto|].
      simpl. intros [H|[H|[H|[]]]]; discriminate.
  - apply (proj1 (profitability_lines_per_selected_stock
                    sample_returns
                    (params_returns_stocks false ["AAA.AX"; "CCC.AX"])
                    eq_refl)).
    left. reflexivity.
Defined.

(** ** The dividend plot *)

(** X9.  The DRP dollar columns exist only for the chart types ['drp']
    and ['combined']; with any chart type other than ['cash'], ['drp'] and
    ['combined'] the combined branch is entered without them and
    [plot_dividends] fails with a [KeyError] on the DRP column of the
    period, or with the reshape error when the frame repeats a
    [(date, stock)] pair. *)
Theorem dividends_unknown_chart_type (data : Frame) (p : Params) :
  chart_type p <> "cash" -> chart_type p <> "drp" ->
  chart_type p <> "combined" ->
  plot_dividends data p
  = if has_duplicate_keys data
    then Raise (ValueError "Index contains duplicate entries, cannot reshape")
    else Raise (KeyError (if time_period p =s? "cumulative"
                          then "drp_value_total" else "drp_value")).
Proof.
  intros H1 H2 H3. apply String.eqb_neq in H1, H2, H3.
  unfold plot_dividends, dividend_frame, mem_string. simpl existsb.
  rewrite H1, H2, H3. simpl orb. cbv iota.
  unfold unstack. destruct (has_duplicate_keys data); reflexivity.
Qed.

Lemma dividends_unknown_chart_type_witness :
  plot_dividends sample_dividends (params_dividends_chart "total" "daily")
  = Raise (KeyError "drp_value").
Proof.
  apply (dividends_unknown_chart_type sample_dividends
           (params_dividends_chart "total" "daily")); discriminate.
Defined.

(** The frame after [asfreq('D')] and [ffill], for any table. *)
Lemma aligned_tabulate idx labels F d0 ds :
  idx = d0 :: ds ->
  let lo := fold_left Z.min ds d0 in
  let hi := fold_left Z.max ds d0 in
  let G := fun d s => match index_pos d idx with
                      | Some _ => F d s
                      | None => NaN
                      end in
  ffill (asfreq_D (tabulate idx labels F))
  = mkWide (day_range lo hi)
      (map (fun s =>
              (s, ffill_from NaN (map (fun d => G d s) (day_range lo hi))))
           labels).
Proof.
  intros -> lo hi G. unfold ffill, map_columns, asfreq_D, tabulate. simpl.
  fold lo hi. f_equal. rewrite !map_map. apply map_ext. intros s. simpl.
  f_equal. f_equal. unfold reindex_column. apply map_ext. intros d.
  unfold G. destruct (index_pos d (d0 :: ds)) as [i|] eqn:P.
  - apply index_pos_nth in P.
    apply (map_nth_error (fun d => F d s)) in P.
    exact (nth_error_nth _ _ NaN P).
  - reflexivity.
Qed.

(** A cell that holds a number on a day of the index is not touched by
    reindexing and forward fill. *)
Lemma aligned_keeps_valid idx labels F d s q :
  In d idx -> In s labels -> F d s = Val q ->
  wide_at (ffill (asfreq_D (tabulate idx labels F))) d s = Some (Val q).
Proof.
  intros Hd Hs Hq. destruct idx as [|d0 ds]; [destruct Hd|].
  rewrite (aligned_tabulate (d0 :: ds) labels F d0 ds eq_refl).
  destruct (fold_min_spec ds d0) as [_ Hmin].
  destruct (fold_max_spec ds d0) as [_ Hmax].
  set (lo := fold_left Z.min ds d0) in *.
  set (hi := fold_left Z.max ds d0) in *.
  assert (L := Hmin d Hd). assert (U := Hmax d Hd).
  unfold wide_at. cbn [w_columns w_index].
  rewrite (dict_get_tabulated
             (fun s => ffill_from NaN
                         (map (fun d => match index_pos d (d0 :: ds) with
                                        | Some _ => F d s
                                        | None => NaN
                                        end) (day_range lo hi))) _ _ Hs).
  rewrite day_range_days.
  assert (HIn : In d (days lo (Z.to_nat (hi - lo + 1))))
    by (apply days_In; lia).
  destruct (index_pos_In d _ HIn) as (i & -> & Hn).
  apply ffill_from_keeps_valid.
  rewrite nth_error_map, Hn. cbn [option_map].
  destruct (index_pos_In d (d0 :: ds) Hd) as (k & -> & _). now rewrite Hq.
Qed.

Lemma fillna_wide_tabulate idx labels f :
  fillna_wide (tabulate idx labels f)
  = tabulate idx labels (fun d s => Val (fillna0 (f d s))).
Proof. apply map_columns_tabulate. Qed.

(** X10.  In the cumulative combined dividend view, missing cells are
    replaced by 0 before the forward fill; so on every date of the frame
    the plotted cell of a stock is exactly its cash running total plus its
    DRP running value on that date, and a stock without a row on such a
    date shows 0 there: its earlier totals are not carried forward.  In
    the cumulative cash view the same cell carries the most recent
    running total. *)
Theorem combined_cumulative_is_not_carried (data : Frame) (p p' : Params) :
  has_duplicate_keys data = false ->
  chart_type p = "combined" -> time_period p = "cumulative" ->
  chart_type p' = "cash" -> time_period p' = "cumulative" ->
  exists w w',
    dividend_frame data p = Ok w /\
    dividend_frame data p' = Ok w' /\
    (forall d s,
        In d (map date data) -> In s (map stock data) ->
        wide_at w d s
        = Some (Val (fillna0 (cell_at cash_dividends_total data d s)
                     + fillna0 (cell_at drp_value_total data d s))%Q)) /\
    (forall d s,
        In d (map date data) -> In s (map stock data) ->
        (forall r, In r data -> stock r = s -> date r <> d) ->
        wide_at w d s = Some (Val (0 + 0)%Q)) /\
    (forall d r v,
        In d (map date data) -> In r data -> date r <= d ->
        cash_dividends_total r = Val v ->
        (forall r', In r' data -> stock r' = stock r -> date r < date r' <= d ->
                    cash_dividends_total r' = NaN) ->
        wide_at w' d (stock r) = Some (Val v)).
Proof.
  intros Hnd Hc Ht Hc' Ht'.
  set (idx := sort_dates (map date data)).
  set (labels := sort_labels (map stock data)).
  set (F := fun d s =>
              cell_add
                (aligned_cell
                   (tabulate idx labels
                      (fun d s =>
                         Val (fillna0 (cell_at cash_dividends_total data d s))))
                   d s)
                (aligned_cell
                   (tabulate idx labels
                      (fun d s =>
                         Val (fillna0 (cell_at drp_value_total data d s))))
                   d s)).
  exists (ffill (asfreq_D (tabulate (sort_dates (idx ++ idx))
                                    (sort_labels (labels ++ labels)) F))).
  exists (aligned_table cash_dividends_total data).
  assert (Hcell : forall d s,
             In d (map date data) -> In s (map stock data) ->
             wide_at (ffill (asfreq_D (tabulate (sort_dates (idx ++ idx))
                                         (sort_labels (labels ++ labels)) F)))
                     d s
             = Some (Val (fillna0 (cell_at cash_dividends_total data d s)
                          + fillna0 (cell_at drp_value_total data d s))%Q)).
  { intros d s Hd Hs.
    assert (Hd' : In d idx) by now apply sort_dates_In.
    assert (Hs' : In s labels) by now apply sort_labels_In.
    apply aligned_keeps_valid.
    - apply sort_dates_In. apply in_or_app. now left.
    - apply sort_labels_In. apply in_or_app. now left.
    - unfold F. rewrite !aligned_cell_tabulate.
      destruct (in_dec Z.eq_dec d idx) as [_|N]; [|contradiction].
      destruct (in_dec string_dec s labels) as [_|N]; [|contradiction].
      reflexivity. }
  split; [|split; [|split; [|split]]].
  - unfold dividend_frame. rewrite Hc, Ht. simpl.
    rewrite !(unstack_tabulate _ _ Hnd). simpl bind.
    rewrite !fillna_wide_tabulate, wide_add_tabulate, !tabulate_labels.
    reflexivity.
  - unfold dividend_frame. rewrite Hc', Ht'. simpl.
    rewrite (unstack_tabulate _ _ Hnd). reflexivity.
  - exact Hcell.
  - intros d s Hd Hs Hno. rewrite (Hcell d s Hd Hs).
    rewrite !cell_at_missing; [reflexivity | |];
      intros r Hr Hdr Hsr; exfalso; now apply (Hno r Hr Hsr).
  - intros d r v Hd Hr Hle Hv Hlater.
    apply (aligned_most_recent cash_dividends_total data Hnd d r v);
      try assumption.
    apply aligned_index. apply in_map_iff in Hd.
    destruct Hd as (r0 & <- & Hr0). exists r0, r0.
    repeat split; trivial; lia.
Qed.

Lemma combined_cumulative_is_not_carried_witness :
  exists w w',
    dividend_frame sample_cash_totals
                   (params_dividends_chart "combined" "cumulative") = Ok w /\
    dividend_frame sample_cash_totals
                   (params_dividends_chart "cash" "cumulative") = Ok w' /\
    wide_at w 19724 "AAA.AX" = Some (Val (0 + 0)%Q) /\
    wide_at w' 19724 "AAA.AX" = Some (Val 5).
Proof.
  destruct (combined_cumulative_is_not_carried sample_cash_totals
              (params_dividends_chart "combined" "cumulative")
              (params_dividends_chart "cash" "cumulative")
              eq_refl eq_refl eq_refl eq_refl eq_refl)
    as (w & w' & E & E' & _ & Hzero & Hcarry).
  exists w, w'. split; [exact E|]. split; [exact E'|]. split.
  - apply Hzero; simpl; try tauto.
    intros r [<-|[<-|[]]]; simpl; intros; try discriminate; lia.
  - apply (Hcarry 19724 (dividend_row 19723 5 5 0 0) 5%Q);
      simpl; try tauto; try lia.
    intros r' [<-|[<-|[]]]; simpl; intros; try discriminate; lia.
Defined.

Section SortUniqPresent.
Variable A : Type.
Variable cmp : A -> A -> comparison.
Hypothesis cmp_eq : forall a b, cmp a b = Eq <-> a = b.
Hypothesis cmp_lt_gt : forall a b, cmp a b = Lt -> cmp b a = Gt.

Lemma insert_uniq_present x l :
  StronglySorted (fun a b => cmp a b = Lt) l -> In x l ->
  insert_uniq cmp x l = l.
Proof using cmp_eq cmp_lt_gt.
  induction 1 as [|y t Ht IH Hy]; intros Hin; simpl.
  - destruct Hin.
  - destruct Hin as [->|Hin].
    + now rewrite (proj2 (cmp_eq x x) eq_refl).
    + rewrite Forall_forall in Hy.
      rewrite (cmp_lt_gt y x (Hy x Hin)). now rewrite IH.
Qed.

Lemma insert_all_present base l :
  StronglySorted (fun a b => cmp a b = Lt) base ->
  (forall x, In x l -> In x base) ->
  fold_right (insert_uniq cmp) base l = base.
Proof using cmp_eq cmp_lt_gt.
  intros Hs. induction l as [|x t IH]; intros H; simpl.
  - reflexivity.
  - rewrite IH by (intros y Hy; apply H; now right).
    apply insert_uniq_present; [assumption | apply H; now left].
Qed.

End SortUniqPresent.

Lemma sort_dates_sorted l :
  StronglySorted (fun a b => Z.compare a b = Lt) (sort_dates l).
Proof.
  apply sort_uniq_sorted.
  - intros a b. apply Z.compare_eq_iff.
  - intros a b c Hab Hbc. rewrite Z.compare_lt_iff in *. lia.
  - intros a b H. rewrite Z.compare_gt_iff in H.
    rewrite Z.compare_lt_iff. lia.
Qed.

(** The union of an index with itself is that index. *)
Lemma sort_dates_twice l :
  sort_dates (sort_dates l ++ sort_dates l) = sort_dates l.
Proof.
  unfold sort_dates at 1. unfold sort_uniq. rewrite fold_right_app.
  fold (sort_uniq Z.compare (sort_dates l)).
  rewrite (sort_uniq_of_sorted Z Z.compare (sort_dates l)
             (sort_dates_sorted l)).
  apply insert_all_present.
  - intros a b. apply Z.compare_eq_iff.
  - intros a b H. rewrite Z.compare_lt_iff in H.
    rewrite Z.compare_gt_iff. lia.
  - apply sort_dates_sorted.
  - auto.
Qed.

(** ** Pivoting and summing, against grouping and summing *)

Lemma sum_skipna_restrict (F : string -> cell) L :
  forall M,
    NoDup L -> NoDup M ->
    (forall s, In s M -> In s L) ->
    (forall s, In s L -> ~ In s M -> fillna0 (F s) = 0%Q) ->
    (sum_skipna (map F L) == sum_skipna (map F M))%Q.
Proof.
  induction L as [|x L IH]; intros M HL HM Hsub Hzero.
  - destruct M as [|m M]; [reflexivity|].
    destruct (Hsub m (or_introl eq_refl)).
  - inversion HL as [|? ? HxL HL']; subst.
    destruct (in_dec string_dec x M) as [HxM|HxM].
    + destruct (in_split x M HxM) as (M1 & M2 & ->).
      assert (HM' : NoDup (M1 ++ M2)) by (eapply NoDup_remove_1; exact HM).
      assert (HxM' : ~ In x (M1 ++ M2)) by (eapply NoDup_remove_2; exact HM).
      rewrite (sum_skipna_perm F (M1 ++ x :: M2) (x :: M1 ++ M2))
        by (symmetry; apply Permutation_middle).
      simpl.
      rewrite (IH (M1 ++ M2)); [reflexivity | assumption | assumption | |].
      * intros s Hs.
        assert (Hs' : In s (M1 ++ x :: M2)).
        { apply in_app_or in Hs. apply in_or_app. simpl. tauto. }
        destruct (Hsub s Hs') as [<-|H]; [contradiction | exact H].
      * intros s Hs Hn. apply Hzero; [now right|].
        intros H. apply in_app_or in H. apply Hn. apply in_or_app.
        destruct H as [H|[<-|H]]; [tauto | contradiction | tauto].
    + simpl. rewrite (Hzero x (or_introl eq_refl) HxM).
      rewrite (IH M); [ring | assumption | assumption | |].
      * intros s Hs. destruct (Hsub s Hs) as [<-|H]; [contradiction | exact H].
      * intros s Hs Hn. apply Hzero; [now right | exact Hn].
Qed.

(** Summing the cells of a date over the stock columns of the pivoted
    frame is summing over the rows of that date. *)
Lemma pivot_sum_is_group_sum col data d :
  has_duplicate_keys data = false ->
  (sum_skipna (map (cell_at col data d) (sort_labels (map stock data)))
   == group_sum col data d)%Q.
Proof.
  intros Hnd.
  rewrite (sum_skipna_restrict (cell_at col data d)
             (sort_labels (map stock data))
             (map stock (filter (fun r => date r =? d) data))).
  - unfold group_sum. rewrite map_map.
    erewrite map_ext_in; [reflexivity|].
    intros r Hr. apply filter_In in Hr. destruct Hr as [Hr E].
    apply Z.eqb_eq in E. rewrite <- E. now apply cell_at_row.
  - apply sort_labels_NoDup.
  - now apply day_stocks_NoDup.
  - intros s Hs. apply sort_labels_In. apply in_map_iff in Hs.
    destruct Hs as (r & <- & Hr). apply filter_In in Hr. apply in_map. tauto.
  - intros s _ Hn. rewrite cell_at_missing; [reflexivity|].
    intros r Hr Hd Hs. exfalso. apply Hn. apply in_map_iff.
    exists r. split; [assumption|]. apply filter_In.
    split; [assumption | now apply Z.eqb_eq].
Qed.

Lemma sum_axis1_tabulate idx labels F d :
  In d idx ->
  series_get (sum_axis1 (tabulate idx labels F)) d
  = Val (sum_skipna (map (F d) labels)).
Proof.
  intros Hd. destruct (index_pos_In d idx Hd) as (i & Hi & _).
  unfold series_get.
  rewrite (sum_axis1_find (tabulate idx labels F) d i Hi). simpl snd.
  rewrite (row_cells_aligned (tabulate idx labels F)
             (fun s => map (fun d => F d s) idx) labels d i eq_refl Hi).
  f_equal. f_equal. apply map_ext_in. intros s Hs.
  unfold aligned_cell. now rewrite wide_at_tabulate.
Qed.

Lemma sum_skipna_add (f g : string -> cell) l :
  (sum_skipna (map (fun s => Val (fillna0 (f s) + fillna0 (g s))%Q) l)
   == sum_skipna (map f l) + sum_skipna (map g l))%Q.
Proof.
  induction l as [|x t IH]; simpl.
  - ring.
  - rewrite IH. ring.
Qed.

(** X11.  In the period (non-cumulative) dividend views the portfolio
    total is, on every date of the frame, the sum over the rows of that
    date: of [cash_dividend] for the cash chart, of
    [drp_share * close_price] for the DRP chart, and of both for the
    combined chart.  Pivoting to one column per stock and summing the
    columns loses nothing and adds nothing. *)
Theorem period_dividend_total_is_date_sum (data : Frame) (p : Params) :
  has_duplicate_keys data = false ->
  view_type p <> "individual_stocks" ->
  time_period p <> "cumulative" ->
  (chart_type p = "cash" ->
   exists ys,
     plot_dividends data p = Ok [Line "Portfolio Total" ys] /\
     map fst ys = sort_dates (map date data) /\
     forall d, In d (map date data) ->
               cell_eq (series_get ys d)
                       (Val (group_sum cash_dividend data d))) /\
  (chart_type p = "drp" ->
   exists ys,
     plot_dividends data p = Ok [Line "Portfolio Total" ys] /\
     map fst ys = sort_dates (map date data) /\
     forall d, In d (map date data) ->
               cell_eq (series_get ys d)
                       (Val (group_sum drp_value data d))) /\
  (chart_type p = "combined" ->
   exists ys,
     plot_dividends data p = Ok [Line "Total Dividends" ys] /\
     map fst ys = sort_dates (map date data) /\
     forall d, In d (map date data) ->
               cell_eq (series_get ys d)
                       (Val (group_sum cash_dividend data d
                             + group_sum drp_value data d)%Q)).
Proof.
  intros Hnd Hv Ht. apply String.eqb_neq in Hv, Ht.
  split; [|split].
  - intros Hc. eexists. split; [|split].
    + unfold plot_dividends, dividend_frame. rewrite Hc, Ht, Hv. simpl.
      rewrite (unstack_tabulate _ _ Hnd). reflexivity.
    + apply sum_axis1_index.
    + intros d Hd. rewrite sum_axis1_tabulate by now apply sort_dates_In.
      simpl. now apply pivot_sum_is_group_sum.
  - intros Hc. eexists. split; [|split].
    + unfold plot_dividends, dividend_frame. rewrite Hc, Ht, Hv. simpl.
      rewrite (unstack_tabulate _ _ Hnd). reflexivity.
    + apply sum_axis1_index.
    + intros d Hd. rewrite sum_axis1_tabulate by now apply sort_dates_In.
      simpl. now apply pivot_sum_is_group_sum.
  - intros Hc. eexists. split; [|split].
    + unfold plot_dividends, dividend_frame. rewrite Hc, Ht, Hv. simpl.
      rewrite !(unstack_tabulate _ _ Hnd). simpl bind.
      rewrite !fillna_wide_tabulate, wide_add_tabulate, !tabulate_labels.
      reflexivity.
    + rewrite sum_axis1_index. simpl w_index.
      apply sort_dates_twice.
    + intros d Hd. simpl w_index.
      assert (Hd' : In d (sort_dates (map date data)))
        by now apply sort_dates_In.
      rewrite sum_axis1_tabulate.
      2:{ apply sort_dates_In. apply in_or_app. now left. }
      simpl.
      rewrite <- (pivot_sum_is_group_sum cash_dividend data d Hnd).
      rewrite <- (pivot_sum_is_group_sum drp_value data d Hnd).
      rewrite <- sum_skipna_add.
      rewrite (sum_skipna_perm _ _ (sort_labels (map stock data))).
      2:{ apply NoDup_Permutation;
            [apply sort_labels_NoDup | apply sort_labels_NoDup |].
          intros s. split; intros H.
          - apply (proj1 (sort_labels_In _ _)) in H.
            apply in_app_or in H. tauto.
          - apply sort_labels_In. apply in_or_app. now left. }
      erewrite (map_ext_in _ _ (sort_labels (map stock data)));
        [reflexivity|].
      intros s Hs. simpl. rewrite !aligned_cell_tabulate.
      destruct (in_dec Z.eq_dec d _) as [_|N]; [|contradiction].
      destruct (in_dec string_dec s _) as [_|N]; [|contradiction].
      reflexivity.
Qed.

Lemma period_dividend_total_is_date_sum_witness :
  exists ys,
    plot_dividends sample_dividends (params_dividends_chart "combined" "daily")
    = Ok [Line "Total Dividends" ys] /\
    cell_eq (series_get ys 19724)
            (Val (group_sum cash_dividend sample_dividends 19724
                  + group_sum drp_value sample_dividends 19724)%Q).
Proof.
  destruct (proj2 (proj2 (period_dividend_total_is_date_sum sample_dividends
                            (params_dividends_chart "combined" "daily")
                            eq_refl
                            ltac:(discriminate) ltac:(discriminate)))
              eq_refl) as (ys & E & _ & H).
  exists ys. split; [exact E|]. apply H. simpl. tauto.
Defined.

(** ** The statistics of the distribution branch *)

Lemma sum_skipna_Qsum {X : Type} (col : X -> cell) l :
  sum_skipna (map col l) = Qsum (map (fun r => fillna0 (col r)) l).
Proof. induction l as [|x t IH]; simpl; [reflexivity | now rewrite IH]. Qed.

Lemma Qsum_indicator (x : string) (c : Q) L :
  NoDup L -> In x L ->
  (Qsum (map (fun s => if x =s? s then c else 0%Q) L) == c)%Q.
Proof.
  induction L as [|y L IH]; intros Hnd Hin.
  - destruct Hin.
  - inversion Hnd as [|? ? Hy HL]; subst. simpl.
    destruct (x =s? y) eqn:E.
    + apply String.eqb_eq in E. subst.
      assert (Z : (Qsum (map (fun s => if y =s? s then c else 0%Q) L) == 0)%Q).
      { clear IH Hin Hnd HL. induction L as [|z L IHL]; simpl.
        - reflexivity.
        - destruct (y =s? z) eqn:E.
          + apply String.eqb_eq in E. subst. exfalso. apply Hy. now left.
          + rewrite IHL; [ring|]. intros H. apply Hy. now right. }
      rewrite Z. ring.
    + destruct Hin as [->|Hin]; [rewrite String.eqb_refl in E; discriminate|].
      rewrite (IH HL Hin). ring.
Qed.

Lemma Qsum_plus {X : Type} (f g : X -> Q) l :
  (Qsum (map (fun s => f s + g s) l) == Qsum (map f l) + Qsum (map g l))%Q.
Proof.
  induction l as [|x t IH]; simpl; [ring | rewrite IH; ring].
Qed.

Lemma Qsum_cons q l : Qsum (q :: l) = (q + Qsum l)%Q.
Proof. reflexivity. Qed.

Lemma Qsum_ext {X : Type} (g h : X -> Q) l :
  (forall x, g x == h x)%Q -> (Qsum (map g l) == Qsum (map h l))%Q.
Proof.
  intros H. induction l as [|x t IH]; [reflexivity|].
  rewrite !map_cons, !Qsum_cons. now rewrite IH, H.
Qed.

Lemma Qsum_zero {X : Type} (l : list X) :
  (Qsum (map (fun _ => 0%Q) l) == 0)%Q.
Proof.
  induction l as [|x t IH]; [reflexivity|].
  change (0 + Qsum (map (fun _ : X => 0%Q) t) == 0)%Q. rewrite IH. ring.
Qed.

(** Summing per stock and then over the stocks is summing over the
    rows. *)
Lemma regroup_by_stock (f : Row -> Q) L rows :
  NoDup L -> (forall r, In r rows -> In (stock r) L) ->
  (Qsum (map (fun s => Qsum (map f (stock_rows s rows))) L)
   == Qsum (map f rows))%Q.
Proof.
  intros Hnd. induction rows as [|r t IH]; intros Hin.
  - change (Qsum (map (fun _ : string => 0%Q) L) == 0)%Q. apply Qsum_zero.
  - assert (E : forall s,
               Qsum (map f (stock_rows s (r :: t)))
               = ((if stock r =s? s then f r else 0)
                  + Qsum (map f (stock_rows s t)))%Q
               \/ (stock r =s? s) = false /\
                  Qsum (map f (stock_rows s (r :: t)))
                  = Qsum (map f (stock_rows s t))).
    { intros s. unfold stock_rows. simpl.
      destruct (stock r =s? s);
        [left; reflexivity | right; split; reflexivity]. }
    assert (E' : forall s,
               (Qsum (map f (stock_rows s (r :: t)))
                == (if stock r =s? s then f r else 0)
                   + Qsum (map f (stock_rows s t)))%Q).
    { intros s. destruct (E s) as [->|[B ->]]; [reflexivity|].
      rewrite B. ring. }
    assert (M : (Qsum (map (fun s => Qsum (map f (stock_rows s (r :: t)))) L)
                 == Qsum (map (fun s => (if stock r =s? s then f r else 0)
                                        + Qsum (map f (stock_rows s t)))%Q
                              L))%Q).
    { apply Qsum_ext. exact E'. }
    rewrite M, Qsum_plus.
    rewrite (Qsum_indicator (stock r) (f r) L Hnd
               (Hin r (or_introl eq_refl))).
    rewrite IH by (intros r' Hr'; apply Hin; now right).
    reflexivity.
Qed.

Lemma idx_best_valid better s :
  s <> [] -> (forall name c, In (name, c) s -> c <> NaN) ->
  exists label, idx_best better s = Ok label.
Proof.
  destruct s as [|[name c] t]; [congruence|]. intros _ H.
  destruct c as [|q].
  - exfalso. apply (H name NaN); [now left | reflexivity].
  - simpl. eexists. reflexivity.
Qed.

Lemma self_data_label_rows name data :
  data <> [] -> self_data_label name data = Ok tt.
Proof. destruct data; [congruence | reflexivity]. Qed.

Lemma latest_date_spec data :
  data <> [] ->
  exists latest,
    latest_date data = Some latest /\
    (exists r, In r data /\ date r = latest) /\
    forall r, In r data -> date r <= latest.
Proof.
  destruct data as [|r0 t]; [congruence|]. intros _.
  unfold latest_date. simpl map.
  destruct (fold_max_spec (map date t) (date r0)) as [Hin Hmax].
  eexists. split; [reflexivity|]. split.
  - change (date r0 :: map date t) with (map date (r0 :: t)) in Hin.
    apply in_map_iff in Hin. destruct Hin as (r & E & Hr). now exists r.
  - intros r Hr. apply Hmax.
    change (date r0 :: map date t) with (map date (r0 :: t)).
    now apply in_map.
Qed.

(** X12.  The statistics of the distribution branch look only at the
    rows of the latest date of the frame: the holding count is the number
    of distinct stocks with a row on that date (at least one) and the
    total value is the sum of [market_value] over those rows; a stock whose
    last row is earlier is not counted, nothing is carried forward.  They
    are computed for every frame with rows; [self.data] without rows is
    [pd.DataFrame()], which has no [date] column, and reading it fails
    with [KeyError]. *)
Theorem distribution_statistics_use_latest_date :
  (forall data,
      data <> [] ->
      exists stats latest n total,
        distribution_stats data = Ok stats /\
        latest_date data = Some latest /\
        (exists r, In r data /\ date r = latest) /\
        (forall r, In r data -> date r <= latest) /\
        dict_get stats "Number of Holdings" = Some (Count n) /\
        n = List.length
              (sort_labels
                 (map stock (filter (fun r => date r =? latest) data))) /\
        (1 <= n)%nat /\
        dict_get stats "Total Portfolio Value" = Some (Dollars (Val total)) /\
        (total == group_sum market_value data latest)%Q) /\
  distribution_stats [] = Raise (KeyError "date").
Proof.
  split; [|reflexivity].
  intros data Hne.
  destruct (latest_date_spec data Hne)
    as (latest & HL & (r0 & Hr0 & Hd0) & Hmax).
  set (rows := filter (fun r => date r =? latest) data).
  set (L := sort_labels (map stock rows)).
  assert (Hrow : In r0 rows).
  { apply filter_In. split; [assumption | now apply Z.eqb_eq]. }
  assert (HLne : L <> []).
  { intros E. assert (H : In (stock r0) L)
      by (apply sort_labels_In; now apply in_map).
    rewrite E in H. destruct H. }
  assert (Hvalid : forall name c,
             In (name, c) (groupby_stock_sum market_value rows) -> c <> NaN).
  { intros name c Hin. unfold groupby_stock_sum in Hin.
    apply in_map_iff in Hin. destruct Hin as (s & E & _).
    injection E as _ <-. discriminate. }
  assert (Hhne : groupby_stock_sum market_value rows <> []).
  { unfold groupby_stock_sum. fold L. destruct L; [congruence | discriminate]. }
  destruct (idx_best_valid (fun q best => Qlt_bool best q) _ Hhne Hvalid)
    as [largest Hlargest].
  destruct (idx_best_valid (fun q best => Qlt_bool q best) _ Hhne Hvalid)
    as [smallest Hsmallest].
  eexists. exists latest. eexists. eexists.
  split; [|split; [exact HL|split; [now exists r0|split; [exact Hmax|]]]].
  - unfold distribution_stats.
    rewrite (self_data_label_rows "date" data Hne). cbn [bind].
    rewrite HL. fold rows.
    unfold idxmax, idxmin. rewrite Hlargest, Hsmallest. reflexivity.
  - split; [reflexivity|]. split.
    + unfold groupby_stock_sum. fold L. now rewrite length_map.
    + split.
      * unfold groupby_stock_sum. rewrite length_map. fold L.
        destruct L; [congruence | simpl; lia].
      * split; [reflexivity|].
        unfold groupby_stock_sum. fold L. rewrite map_map. simpl.
        unfold group_sum. fold rows.
        rewrite (sum_skipna_Qsum
                   (fun s => Val (sum_skipna (map market_value
                                                  (stock_rows s rows)))) L).
        simpl. rewrite (sum_skipna_Qsum market_value rows).
        rewrite <- (regroup_by_stock (fun r => fillna0 (market_value r))
                      L rows).
        -- apply Qsum_ext. intros s. now rewrite sum_skipna_Qsum.
        -- apply sort_labels_NoDup.
        -- intros r Hr. apply sort_labels_In. now apply in_map.
Qed.

Lemma distribution_statistics_use_latest_date_witness :
  exists stats,
    distribution_stats sample_market = Ok stats /\
    dict_get stats "Number of Holdings" = Some (Count 1).
Proof.
  destruct (proj1 distribution_statistics_use_latest_date sample_market)
    as (stats & latest & n & total & E & HL & _ & _ & Hn & -> & _).
  - discriminate.
  - exists stats. split; [exact E|].
    injection HL as <-. exact Hn.
Defined.

(** ** More on the delta transform *)

Lemma assign_value_other_columns mask data vals :
  map (set_value NaN) (assign_value mask data vals)
  = map (set_value NaN) data.
Proof.
  revert vals. induction data as [|r t IH]; intros vals; simpl.
  - reflexivity.
  - destruct (mask r); [destruct vals as [|v vs]|]; simpl; now rewrite IH.
Qed.

Lemma loc_set_value_other_columns mask data vals :
  map (set_value NaN) (df_rows (loc_set_value mask data vals))
  = map (set_value NaN) (df_rows data).
Proof.
  unfold loc_set_value. cbn [df_rows]. rewrite assign_value_other_columns.
  unfold with_value_column.
  destruct (has_column ValueCol data); [reflexivity|].
  cbn [df_rows]. rewrite map_map. reflexivity.
Qed.

Lemma loc_set_value_labels c mask data vals :
  c <> ValueCol ->
  has_column c (loc_set_value mask data vals) = has_column c data.
Proof.
  intros Hc. unfold loc_set_value, with_value_column.
  destruct (has_column ValueCol data); [reflexivity|].
  unfold has_column. cbn [df_columns]. rewrite existsb_app.
  destruct c; try congruence; simpl; apply orb_false_r.
Qed.

Lemma deltas_for_stock_result p sym data out :
  deltas_for_stock p sym data = Ok out ->
  exists vals, out = loc_set_value (fun r => stock r =s? sym) data vals.
Proof.
  unfold deltas_for_stock.
  destruct (metric p) as [[m|ms]|]; cbn [bind]; try discriminate.
  destruct (get_column data _) as [c|e]; cbn [bind]; [|discriminate].
  destruct (column_diff c _) as [vals|e]; cbn [bind]; [|discriminate].
  intros E. injection E as <-. now exists vals.
Qed.

Lemma deltas_per_stock_other_columns p stocks :
  forall data out,
    deltas_per_stock p stocks data = Ok out ->
    map (set_value NaN) (df_rows out) = map (set_value NaN) (df_rows data) /\
    forall c, c <> ValueCol -> has_column c out = has_column c data.
Proof.
  induction stocks as [|sym rest IH]; intros data out H; simpl in H.
  - injection H as <-. split; reflexivity.
  - destruct (deltas_for_stock p sym data) as [data1|e] eqn:E;
      cbn [bind] in H; [|discriminate].
    destruct (deltas_for_stock_result p sym data data1 E) as [vals ->].
    destruct (IH _ _ H) as [Hrows Hcols]. split.
    + rewrite Hrows. apply loc_set_value_other_columns.
    + intros c Hc. rewrite (Hcols c Hc). now apply loc_set_value_labels.
Qed.

(** X13.  [calculate_deltas] writes to the [value] column and to nothing
    else: whenever it returns, the frame has the same rows in the same
    order, equal to the input in every column but [value], and the same
    columns but for [value], which the individual-stocks view adds when
    it is not there. *)
Theorem calculate_deltas_only_writes_value (data out : DataFrame)
    (p : Params) :
  calculate_deltas data p = Ok out ->
  map (set_value NaN) (df_rows out) = map (set_value NaN) (df_rows data) /\
  List.length (df_rows out) = List.length (df_rows data) /\
  map date (df_rows out) = map date (df_rows data) /\
  map stock (df_rows out) = map stock (df_rows data) /\
  (forall c, c <> ValueCol -> has_column c out = has_column c data).
Proof.
  intros H.
  assert (E : map (set_value NaN) (df_rows out)
              = map (set_value NaN) (df_rows data) /\
              forall c, c <> ValueCol -> has_column c out = has_column c data).
  { unfold calculate_deltas in H.
    destruct (view_type p =s? "individual_stocks").
    - destruct (get_column data "stock"); cbn [bind] in H; [|discriminate].
      now apply (deltas_per_stock_other_columns p _ _ _ H).
    - destruct (get_column data "value"); cbn [bind] in H; [|discriminate].
      injection H as <-. split; [|reflexivity].
      apply assign_value_other_columns. }
  destruct E as [E Hcols].
  split; [exact E|]. split; [|split; [|split; [|exact Hcols]]].
  - rewrite <- (length_map (set_value NaN) (df_rows out)), E. apply length_map.
  - assert (D : forall l, map date l = map date (map (set_value NaN) l))
      by (intros l; rewrite map_map; reflexivity).
    now rewrite (D (df_rows out)), (D (df_rows data)), E.
  - assert (D : forall l, map stock l = map stock (map (set_value NaN) l))
      by (intros l; rewrite map_map; reflexivity).
    now rewrite (D (df_rows out)), (D (df_rows data)), E.
Qed.

Lemma calculate_deltas_only_writes_value_witness :
  exists out,
    calculate_deltas sample_market_frame params_deltas = Ok out /\
    map (set_value NaN) (df_rows out) = map (set_value NaN) sample_market.
Proof.
  eexists. split; [reflexivity|].
  apply (calculate_deltas_only_writes_value sample_market_frame _
           params_deltas eq_refl).
Defined.

Lemma dict_fromkeys_nonempty l : l <> [] -> dict_fromkeys l <> [].
Proof.
  destruct l as [|x t]; [congruence|]. intros _ E.
  assert (H : In x (dict_fromkeys (x :: t)))
    by (apply dict_fromkeys_In; now left).
  rewrite E in H. destruct H.
Qed.






Lemma last_cons_default {X : Type} (b : X) t a : last (b :: t) a = last t b.
Proof.
  revert a b. induction t as [|c t IH]; intros a b; [reflexivity|].
  change (last (b :: c :: t) a) with (last (c :: t) a).
  now rewrite (IH a c), (IH b c).
Qed.

Lemma diff_from_telescopes a qs :
  (sum_skipna (diff_from (Val a) (map Val qs)) == last qs a - a)%Q.
Proof.
  revert a. induction qs as [|b t IH]; intros a.
  - simpl. ring.
  - rewrite last_cons_default.
    change (sum_skipna (diff_from (Val a) (map Val (b :: t))))
      with ((b - a) + sum_skipna (diff_from (Val b) (map Val t)))%Q.
    rewrite IH. ring.
Qed.

(** X15.  The deltas of a series of numbers add up to its net change:
    the sum of the deltas is the last value minus the first. *)
Theorem deltas_sum_to_net_change (q : Q) (qs : list Q) :
  (sum_skipna (diff (map Val (q :: qs))) == last (q :: qs) q - q)%Q.
Proof.
  change (sum_skipna (diff (map Val (q :: qs))))
    with (0 + sum_skipna (diff_from (Val q) (map Val qs)))%Q.
  rewrite diff_from_telescopes, last_cons_default. ring.
Qed.

(** ** More on field resolution *)

Lemma requested_fields_split p :
  requested_fields p = requested_fields (without_metrics p) ++ extra_metrics p.
Proof.
  unfold requested_fields, extra_metrics, without_metrics. simpl.
  destruct (dict_get study_type_mapping (study_type p));
    destruct (metric p) as [[m|ms]|]; destruct (metrics p);
    simpl; rewrite <- ?app_assoc; simpl; rewrite ?app_nil_r; reflexivity.
Qed.

Lemma dict_add_keys_present l acc :
  (forall k, In k l -> In k acc) -> fold_left dict_add_key l acc = acc.
Proof.
  induction l as [|k t IH]; intros H; simpl.
  - reflexivity.
  - unfold dict_add_key at 2.
    rewrite (proj2 (mem_string_In k acc) (H k (or_introl eq_refl))).
    apply IH. intros x Hx. apply H. now right.
Qed.

(** X16.  A metric that the study type already selects changes nothing:
    when every name given in [metric] and [metrics] is among the columns
    of the study type, the column list is the one obtained without them.
    The columns of a study type do not depend on the other parameters,
    and the market-value study selects no column beyond [date] and
    [market_value]. *)
Theorem redundant_metrics_change_nothing (p : Params) :
  ((forall m, In m (extra_metrics p) ->
              In m (requested_fields (without_metrics p))) ->
   resolve_fields p = resolve_fields (without_metrics p)) /\
  (study_type p = "market_value" ->
   resolve_fields (without_metrics p) = ["date"; "market_value"]) /\
  (study_type p = "profitability" ->
   resolve_fields (without_metrics p)
   = ["date"; "market_value"; "total_return"; "daily_pl"; "daily_pl_pct";
      "total_return_pct"; "cumulative_return_pct"]) /\
  (study_type p = "dividend_performance" ->
   resolve_fields (without_metrics p)
   = ["date"; "market_value"; "cash_dividend"; "cash_dividends_total";
      "drp_share"; "drp_shares_total"; "close_price"]).
Proof.
  split; [|split; [|split]].
  - intros H. unfold resolve_fields. rewrite requested_fields_split.
    unfold dict_fromkeys. rewrite fold_left_app.
    apply dict_add_keys_present. intros k Hk.
    apply dict_add_keys_In. right. now apply H.
  - intros E. unfold resolve_fields, requested_fields, without_metrics.
    simpl. rewrite E. reflexivity.
  - intros E. unfold resolve_fields, requested_fields, without_metrics.
    simpl. rewrite E. reflexivity.
  - intros E. unfold resolve_fields, requested_fields, without_metrics.
    simpl. rewrite E. reflexivity.
Qed.

Lemma redundant_metrics_change_nothing_witness :
  resolve_fields params_redundant_metrics
  = resolve_fields (without_metrics params_redundant_metrics).
Proof.
  apply (proj1 (redundant_metrics_change_nothing params_redundant_metrics)).
  intros m [<-|[<-|[<-|[]]]]; simpl; tauto.
Defined.

(** ** The distribution pie *)

Lemma day_range_head lo hi :
  lo <= hi -> exists rest, day_range lo hi = lo :: rest.
Proof.
  intros H. unfold day_range.
  replace (Z.to_nat (hi - lo + 1)) with (S (Z.to_nat (hi - lo))) by lia.
  simpl. rewrite Z.add_0_r. eexists. reflexivity.
Qed.

Lemma flat_map_tabulated {X Y Z' : Type} (f : Y -> list Z') (g : X -> Y) l :
  flat_map f (map g l) = flat_map (fun x => f (g x)) l.
Proof. induction l as [|x t IH]; simpl; [reflexivity | now rewrite IH]. Qed.

Lemma Qlt_bool_spec a b : Qlt_bool a b = true <-> (a < b)%Q.
Proof.
  unfold Qlt_bool. rewrite negb_true_iff. split.
  - intros H. apply Qnot_le_lt. intros L. apply Qle_bool_iff in L. congruence.
  - intros L. destruct (Qle_bool b a) eqn:B; [|reflexivity].
    apply Qle_bool_iff in B. exfalso. apply (Qlt_not_le _ _ L B).
Qed.

Lemma cell_at_valid col data d s q :
  has_duplicate_keys data = false ->
  cell_at col data d s = Val q <->
  exists r, In r data /\ date r = d /\ stock r = s /\ col r = Val q.
Proof.
  intros Hnd. split.
  - unfold cell_at.
    destruct (find (has_key d s) data) as [r|] eqn:F; [|discriminate].
    intros Hq. apply find_some in F. destruct F as [Hin Hk].
    unfold has_key in Hk. apply andb_true_iff in Hk. destruct Hk as [Hd Hs].
    apply Z.eqb_eq in Hd. apply String.eqb_eq in Hs. now exists r.
  - intros (r & Hr & <- & <- & Hq). now rewrite cell_at_row.
Qed.

Lemma ffill_head (g : Z -> cell) d rest :
  nth 0 (ffill_from NaN (map g (d :: rest))) NaN = g d.
Proof. simpl. now destruct (g d). Qed.

Lemma plot_distribution_aligned tab_widget data :
  has_duplicate_keys data = false ->
  plot_distribution tab_widget data
  = let plot_data := aligned_table market_value data in
    match w_index plot_data with
    | [] => Ok [Text "No data available for selected date range"]
    | current_date :: _ =>
        match tab_widget with
        | None => Raise AttributeError
        | Some tabs =>
            match find_charts_tab tabs with
            | None => Ok []
            | Some charts_tab =>
                if tab_has_layout charts_tab then
                  match
                    flat_map
                      (fun sc =>
                         match nth 0 (snd sc) NaN with
                         | Val q => if Qlt_bool 0 q then [(fst sc, q)] else []
                         | NaN => []
                         end)
                      (w_columns plot_data)
                  with
                  | [] => Ok [Text "No positive market values to display"]
                  | w :: ws => Ok [Pie current_date (w :: ws)]
                  end
                else Raise AttributeError
            end
        end
    end.
Proof.
  intros Hnd. unfold plot_distribution.
  rewrite (unstack_tabulate _ _ Hnd). cbn [bind].
  change (ffill (asfreq_D
                   (tabulate (sort_dates (map date data))
                             (sort_labels (map stock data))
                             (cell_at market_value data))))
    with (aligned_table market_value data).
  cbv zeta.
  destruct (w_index (aligned_table market_value data)); [reflexivity|].
  destruct tab_widget as [tabs|]; [|reflexivity]. cbn [bind].
  destruct (find_charts_tab tabs) as [charts_tab|]; [|reflexivity].
  destruct (tab_has_layout charts_tab); [|reflexivity].
  destruct (flat_map _ _); reflexivity.
Qed.

Lemma find_charts_tab_none tabs :
  find_charts_tab tabs = None
  <-> forall t, In t tabs -> tab_text t <> "Charts".
Proof.
  unfold find_charts_tab. split.
  - intros H t Ht E.
    assert (F := find_none _ _ H t Ht). cbv beta in F.
    rewrite E in F. discriminate F.
  - intros H. induction tabs as [|t ts IH]; [reflexivity|]. simpl.
    destruct (tab_text t =s? "Charts") eqn:E.
    + apply String.eqb_eq in E. exfalso. now apply (H t (or_introl eq_refl)).
    + apply IH. intros t' Ht'. apply H. now right.
Qed.

(** X17.  [plot_distribution] draws only when the view has a tab whose
    text is "Charts": without such a tab it logs an error and returns with
    nothing drawn; when the view has no [QTabWidget], or when the tab has
    no layout to take the slider, it fails with [AttributeError].  With the
    tab, the pie it draws first is the one of the earliest date of the
    frame: it has one wedge for each stock whose row on that date has a
    strictly positive market value, sized by that value; when no stock has
    one, the text "No positive market values to display" is drawn
    instead. *)
Theorem distribution_pie_shows_first_day (data : Frame) :
  has_duplicate_keys data = false -> data <> [] ->
  exists first wedges,
    (exists r, In r data /\ date r = first) /\
    (forall r, In r data -> first <= date r) /\
    (forall tabs charts_tab,
        find_charts_tab tabs = Some charts_tab ->
        tab_has_layout charts_tab = true ->
        plot_distribution (Some tabs) data
        = Ok (match wedges with
              | [] => [Text "No positive market values to display"]
              | _ :: _ => [Pie first wedges]
              end)) /\
    (forall tabs,
        (forall t, In t tabs -> tab_text t <> "Charts") ->
        plot_distribution (Some tabs) data = Ok []) /\
    (forall tabs charts_tab,
        find_charts_tab tabs = Some charts_tab ->
        tab_has_layout charts_tab = false ->
        plot_distribution (Some tabs) data = Raise AttributeError) /\
    plot_distribution None data = Raise AttributeError /\
    forall s q,
      In (s, q) wedges <->
      (0 < q)%Q /\
      exists r, In r data /\ date r = first /\ stock r = s /\
                market_value r = Val q.
Proof.
  intros Hnd Hne.
  destruct (sort_dates (map date data)) as [|d0 ds] eqn:Hidx.
  { destruct data as [|r0 t]; [congruence|].
    assert (H : In (date r0) (sort_dates (map date (r0 :: t))))
      by (apply sort_dates_In; now left).
    rewrite Hidx in H. destruct H. }
  destruct (fold_min_spec ds d0) as [Hlo Hmin].
  destruct (fold_max_spec ds d0) as [_ Hmax].
  set (lo := fold_left Z.min ds d0) in *.
  set (hi := fold_left Z.max ds d0) in *.
  assert (Hle : lo <= hi).
  { assert (A := Hmin d0 (or_introl eq_refl)).
    assert (B := Hmax d0 (or_introl eq_refl)). lia. }
  destruct (day_range_head lo hi Hle) as [rest Hrange].
  set (L := sort_labels (map stock data)).
  set (W := flat_map
              (fun s =>
                 match cell_at market_value data lo s with
                 | Val q => if Qlt_bool 0 q then [(s, q)] else []
                 | NaN => []
                 end) L).
  assert (P : forall tab_widget,
             plot_distribution tab_widget data
             = match tab_widget with
               | None => Raise AttributeError
               | Some tabs =>
                   match find_charts_tab tabs with
                   | None => Ok []
                   | Some charts_tab =>
                       if tab_has_layout charts_tab then
                         Ok (match W with
                             | [] =>
                                 [Text "No positive market values to display"]
                             | _ :: _ => [Pie lo W]
                             end)
                       else Raise AttributeError
                   end
               end).
  { intros tab_widget.
    rewrite (plot_distribution_aligned tab_widget data Hnd). cbv zeta.
    unfold aligned_table. rewrite Hidx.
    rewrite (aligned_frame market_value data
               (sort_labels (map stock data)) d0 ds Hidx).
    fold lo hi L. rewrite Hrange. cbn [w_index w_columns].
    rewrite flat_map_tabulated.
    rewrite (flat_map_ext _
               (fun s =>
                  match cell_at market_value data lo s with
                  | Val q => if Qlt_bool 0 q then [(s, q)] else []
                  | NaN => []
                  end)).
    2:{ intros s. cbn [fst snd]. now rewrite ffill_head. }
    fold W.
    destruct tab_widget as [tabs|]; [|reflexivity].
    destruct (find_charts_tab tabs) as [charts_tab|]; [|reflexivity].
    destruct (tab_has_layout charts_tab); [|reflexivity].
    destruct W; reflexivity. }
  exists lo, W.
  split; [|split; [|split; [|split; [|split; [|split]]]]].
  - rewrite <- Hidx in Hlo. apply sort_dates_In, in_map_iff in Hlo.
    destruct Hlo as (r & E & Hr). now exists r.
  - intros r Hr. apply Hmin. rewrite <- Hidx.
    apply sort_dates_In. now apply in_map.
  - intros tabs charts_tab Hf Hl. now rewrite (P (Some tabs)), Hf, Hl.
  - intros tabs Hf. apply find_charts_tab_none in Hf.
    now rewrite (P (Some tabs)), Hf.
  - intros tabs charts_tab Hf Hl. now rewrite (P (Some tabs)), Hf, Hl.
  - apply (P None).
  - intros s q. unfold W. rewrite in_flat_map. split.
    + intros (s' & Hs' & Hin).
      destruct (cell_at market_value data lo s') as [|q'] eqn:C;
        [destruct Hin|].
      destruct (Qlt_bool 0 q') eqn:B; [|destruct Hin].
      destruct Hin as [E|[]]. injection E as -> ->.
      split; [now apply Qlt_bool_spec|].
      now apply (cell_at_valid market_value data lo s q Hnd).
    + intros (Hq & r & Hr & Hd & Hs & Hv).
      exists s. split.
      * apply sort_labels_In. rewrite <- Hs. now apply in_map.
      * rewrite (proj2 (cell_at_valid market_value data lo s q Hnd)).
        2:{ now exists r. }
        rewrite (proj2 (Qlt_bool_spec 0 q) Hq). now left.
Qed.

Lemma distribution_pie_shows_first_day_witness :
  exists first wedges,
    plot_distribution sample_tab_widget sample_market
    = Ok (match wedges with
          | [] => [Text "No positive market values to display"]
          | _ :: _ => [Pie first wedges]
          end) /\
    plot_distribution (Some [mkTab "Statistics" true]) sample_market = Ok [] /\
    (exists r, In r sample_market /\ date r = first).
Proof.
  destruct (distribution_pie_shows_first_day sample_market eq_refl)
    as (first & wedges & Hr & _ & E & N & _).
  - discriminate.
  - exists first, wedges. split; [|split; [|exact Hr]].
    + apply (E _ (mkTab "Charts" true)); reflexivity.
    + apply N. intros t [<-|[]]. discriminate.
Defined.

(** ** When a frame can be reshaped *)

Lemma has_key_row_key d s r : has_key d s r = true <-> row_key r = (d, s).
Proof.
  unfold has_key, row_key. rewrite andb_true_iff, Z.eqb_eq, String.eqb_eq.
  split; [intros [-> ->]; reflexivity | intros E; now injection E].
Qed.

Lemma has_duplicate_keys_NoDup data :
  has_duplicate_keys data = false <-> NoDup (map row_key data).
Proof.
  induction data as [|r t IH]; simpl.
  - split; [constructor | reflexivity].
  - rewrite orb_false_iff, IH, NoDup_cons_iff.
    assert (E : existsb (has_key (date r) (stock r)) t = false
                <-> ~ In (row_key r) (map row_key t)).
    { split.
      - intros H Hin. apply in_map_iff in Hin. destruct Hin as (x & Hk & Hx).
        assert (T : existsb (has_key (date r) (stock r)) t = true).
        { apply existsb_exists. exists x. split; [assumption|].
          now apply has_key_row_key. }
        congruence.
      - intros H.
        destruct (existsb (has_key (date r) (stock r)) t) eqn:B;
          [|reflexivity].
        exfalso. apply H. apply existsb_exists in B.
        destruct B as (x & Hx & Hk). apply has_key_row_key in Hk.
        apply in_map_iff. now exists x. }
    now rewrite E.
Qed.

(** X18.  Pivoting a frame fails exactly when two of its rows carry the
    same date and stock, whatever the column; otherwise the pivoted
    frame has the dates of the frame as its index, the stocks of the
    frame as its columns, and at the date and stock of each row the cell
    of that row. *)
Theorem unstack_fails_on_repeated_key (col : Row -> cell) (data : Frame) :
  (~ NoDup (map row_key data) ->
   unstack col data
   = Raise (ValueError "Index contains duplicate entries, cannot reshape")) /\
  (NoDup (map row_key data) ->
   exists w,
     unstack col data = Ok w /\
     (forall d, In d (w_index w) <-> In d (map date data)) /\
     (forall s, In s (map fst (w_columns w)) <-> In s (map stock data)) /\
     (forall r, In r data -> wide_at w (date r) (stock r) = Some (col r))).
Proof.
  split.
  - intros H. unfold unstack.
    destruct (has_duplicate_keys data) eqn:D; [reflexivity|].
    exfalso. apply H. now apply has_duplicate_keys_NoDup.
  - intros H. apply has_duplicate_keys_NoDup in H.
    eexists. split; [apply (unstack_tabulate _ _ H)|]. split; [|split].
    + intros d. apply sort_dates_In.
    + intros s. rewrite tabulate_labels. apply sort_labels_In.
    + intros r Hr. rewrite wide_at_tabulate.
      * now rewrite cell_at_row.
      * apply sort_dates_In. now apply in_map.
      * apply sort_labels_In. now apply in_map.
Qed.

Lemma unstack_fails_on_repeated_key_witness :
  exists w,
    unstack market_value sample_market = Ok w /\
    wide_at w 19724 "AAA.AX" = Some (Val 110).
Proof.
  destruct (proj2 (unstack_fails_on_repeated_key market_value sample_market))
    as (w & E & _ & _ & H).
  - apply has_duplicate_keys_NoDup. reflexivity.
  - exists w. split; [exact E|].
    apply (H (market_row 19724 "AAA.AX" 110)). simpl. tauto.
Defined.

Lemma tagged_rows_unique_keys get_stock rows symbols :
  NoDup symbols ->
  (forall sym st, In sym symbols -> get_stock sym = Some st ->
                  NoDup (map date (rows st))) ->
  NoDup (map row_key (tagged_rows get_stock rows symbols)).
Proof.
  induction symbols as [|sym rest IH]; intros Hnd Hdates.
  - constructor.
  - inversion Hnd as [|? ? Hsym Hrest]; subst.
    change (sym :: rest) with ([sym] ++ rest).
    rewrite tagged_rows_app, map_app. apply NoDup_app.
    + unfold tagged_rows. simpl. rewrite app_nil_r.
      destruct (get_stock sym) as [st|] eqn:G; [|constructor].
      rewrite map_map.
      replace (map (fun r => row_key (set_stock sym r)) (rows st))
        with (map (fun d => (d, sym)) (map date (rows st)))
        by (rewrite map_map; reflexivity).
      apply Injective_map_NoDup.
      * intros a b E. now injection E.
      * apply (Hdates sym st (or_introl eq_refl) G).
    + apply IH; [assumption|].
      intros s st Hs. apply Hdates. now right.
    + intros k Hk Hk'.
      apply in_map_iff in Hk. destruct Hk as (r & <- & Hr).
      apply in_map_iff in Hk'. destruct Hk' as (r' & E & Hr').
      apply tagged_rows_In in Hr, Hr'.
      destruct Hr as [[Hs|[]] _]. destruct Hr' as [Hin _].
      unfold row_key in E. injection E as _ Es.
      apply Hsym. rewrite Hs, <- Es. exact Hin.
Qed.

Lemma distribution_stats_nonempty data :
  data <> [] ->
  exists stats,
    distribution_stats data = Ok stats /\ map fst stats = distribution_labels.
Proof.
  intros Hne.
  destruct (latest_date_spec data Hne) as (latest & HL & (r0 & Hr0 & Hd0) & _).
  set (rows := filter (fun r => date r =? latest) data).
  assert (Hrow : In r0 rows).
  { apply filter_In. split; [assumption | now apply Z.eqb_eq]. }
  assert (Hhne : groupby_stock_sum market_value rows <> []).
  { unfold groupby_stock_sum.
    assert (H : In (stock r0) (sort_labels (map stock rows)))
      by (apply sort_labels_In; now apply in_map).
    destruct (sort_labels (map stock rows)); [destruct H | discriminate]. }
  assert (Hvalid : forall name c,
             In (name, c) (groupby_stock_sum market_value rows) -> c <> NaN).
  { intros name c Hin. unfold groupby_stock_sum in Hin.
    apply in_map_iff in Hin. destruct Hin as (s & E & _).
    injection E as _ <-. discriminate. }
  destruct (idx_best_valid (fun q best => Qlt_bool best q) _ Hhne Hvalid)
    as [largest Hlargest].
  destruct (idx_best_valid (fun q best => Qlt_bool q best) _ Hhne Hvalid)
    as [smallest Hsmallest].
  eexists. split.
  - unfold distribution_stats.
    rewrite (self_data_label_rows "date" data Hne). cbn [bind].
    rewrite HL. fold rows.
    unfold idxmax, idxmin. rewrite Hlargest, Hsmallest. reflexivity.
  - reflexivity.
Qed.

Lemma plot_market_value_succeeds data p :
  has_duplicate_keys data = false ->
  exists chart, plot_market_value data p = Ok chart.
Proof.
  intros Hnd. rewrite (plot_market_value_aligned data p Hnd). cbv zeta.
  destruct (view_type p =s? "individual_stocks"); [eexists; reflexivity|].
  destruct (chart_type p =s? "line_chart"); [eexists; reflexivity|].
  destruct (chart_type p =s? "stacked_area"); eexists; reflexivity.
Qed.

(** X19.  The market-value analysis runs to the end whenever the
    selection names no symbol twice, every read succeeds with at most one
    row per date, and at least one selected stock has rows: the fetched
    frame becomes [self.data], a chart is drawn and the statistics table
    is filled, with the four statistics of the distribution branch. *)
Theorem market_value_analysis_succeeds
    (get_stock : string -> option Stock)
    (fetch_metrics : list string -> Z -> Z -> Z -> result exn (list Row))
    (tab_widget : option (list Tab))
    (p : Params) (rows : Stock -> list Row) (self_data : Frame) :
  (forall sym st, In sym (selected_stocks p) -> get_stock sym = Some st ->
                  fetch_metrics (resolve_fields p) (stock_id st)
                                (start_date p) (end_date p) = Ok (rows st)) ->
  NoDup (selected_stocks p) ->
  (forall sym st, In sym (selected_stocks p) -> get_stock sym = Some st ->
                  NoDup (map date (rows st))) ->
  (exists sym st, In sym (selected_stocks p) /\ get_stock sym = Some st /\
                  rows st <> []) ->
  study_type p = "market_value" ->
  exists chart stats,
    analyse_portfolio get_stock fetch_metrics tab_widget self_data p
    = (tagged_rows get_stock rows (selected_stocks p), Updated chart stats) /\
    map fst stats = distribution_labels.
Proof.
  intros Hread Hsel Hdates (sym & st & Hin & Hst & Hrows) Hstudy.
  set (data := tagged_rows get_stock rows (selected_stocks p)).
  assert (Hne : data <> []).
  { intros E. destruct (rows st) as [|r rs] eqn:R; [congruence|].
    assert (H : In (set_stock sym r) data).
    { unfold data, tagged_rows. apply in_flat_map. exists sym.
      split; [assumption|]. rewrite Hst, R. now left. }
    rewrite E in H. destruct H. }
  assert (Hnd : has_duplicate_keys data = false).
  { apply has_duplicate_keys_NoDup.
    now apply tagged_rows_unique_keys. }
  destruct (plot_market_value_succeeds data p Hnd) as [chart Hchart].
  destruct (distribution_stats_nonempty data Hne) as (stats & Hstats & Hlab).
  exists chart, stats. split; [|exact Hlab].
  unfold analyse_portfolio.
  rewrite (get_portfolio_data_all_read get_stock fetch_metrics p rows Hread).
  fold data. destruct data as [|r0 t] eqn:D; [congruence|].
  unfold plot_study, update_statistics_table. rewrite Hstudy.
  simpl String.eqb. cbv iota. rewrite Hchart. simpl bind.
  rewrite Hstats. reflexivity.
Qed.

Lemma market_value_analysis_succeeds_witness :
  exists chart stats,
    analyse_portfolio sample_get_stock fetch_two_rows sample_tab_widget
      [] params_market_total
    = (tagged_rows sample_get_stock two_rows ["AAA.AX"; "BBB.AX"],
       Updated chart stats) /\
    map fst stats = distribution_labels.
Proof.
  apply (market_value_analysis_succeeds sample_get_stock fetch_two_rows
           sample_tab_widget params_market_total two_rows []).
  - intros sym st _ _. reflexivity.
  - repeat constructor; simpl; intuition discriminate.
  - intros sym st _ _. repeat constructor; simpl; intuition discriminate.
  - exists "AAA.AX", (mkStock 7 "AAA.AX").
    split; [simpl; tauto|]. split; [reflexivity | discriminate].
  - reflexivity.
Defined.

(** ** The active-holdings query *)

(** X20.  [get_active_stocks_for_date_range] keeps the order of the rows
    of its query and returns, for each row, the stock the portfolio holds
    under the row's symbol; a row whose symbol the portfolio does not
    know is dropped, so the answer is never longer than the result set,
    and it has the same length exactly when every symbol is known. *)
Theorem active_stocks_follow_the_query
    (get_stock : string -> option Stock) (portfolio_id : Z)
    (fetch_activity :
       option string -> Z -> Z -> Z -> result exn (list ActivityRow))
    (start_ end_ : Z) (dividend_type : option string)
    (results : list ActivityRow) :
  fetch_activity dividend_type start_ end_ portfolio_id = Ok results ->
  exists stocks,
    get_active_stocks_for_date_range get_stock portfolio_id fetch_activity
      start_ end_ dividend_type = Ok stocks /\
    map Some stocks
    = filter (fun o => match o with Some _ => true | None => false end)
             (map (fun row => get_stock (act_symbol row)) results) /\
    (List.length stocks <= List.length results)%nat /\
    (List.length stocks = List.length results <->
     forall row, In row results -> get_stock (act_symbol row) <> None).
Proof.
  intros H. unfold get_active_stocks_for_date_range. rewrite H. simpl.
  eexists. split; [reflexivity|].
  clear H. induction results as [|row rest IH]; simpl.
  - repeat split; try reflexivity; intros; contradiction.
  - destruct IH as (IHm & IHl & IHe).
    destruct (get_stock (act_symbol row)) as [st|] eqn:G; simpl.
    + split; [now rewrite IHm|]. split; [lia|]. split.
      * intros E row' [<-|Hin]; [congruence|].
        apply IHe; [lia | assumption].
      * intros Hall. f_equal. apply IHe. intros row' Hin.
        apply Hall. now right.
    + split; [exact IHm|]. split; [lia|]. split.
      * intros E. lia.
      * intros Hall. exfalso. apply (Hall row (or_introl eq_refl) G).
Qed.

Lemma active_stocks_follow_the_query_witness :
  get_active_stocks_for_date_range sample_get_stock 1 fetch_three_active
    19723 19724 None
  = Ok [mkStock 7 "AAA.AX"; mkStock 8 "BBB.AX"].
Proof.
  destruct (active_stocks_follow_the_query sample_get_stock 1
              fetch_three_active 19723 19724 None _ eq_refl)
    as (stocks & E & Hm & _).
  rewrite E. f_equal. simpl in Hm.
  destruct stocks as [|s1 [|s2 [|s3 t]]]; try discriminate Hm.
  injection Hm as -> ->. reflexivity.
Defined.

(** ** The profitability plot of the whole portfolio *)

Lemma sum_axis1_nonempty col data :
  data <> [] -> sum_axis1 (aligned_table col data) <> [].
Proof.
  intros Hne E.
  assert (I : w_index (aligned_table col data) = [])
    by (rewrite <- sum_axis1_index, E; reflexivity).
  destruct data as [|r t]; [congruence|].
  assert (H : In (date r) (w_index (aligned_table col (r :: t)))).
  { apply aligned_index. exists r, r. simpl. repeat split; auto; lia. }
  rewrite I in H. destruct H.
Qed.

Lemma maybe_zeroed_succeeds (b : bool) (ys : Series) :
  ys <> [] ->
  exists out, (if b then zero_at_start_date ys else Ok ys) = Ok out.
Proof.
  intros H. destruct b; [now apply zero_at_start_date_nonempty|].
  now exists ys.
Qed.

(** X21.  In the portfolio-total view, on a frame with rows and without a
    repeated [(date, stock)] pair, [plot_profitability] never fails; it
    draws exactly one line, labelled "Portfolio Total", for the
    percentage chart and for the cumulative dollar chart, and no line at
    all for every other combination, such as the aggregated percentage
    chart or the daily dollar chart. *)
Theorem portfolio_profitability_one_line_or_none (data : Frame) (p : Params) :
  has_duplicate_keys data = false -> data <> [] ->
  view_type p <> "individual_stocks" ->
  (chart_type p = "percentage" \/
   (chart_type p = "dollar_value" /\ calculation_type p = "cumulative") ->
   exists ys, plot_profitability data p = Ok [Line "Portfolio Total" ys]) /\
  (chart_type p <> "percentage" ->
   (chart_type p <> "dollar_value" \/ calculation_type p <> "cumulative") ->
   plot_profitability data p = Ok []).
Proof.
  intros Hnd Hne Hv. apply String.eqb_neq in Hv.
  unfold plot_profitability. rewrite Hv. cbv zeta. split.
  - intros [Hc | [Hc Ht]].
    + rewrite Hc. simpl (_ =s? _). rewrite andb_false_r.
      destruct (calculation_type p =s? "daily") eqn:Hd.
      * apply String.eqb_eq in Hd. rewrite Hd. simpl (_ =s? _).
        rewrite andb_false_r. simpl. eexists. reflexivity.
      * rewrite !(unstack_tabulate _ _ Hnd). cbn [bind].
        change (ffill (asfreq_D
                         (tabulate (sort_dates (map date data))
                                   (sort_labels (map stock data))
                                   (cell_at total_return data))))
          with (aligned_table total_return data).
        change (ffill (asfreq_D
                         (tabulate (sort_dates (map date data))
                                   (sort_labels (map stock data))
                                   (cell_at market_value data))))
          with (aligned_table market_value data).
        destruct (maybe_zeroed_succeeds
                    (get_zero_at_start p
                     && (calculation_type p =s? "cumulative"))
                    (series_scale 100
                       (series_div
                          (sum_axis1 (aligned_table total_return data))
                          (sum_axis1 (aligned_table market_value data)))))
          as [out Hout].
        { unfold series_scale, series_div. intros E.
          apply map_eq_nil, map_eq_nil in E.
          now apply (sum_axis1_nonempty total_return data Hne). }
        rewrite Hout. cbn [bind log_and_reraise]. now exists out.
    + rewrite Hc, Ht. simpl (_ =s? _). cbn [andb].
      change (profitability_metric "dollar_value" "cumulative")
        with total_return.
      rewrite (unstack_tabulate _ _ Hnd). cbn [bind].
      change (ffill (asfreq_D
                       (tabulate (sort_dates (map date data))
                                 (sort_labels (map stock data))
                                 (cell_at total_return data))))
        with (aligned_table total_return data).
      destruct (maybe_zeroed_succeeds (get_zero_at_start p)
                  (sum_axis1 (aligned_table total_return data))
                  (sum_axis1_nonempty total_return data Hne))
        as [out Hout].
      rewrite Hout. cbn [bind log_and_reraise]. now exists out.
  - intros Hc Hother. apply String.eqb_neq in Hc. rewrite Hc.
    assert (B : (calculation_type p =s? "cumulative")
                && (chart_type p =s? "dollar_value") = false).
    { destruct Hother as [H|H]; apply String.eqb_neq in H; rewrite H;
        [apply andb_false_r | reflexivity]. }
    rewrite B. reflexivity.
Qed.

Lemma portfolio_profitability_one_line_or_none_witness :
  plot_profitability sample_returns
    (params_returns "aggregated_percentage" "cumulative")
  = Ok [] /\
  (exists ys,
      plot_profitability sample_returns
        (params_returns "dollar_value" "cumulative")
      = Ok [Line "Portfolio Total" ys]).
Proof.
  split.
  - apply (proj2 (portfolio_profitability_one_line_or_none sample_returns
                    (params_returns "aggregated_percentage" "cumulative")
                    eq_refl ltac:(discriminate) ltac:(discriminate))).
    + discriminate.
    + left. discriminate.
  - apply (proj1 (portfolio_profitability_one_line_or_none sample_returns
                    (params_returns "dollar_value" "cumulative")
                    eq_refl ltac:(discriminate) ltac:(discriminate))).
    right. split; reflexivity.
Defined.
